(* ===== verification/_CoqProject ===== *)
-Q . S2P
Prelude.v
Model.v
Session.v
Api.v
CartContext.v
Pricing.v
Routes.v
CartPage.v
Endpoints.v
Checkout.v
CartSpec.v
ProductDetail.v
Links.v
Products.v
Account.v
Views.v
