(* ===== verification/Prelude.v ===== *)
(** * TRENDNEST storefront client: a verification development

    The program is the React client of an e-commerce storefront
    ([src/frontend/src]).  Its stateful core is the cart synchroniser
    [CartProvider] of [contexts/CartContext.js]: it mirrors the server
    cart, issues the cart calls of [services/api.js], and re-fetches the
    cart after every mutation and on every change of the authentication
    value published by [AuthContext].  Around it sit the axios instance
    of [services/api.js] (bearer header taken from [localStorage],
    global session invalidation on 401, one request builder per REST
    method), the route guards of [App.js], the pages that drive the
    provider and the API ([pages/Cart.js], [pages/Checkout.js],
    [pages/Products.js], [pages/ProductDetail.js], [pages/Wishlist.js],
    [pages/Home.js], [pages/Profile.js]), and the links of every view, the footer
    ([components/layout/Footer.js]) and the admin dashboard
    ([pages/admin/AdminDashboard.js]) included, which lead from one
    page to another through the router.

    ** Files, in dependency order, and what they model

    - [Prelude] (this file): the notation scope [tn_scope], JavaScript
      value helpers (truthiness of strings, [a || b] on optional
      strings and numbers, [split], [includes], [trim], lower case, the segments
      of a URL path), [sum_by] (the [reduce] that sums a field) with its
      lemmas, the Section [Machine] of executable state machines
      ([run_steps], reachability [reach], rule induction
      [reach_invariant]) that every stateful component instantiates
      with its step function, the tactics [invc] and [tn_simpl], and
      the hint databases [tn] (resolution) and [tn_rw] (rewriting).
    - [Model]: the cart JSON the server returns ([Product], [CartItem],
      [CartData]), money as exact rationals [Q].
    - [Session]: the [useAuth()] value and login/logout
      ([contexts/AuthContext.js] is not under [src/]: modelled from the
      spec, section 4.1), [localStorage] as a [gmap string string]; the
      holder's contract as the class [SessionHolder] with its laws
      [SessionHolderSpec], lemmas proved against the class alone, and
      the instance [auth_holder] that implements it.
    - [Api]: requests as records, the header maps, the axios instance
      ([api_call]), both interceptors and [cartAPI].
    - [CartContext], Module [CartProvider]: the synchroniser as an
      executable step function [handle : world -> event -> option world]
      over an explicit world (provider state, [useAuth()] value,
      [localStorage], location, requests in flight each with the
      continuation awaiting it, toasts, resolved promise values, request
      log).  A handler's closure keeps the [token] of the render that
      created it: a mutation's continuation carries that token, and its
      [await fetchCart()] sends [getCart] with it, whatever the session
      has become; the request interceptor reads [localStorage] when the
      request is sent.  One Definition per handler segment between two [await]s
      ([fetchCart_start], [fetchCart_ok], [fetchCart_err],
      [mutation_start], [mutation_done], [mutation_err], [auth_effect]);
      [reachable] is the set of worlds reached from a mount (rule
      induction).  Invariants, the behaviour of every handler on every
      branch, and the interleavings the code admits (stale responses,
      cart leak after logout, the old credential sent after logout,
      the shared [loading] flag).
    - [Pricing], Module [OrderSummary]: the order-summary arithmetic of
      [Cart.js] and [Checkout.js] (shipping threshold, tax, banner).
    - [Routes], Module [Router]: [ProtectedRoute], [PublicRoute], [App]
      and the route table; route matching and [<Navigate replace>] as
      React Router defines them; [navigate fuel] follows redirects.
    - [CartPage], Module [CartPage]: render guards and buttons of
      [Cart.js] as the provider events they trigger.
    - [Endpoints], Module [Endpoints]: the seven other API groups, the
      credential every request carries, and a dispatcher for the
      client's URL scheme (round trip).
    - [Checkout], Module [CheckoutPage]: form state and [handleSubmit]
      as a step function with reachability, composed with [Endpoints]
      (the order request) and the provider ([clearCart] calls); the
      rendered page with its order summary.
    - [CartSpec], Module [CartSpec]: the atomic contract of the
      synchroniser (spec section 4.2) as an abstract machine [astep],
      the abstraction [abs], and the refinement theorem: executed
      sequentially, the asynchronous provider implements the contract.
    - [ProductDetail], Modules [ProductCards] and [ProductDetailPage]:
      the add-to-cart buttons of the product cards, and the product
      page's quantity select, add and reset, refetch, stars, and the
      page as rendered (purchase area, availability), its button
      enabled exactly when its click is an event of the page.
    - [Links], Module [Navigation]: every [<Link to>] and [<a href>] of
      the footer, the admin dashboard's quick actions and the page
      buttons, the product links [`/products/${id}`], the home page's
      query and featured grid, the dashboard's statistics, and the
      product page's query from its route parameter.
    - [Products], Modules [ProductsPage] and [ProductsListing]: filter
      state, its URL serialisation, the sort select, the pagination
      window and clicks, every handler of the page as a step function
      [step] over the filters; the products and categories queries and
      the rendered page (sidebar, cards, pagination bar) from the
      listing the server returns.
    - [Account], Modules [WishlistPage] and [ProfilePage]: the
      wishlist query, the rendered wishlist and its cards' Add to Cart
      clicks as provider events; the profile's four rows.
    - [Views], Modules [Forms], [HomePage], [FooterView],
      [AdminDashboardPage], [AdminUsersPage]: the views without state as
      the data they show, and the browser's submission of a form with
      no handler (the newsletter forms).

    ** The theorems, by group

    - Invariants of every reachable provider world: the badge equals the
      sum of the quantities, no spinner when idle ([CartContext]); one order in flight at most ([Checkout]); quantities
      within the select's bounds ([ProductDetail]).
    - Refinement: [CartSpec.provider_refines_atomic], through the
      interface [CartSpec.cart_contract] the provider implements; the
      session holder meets the contract of spec 4.1 and every cart
      call carries its credential ([Api.session_last_op_wins]).
    - Error paths across components: a 401 from any call ends on the
      login page of a reloaded, empty session
      ([Links.unauthorized_lands_on_login]).
    - Functional behaviour and error paths of each handler: mutations
      refused without a session, rejected, accepted and refreshed; 401
      handling; credentials on every request ([Api], [Endpoints]);
      order submission and its failures ([Checkout]).
    - Safety of the guards: pages behind [ProtectedRoute] and
      [PublicRoute] ([Routes]); clicks that reach the server
      ([CartPage]); no link of the app leads to the not-found page
      ([Links.app_links_resolve]).
    - Composition of views, router and API: a product link renders the
      product page of that id, which requests that product
      ([Links.product_links_reach_detail]); every card of the product
      list, and of the home page, opens and adds its own product
      ([Products.product_cards_open_their_product],
      [Links.home_cards_open_their_product]); a click on the
      wishlist, shown through the router, always reaches the server
      ([Account.wishlist_clicks_reach_server]); browsing the list
      keeps the page within the catalog, highlighted in the bar and
      asked of the server ([Products.page_in_catalog], rule induction
      under the Section hypotheses of a stable page count).
    - Equivalence: the cart page's inline order
      summary and the checkout's named one agree line by line and
      amount by amount ([Checkout.summaries_agree]).
    - Termination: redirects settle after at most one step, the one
      the failed guard asks for ([Routes.navigate_settles]); every mutation handler settles after
      at most two responses ([CartContext.mutation_settles]).
    - Round trips: URL filters, sort select ([Products]), request
      dispatch ([Endpoints]).
    - Bounds: totals ([Pricing]), pagination, quantities.
    - The behaviours the code has and the spec does not want, proved as
      theorems with concrete witnesses: stale refresh wins, cart leak
      after logout, the old session's credential sent by a mutation's
      refresh after logout, a pagination window of three buttons on
      the last page, success reported after a failed refresh, quantity
      kept across a refetch, the total dropping at the shipping
      threshold.

    ** Bounds and fuel

    Integers are [Z] and money [Q]: JavaScript numbers are doubles, and
    every value here (quantities, pages, prices) is far
    below 2^53, so no rounding or overflow is modelled; [toFixed(2)] is
    display only and not modelled.  [navigate] takes fuel; one step of
    fuel is proved enough from every path once authentication has
    loaded.  [run_steps] is structural in its event list; there is no
    other fuel.

    ** Not modelled

    The network and the server (responses are events chosen by the
    environment), React's scheduler beyond "one handler segment at a
    time", React Query's caching (a query's data is an input of the
    view that renders it), the JSX markup beyond what a view shows and
    where its links and buttons lead (classes, icons' drawings,
    images), the display rounding [toFixed(2)], the components the
    sources import but do not contain ([Navbar], [LoadingSpinner], the
    pages [Login], [Register], [Orders], [NotFound], [AdminProducts],
    [AdminOrders], [AdminAnalytics]: only their routes are modelled),
    and [AuthContext] beyond the contract spec 4.1 gives it (its file
    is not under [src/]: its user record and any request it makes on
    load cannot be read). *)

From Stdlib Require Import ZArith Ascii.
From stdpp Require Import base list strings.

Declare Scope tn_scope.
Delimit Scope tn_scope with tn.
Open Scope Z_scope.

Create HintDb tn.
Create Rewrite HintDb tn_rw.

(** ** JavaScript values *)

(** A string is truthy iff it is not empty. *)
Definition truthy_str (s : string) : bool := negb (String.eqb s "").

(** [x || d] where [x] is an optional string ([undefined] or a string):
    the default is taken when [x] is missing or empty. *)
Definition js_or_str (x : option string) (d : string) : string :=
  match x with
  | Some s => if truthy_str s then s else d
  | None => d
  end.

(** [x || d] where [x] is an optional number: the default is taken when
    [x] is missing or [0]. *)
Definition js_or_num (x : option Z) (d : Z) : Z :=
  match x with
  | Some n => if Z.eqb n 0 then d else n
  | None => d
  end.

(** Template-literal rendering of a nullable string: [`${null}`] is
    ["null"]. *)
Definition js_show_opt (x : option string) : string :=
  match x with Some s => s | None => "null" end.

Lemma truthy_str_true s : truthy_str s = true <-> s <> "".
Proof.
  unfold truthy_str. destruct (String.eqb_spec s ""); simpl; split; congruence.
Qed.

Lemma js_or_str_some s d : s <> "" -> js_or_str (Some s) d = s.
Proof. intros H. simpl. apply truthy_str_true in H. now rewrite H. Qed.

Lemma js_or_str_none d : js_or_str None d = d.
Proof. reflexivity. Qed.

#[export] Hint Rewrite js_or_str_none : tn_rw.

(** [s.split(c)]: the pieces between occurrences of [c], empty ones
    included; [""] splits into [[""]]. *)
Fixpoint split_on (c : Ascii.ascii) (s : string) : list string :=
  match s with
  | EmptyString => [""]
  | String a s' =>
      let rest := split_on c s' in
      if Ascii.eqb a c then "" :: rest
      else match rest with
           | h :: t => String a h :: t
           | [] => [String a ""]
           end
  end.

(** [s.includes(c)] *)
Fixpoint has_char (c : Ascii.ascii) (s : string) : bool :=
  match s with
  | EmptyString => false
  | String a s' => Ascii.eqb a c || has_char c s'
  end.

Lemma split_on_no_sep c s : has_char c s = false -> split_on c s = [s].
Proof.
  induction s as [|a s IH]; simpl; [reflexivity|].
  intros H. apply orb_false_iff in H as [Ha Hs]. rewrite Ha, IH by exact Hs. reflexivity.
Qed.

Lemma split_on_sep c s1 s2 :
  has_char c s1 = false -> split_on c (s1 ++ String c s2) = s1 :: split_on c s2.
Proof.
  induction s1 as [|a s1 IH]; simpl; intros H.
  - now rewrite Ascii.eqb_refl.
  - apply orb_false_iff in H as [Ha Hs]. rewrite Ha, IH by exact Hs. reflexivity.
Qed.

(** The segments of a URL path: split on ['/'], empty segments dropped
    (so leading, doubled and trailing slashes do not count). *)
Definition path_segments (path : string) : list string :=
  List.filter (fun s => negb (String.eqb s "")) (split_on "/"%char path).

Lemma split_on_nonempty c s : exists h t, split_on c s = h :: t.
Proof.
  induction s as [|a s [h [t IH]]]; simpl; [eauto|].
  rewrite IH. destruct (Ascii.eqb a c); eauto.
Qed.

(** Splitting at a separator splits the two sides independently. *)
Lemma split_on_app_sep c s1 s2 :
  split_on c (s1 ++ String c s2) = split_on c s1 ++ split_on c s2.
Proof.
  induction s1 as [|a s1 IH]; simpl.
  - now rewrite Ascii.eqb_refl.
  - rewrite IH. destruct (split_on_nonempty c s1) as [h [t ->]].
    destruct (Ascii.eqb a c); reflexivity.
Qed.

Lemma path_segments_app_sep s1 s2 :
  path_segments (s1 ++ String "/" s2) = path_segments s1 ++ path_segments s2.
Proof. unfold path_segments. now rewrite split_on_app_sep, List.filter_app. Qed.

(** A non-empty segment without ['/'] is one segment. *)
Lemma path_segments_single s :
  String.eqb s "" = false -> has_char "/" s = false -> path_segments s = [s].
Proof.
  intros Hne Hsep. unfold path_segments. rewrite split_on_no_sep by exact Hsep.
  simpl. now rewrite Hne.
Qed.

(** ASCII lower case of one character and of a string. *)
Definition ascii_lower (a : Ascii.ascii) : Ascii.ascii :=
  let n := Ascii.nat_of_ascii a in
  if (65 <=? n)%nat && (n <=? 90)%nat then Ascii.ascii_of_nat (n + 32) else a.

Fixpoint string_lower (s : string) : string :=
  match s with
  | EmptyString => EmptyString
  | String a s' => String (ascii_lower a) (string_lower s')
  end.

(** [s.trim()] on ASCII text: the white space JavaScript strips at both
    ends (tab, line feed, vertical tab, form feed, carriage return,
    space). *)
Definition is_js_space (a : Ascii.ascii) : bool :=
  let n := Ascii.nat_of_ascii a in (n =? 32)%nat || ((9 <=? n)%nat && (n <=? 13)%nat).

Fixpoint trim_start (s : string) : string :=
  match s with
  | EmptyString => EmptyString
  | String a s' => if is_js_space a then trim_start s' else s
  end.

Definition string_rev (s : string) : string :=
  String.string_of_list_ascii (rev (String.list_ascii_of_string s)).

Definition js_trim (s : string) : string := string_rev (trim_start (string_rev (trim_start s))).

(** The string is white space only. *)
Definition all_space (s : string) : bool := forallb is_js_space (String.list_ascii_of_string s).

Lemma trim_start_empty s : trim_start s = "" <-> all_space s = true.
Proof.
  unfold all_space. induction s as [|a s IH]; simpl; [tauto|].
  destruct (is_js_space a); simpl; [exact IH | split; discriminate].
Qed.

Lemma trim_start_all_space s : all_space (trim_start s) = true -> trim_start s = "".
Proof.
  unfold all_space. induction s as [|a s IH]; simpl; [auto|].
  destruct (is_js_space a) eqn:E; simpl; [exact IH|]. now rewrite E.
Qed.

Lemma all_space_rev s : all_space (string_rev s) = all_space s.
Proof.
  unfold all_space, string_rev. rewrite String.list_ascii_of_string_of_list_ascii.
  induction (String.list_ascii_of_string s) as [|a l IH]; simpl; [reflexivity|].
  rewrite forallb_app, IH. simpl. now rewrite andb_true_r, andb_comm.
Qed.

Lemma string_rev_empty s : string_rev s = "" <-> s = "".
Proof.
  unfold string_rev. split; [|now intros ->].
  destruct s as [|a s]; [auto|]. simpl.
  destruct (rev (String.list_ascii_of_string s)); discriminate.
Qed.

(** [!s.trim()] holds exactly for the strings of white space. *)
Lemma js_trim_empty s : js_trim s = "" <-> all_space s = true.
Proof.
  unfold js_trim. rewrite string_rev_empty, trim_start_empty, all_space_rev.
  split; [|intros H; now apply trim_start_empty in H as ->].
  intros H. now apply trim_start_empty, trim_start_all_space.
Qed.

(** ** Summing a field with [reduce] *)

Section SumBy.
Context {A : Type} (f : A -> Z).

(** [l.reduce((total, x) => total + f(x), 0)] *)
Definition sum_by (l : list A) : Z :=
  fold_left (fun total x => total + f x) l 0.

Lemma fold_left_add_acc (l : list A) (acc : Z) :
  fold_left (fun total x => total + f x) l acc = acc + sum_by l.
Proof.
  unfold sum_by. revert acc. induction l as [|x l IH]; intros acc; simpl.
  - lia.
  - rewrite (IH (acc + f x)), (IH (0 + f x)). lia.
Qed.

Lemma sum_by_nil : sum_by [] = 0.
Proof. reflexivity. Qed.

Lemma sum_by_cons x l : sum_by (x :: l) = f x + sum_by l.
Proof. unfold sum_by at 1. simpl. now rewrite fold_left_add_acc. Qed.

Lemma sum_by_app l1 l2 : sum_by (l1 ++ l2) = sum_by l1 + sum_by l2.
Proof.
  induction l1 as [|x l1 IH]; simpl.
  - reflexivity.
  - rewrite !sum_by_cons, IH. lia.
Qed.

Lemma sum_by_nonneg l : Forall (fun x => 0 <= f x) l -> 0 <= sum_by l.
Proof.
  induction 1; [reflexivity|]. rewrite sum_by_cons. lia.
Qed.
End SumBy.

#[export] Hint Rewrite @sum_by_nil @sum_by_cons @sum_by_app : tn_rw.

(** ** Executable state machines

    Each stateful component is a step function [step : S -> E -> option S]
    ([None] for an event that cannot happen in [s]); [run_steps] runs a
    list of events, and [reach init] is the set of states reached from
    the states satisfying [init]. *)

Section Machine.
Context {S E : Type} (step : S -> E -> option S).

Fixpoint run_steps (s : S) (evs : list E) : option S :=
  match evs with
  | [] => Some s
  | ev :: evs' => match step s ev with Some s' => run_steps s' evs' | None => None end
  end.

Inductive reach (init : S -> Prop) : S -> Prop :=
| reach_init s : init s -> reach init s
| reach_step s ev s' : reach init s -> step s ev = Some s' -> reach init s'.

Lemma run_steps_cons s ev evs s1 : step s ev = Some s1 -> run_steps s (ev :: evs) = run_steps s1 evs.
Proof. intros H. simpl. now rewrite H. Qed.

Lemma run_steps_app s evs1 evs2 :
  run_steps s (evs1 ++ evs2)
  = match run_steps s evs1 with Some s' => run_steps s' evs2 | None => None end.
Proof.
  revert s. induction evs1 as [|ev evs1 IH]; intros s; simpl; [reflexivity|].
  destruct (step s ev); [apply IH | reflexivity].
Qed.

(** A property kept by every step holds after every run. *)
Lemma run_steps_preserves (P : S -> Prop) :
  (forall s ev s', P s -> step s ev = Some s' -> P s') ->
  forall s evs s', P s -> run_steps s evs = Some s' -> P s'.
Proof.
  intros Hstep s evs. revert s. induction evs as [|ev evs IH]; intros s s' Hs Hrun;
    simpl in Hrun; [congruence|].
  destruct (step s ev) as [s1|] eqn:Hs1; [|discriminate]. exact (IH s1 s' (Hstep _ _ _ Hs Hs1) Hrun).
Qed.

Lemma run_steps_reach init s evs s' : reach init s -> run_steps s evs = Some s' -> reach init s'.
Proof. apply run_steps_preserves. intros. eapply reach_step; eassumption. Qed.

(** Rule induction: an invariant of the initial states kept by every
    step holds in every reachable state. *)
Lemma reach_invariant (init P : S -> Prop) :
  (forall s, init s -> P s) -> (forall s ev s', P s -> step s ev = Some s' -> P s') ->
  forall s, reach init s -> P s.
Proof. intros Hinit Hstep s Hr. induction Hr; eauto. Qed.
End Machine.

(** ** Tactics *)

Ltac invc H := inversion H; subst; clear H.

(** Simplify the option plumbing of the executable handlers. *)
Ltac tn_simpl :=
  repeat match goal with
  | H : Some _ = Some _ |- _ => injection H as H; subst
  | H : None = Some _ |- _ => discriminate H
  | H : Some _ = None |- _ => discriminate H
  end;
  autorewrite with tn_rw in *.

(** ** Lists *)

Lemma Forall_app_single {A} (P : A -> Prop) l x :
  Forall P l -> P x -> Forall P (l ++ [x]).
Proof. intros Hl Hx. apply Forall_app. split; [exact Hl | now constructor]. Qed.

#[export] Hint Resolve Forall_app_single : tn.

Lemma app_single_neq_nil {A} (l : list A) x : l ++ [x] <> [].
Proof. destruct l; discriminate. Qed.

#[export] Hint Resolve app_single_neq_nil : tn.
