(* ===== verification/Model.v ===== *)
(** * The cart data exchanged with the server

    The shape of a cart as [cartAPI.getCart] returns it and as
    [CartContext.js] and [pages/Cart.js] read it: [cart.items],
    [cart.total_amount], and per item [item.product_id],
    [item.quantity], [item.product.{name,price,image_base64}] and
    [item.total].  Money is a JavaScript number computed by the server;
    it is kept here as an exact rational [Q].  Quantities are integers
    ([Z]).  Each record lives in a Module named after the JSON object it
    models, so its fields keep the source's names. *)

From Stdlib Require Import ZArith QArith.
From stdpp Require Import base list strings.
From S2P Require Import Prelude.

#[export] Instance Q_eq_dec : EqDecision Q.
Proof. solve_decision. Defined.

Module Product.
(** [item.product]: the product summary embedded in a cart line. *)
Record t := mk {
  name : string;
  price : Q;
  image_base64 : option string;
}.

#[global] Instance eq_dec : EqDecision t.
Proof. solve_decision. Defined.
End Product.

Module CartItem.
(** One line of [cart.items]. *)
Record t := mk {
  product_id : string;
  quantity : Z;
  product : Product.t;
  total : Q;
}.

#[global] Instance eq_dec : EqDecision t.
Proof. solve_decision. Defined.
End CartItem.

Module CartData.
(** The cart object: [{ items, total_amount }]. *)
Record t := mk {
  items : list CartItem.t;
  total_amount : Q;
}.

#[global] Instance eq_dec : EqDecision t.
Proof. solve_decision. Defined.

(** [{ items: [], total_amount: 0 }], the provider's initial cart and
    the value it resets to when the user is not authenticated. *)
Definition empty : t := mk [] 0%Q.
End CartData.
