(* ===== verification/Session.v ===== *)
(** * The authentication value of [AuthContext]

    [contexts/AuthContext.js] is imported by [CartContext.js], [App.js]
    and the pages but is not among the sources, so this component is
    modelled from the spec (section 4.1, Session/Auth Holder): the value
    [useAuth()] publishes ([token], [isAuthenticated], [isAdmin],
    [loading]) and the two operations that change it,
    [setCredential] (login) and [clearCredential] (logout), which also
    write the [localStorage] entry ["token"] that the axios request
    interceptor reads.  The consumers ([CartContext.v], [Routes.v]) are
    proved for every value of [Auth.t], not only for those these
    operations produce.

    The holder's contract (spec 4.1) is the class [SessionHolder] with
    its laws [SessionHolderSpec]; Section [Contract] proves facts from
    the laws alone, and [auth_holder] (the value with [localStorage])
    is an instance that satisfies them. *)

From stdpp Require Import base list strings gmap.
From S2P Require Import Prelude.

Module Auth.
(** The fields of [useAuth()] read by the sources. *)
Record t := mk {
  token : option string;
  isAuthenticated : bool;
  isAdmin : bool;
  loading : bool;
}.

#[global] Instance eq_dec : EqDecision t.
Proof. solve_decision. Defined.

(** Created empty at process start. *)
Definition initial : t := mk None false false false.

(** The credential is present and non-empty. *)
Definition has_token (a : t) : bool :=
  match token a with Some s => truthy_str s | None => false end.

(** Well-formed values: authenticated exactly when a credential is held. *)
Definition consistent (a : t) : Prop := isAuthenticated a = has_token a.
End Auth.

Inductive session_op :=
| SetCredential (tok : string) (admin : bool)
| ClearCredential.

(** The browser's [localStorage]. *)
Abbreviation storage_t := (gmap string string).

(** Apply a session operation to the published value and to
    [localStorage]: login stores the token, logout removes it. *)
Definition apply_session (o : session_op) (a : Auth.t) (ls : storage_t)
    : Auth.t * storage_t :=
  match o with
  | SetCredential tok admin =>
      (Auth.mk (Some tok) (truthy_str tok) admin false, <["token" := tok]> ls)
  | ClearCredential => (Auth.mk None false false false, delete "token" ls)
  end.

(** ** The contract of spec section 4.1

    What the holder promises its clients, over an abstract state [S]:
    the credential it holds, the derived flag, and the two operations.
    [setCredential] also takes the role the login returned, which the
    code's [useAuth()] publishes as [isAdmin]. *)
Class SessionHolder (S : Type) := {
  holder_empty : S;
  currentCredential : S -> option string;
  authenticated : S -> bool;
  setCredential : string -> bool -> S -> S;
  clearCredential : S -> S;
}.

(** The laws of the contract, with the well-formedness the operations
    keep: the holder starts empty, is authenticated exactly when it
    holds a non-empty credential, [setCredential] replaces the
    credential, and [clearCredential] empties it and is idempotent. *)
Class SessionHolderSpec (S : Type) `{SessionHolder S} := {
  holder_wf : S -> Prop;
  wf_empty : holder_wf holder_empty;
  wf_set t adm s : holder_wf s -> holder_wf (setCredential t adm s);
  wf_clear s : holder_wf s -> holder_wf (clearCredential s);
  empty_credential : currentCredential holder_empty = None;
  authenticated_credential s : holder_wf s ->
    authenticated s = match currentCredential s with Some t => truthy_str t | None => false end;
  set_replaces t adm s : currentCredential (setCredential t adm s) = Some t;
  clear_empties s : currentCredential (clearCredential s) = None;
  clear_idempotent s : clearCredential (clearCredential s) = clearCredential s;
}.

(** A sequence of session operations, applied in order. *)
Definition apply_ops {S} `{SessionHolder S} (ops : list session_op) (s : S) : S :=
  fold_left (fun s o => match o with
                        | SetCredential t adm => setCredential t adm s
                        | ClearCredential => clearCredential s
                        end) ops s.

(** The credential the last operation of a sequence leaves. *)
Definition last_credential (ops : list session_op) (dflt : option string) : option string :=
  match last ops with
  | Some (SetCredential t _) => Some t
  | Some ClearCredential => None
  | None => dflt
  end.

(** The implementation: the published value with [localStorage]. *)
#[export] Instance auth_holder : SessionHolder (Auth.t * storage_t) := {
  holder_empty := (Auth.initial, ∅);
  currentCredential p := Auth.token p.1;
  authenticated p := Auth.isAuthenticated p.1;
  setCredential t adm p := apply_session (SetCredential t adm) p.1 p.2;
  clearCredential p := apply_session ClearCredential p.1 p.2;
}.

(** ** Theorems *)

(** Both session operations publish a well-formed value
    ([isAuthenticated] exactly when a non-empty credential is held) and
    keep [localStorage]'s ["token"] equal to that credential. *)
Theorem apply_session_consistent (o : session_op) (a : Auth.t) (ls : storage_t) :
  Auth.consistent (apply_session o a ls).1
  /\ (apply_session o a ls).2 !! "token" = Auth.token (apply_session o a ls).1.
Proof.
  destruct o; simpl; split; unfold Auth.consistent, Auth.has_token; simpl;
    first [reflexivity | apply lookup_insert_eq | apply lookup_delete_eq].
Qed.

(** Clearing the credential is idempotent: a second logout changes
    neither the published value nor [localStorage]. *)
Theorem clear_credential_idempotent (a : Auth.t) (ls : storage_t) :
  let '(a1, ls1) := apply_session ClearCredential a ls in
  apply_session ClearCredential a1 ls1 = (a1, ls1).
Proof. simpl. f_equal. apply delete_delete_eq. Qed.

(** ** Clients of the contract *)

Section Contract.
Context {S : Type} `{SessionSpec : SessionHolderSpec S}.

(** Proved from the laws alone: whatever came before, the last
    operation of a sequence decides the credential, and the flag
    follows the credential. *)
Lemma apply_ops_last ops s :
  holder_wf s ->
  holder_wf (apply_ops ops s)
  /\ currentCredential (apply_ops ops s) = last_credential ops (currentCredential s).
Proof.
  revert s. induction ops as [|o ops IH] using rev_ind; intros s Hs; [split; [exact Hs | reflexivity]|].
  unfold apply_ops in *. rewrite fold_left_app. simpl.
  destruct (IH s Hs) as [Hwf _].
  unfold last_credential. rewrite last_snoc.
  destruct o as [t adm|]; split; auto using wf_set, wf_clear, set_replaces, clear_empties.
Qed.

Lemma apply_ops_authenticated ops s :
  holder_wf s ->
  authenticated (apply_ops ops s)
  = match last_credential ops (currentCredential s) with Some t => truthy_str t | None => false end.
Proof.
  intros Hs. destruct (apply_ops_last ops s Hs) as [Hwf Hc].
  rewrite <- Hc. now apply authenticated_credential.
Qed.

End Contract.

(** The value and [localStorage] implement the contract: well-formed
    is [Auth.consistent]. *)
#[export] Instance auth_holder_spec : SessionHolderSpec (Auth.t * storage_t).
Proof.
  refine {| holder_wf p := Auth.consistent p.1 |}.
  - reflexivity.
  - intros t adm [a ls] _. reflexivity.
  - intros [a ls] _. reflexivity.
  - reflexivity.
  - intros [a ls] Hc. simpl in *. unfold Auth.consistent in Hc. rewrite Hc. reflexivity.
  - reflexivity.
  - reflexivity.
  - intros [a ls]. cbn. now rewrite ?delete_delete_eq.
Qed.

(** Each operation keeps [localStorage]'s ["token"] equal to the
    published credential. *)
Lemma apply_ops_storage ops (p : Auth.t * storage_t) :
  p.2 !! "token" = Auth.token p.1 -> (apply_ops ops p).2 !! "token" = Auth.token (apply_ops ops p).1.
Proof.
  unfold apply_ops. revert p. induction ops as [|o ops IH]; intros [a ls] Hp; simpl; [exact Hp|].
  apply IH. destruct o as [t adm|];
    [exact (proj2 (apply_session_consistent (SetCredential t adm) a ls))
    |exact (proj2 (apply_session_consistent ClearCredential a ls))].
Qed.
