(* ===== verification/Api.v ===== *)
(** * The HTTP layer of [services/api.js]

    [api] is an axios instance whose defaults carry
    [Content-Type: application/json].  Two interceptors are installed:
    the request interceptor (lines 13-24) overwrites the
    [Authorization] header with the token found in [localStorage] when
    there is one, and the response interceptor (lines 27-36) removes
    that token and sends the browser to [/login] on any 401.

    A request is a [Record] (method, path, JSON body, query parameters,
    headers as an ordered association list).  [cartAPI] builds the five
    cart requests of lines 79-105 exactly as the source writes them; the
    [token] argument is a nullable string, so a missing token renders
    as ["Bearer null"], as the template literal does.  The theorems say
    which bearer credential a request finally carries and what a 401
    does to the browser state. *)

From Stdlib Require Import ZArith.
From stdpp Require Import base list strings gmap.
From S2P Require Import Prelude Session.

Inductive http_method := GET | POST | PUT | DELETE.

Inductive json := JStr (s : string) | JNum (z : Z).

Record request := mk_request {
  method : http_method;
  url : string;
  data : list (string * json);
  params : list (string * string);
  headers : list (string * string);
}.

#[global] Instance http_method_eq_dec : EqDecision http_method.
Proof. solve_decision. Defined.
#[global] Instance json_eq_dec : EqDecision json.
Proof. solve_decision. Defined.
#[global] Instance request_eq_dec : EqDecision request.
Proof. solve_decision. Defined.

(** ** Headers *)

(** [headers[k]]: the first binding of [k]. *)
Fixpoint get_header (k : string) (hs : list (string * string)) : option string :=
  match hs with
  | [] => None
  | (k', v) :: hs' => if String.eqb k k' then Some v else get_header k hs'
  end.

(** [headers[k] = v]: overwrite the binding of [k], or add it. *)
Fixpoint set_header (k v : string) (hs : list (string * string))
    : list (string * string) :=
  match hs with
  | [] => [(k, v)]
  | (k', v') :: hs' =>
      if String.eqb k k' then (k, v) :: hs' else (k', v') :: set_header k v hs'
  end.

Lemma get_set_header_eq k v hs : get_header k (set_header k v hs) = Some v.
Proof.
  induction hs as [|[k' v'] hs IH]; simpl.
  - now rewrite String.eqb_refl.
  - destruct (String.eqb_spec k k'); simpl.
    + now rewrite String.eqb_refl.
    + apply String.eqb_neq in n. now rewrite n.
Qed.

Lemma get_set_header_ne k k2 v hs :
  k2 <> k -> get_header k2 (set_header k v hs) = get_header k2 hs.
Proof.
  intros Hne. induction hs as [|[k' v'] hs IH]; simpl.
  - apply String.eqb_neq in Hne. now rewrite Hne.
  - destruct (String.eqb_spec k k'); simpl.
    + subst. apply String.eqb_neq in Hne. now rewrite Hne.
    + now rewrite IH.
Qed.

#[export] Hint Rewrite get_set_header_eq : tn_rw.

(** ** The axios instance *)

(** [axios.create({ baseURL, headers: { 'Content-Type': ... } })]: the
    instance headers, merged under those of each call. *)
Definition default_headers : list (string * string) :=
  [("Content-Type", "application/json")].

(** A call on [api] with its per-call config. *)
Definition api_call (m : http_method) (u : string) (d : list (string * json))
    (ps : list (string * string)) (hs : list (string * string)) : request :=
  mk_request m u d ps
    (fold_left (fun acc '(k, v) => set_header k v acc) hs default_headers).

(** [`Bearer ${token}`] *)
Definition bearer (token : option string) : string :=
  "Bearer " ++ js_show_opt token.

Definition auth_headers (token : option string) : list (string * string) :=
  [("Authorization", bearer token)].

(** The request interceptor (lines 13-24). *)
Definition request_interceptor (ls : storage_t) (config : request) : request :=
  match ls !! "token" with
  | Some token =>
      if truthy_str token then
        mk_request (method config) (url config) (data config) (params config)
          (set_header "Authorization" ("Bearer " ++ token) (headers config))
      else config
  | None => config
  end.

(** [error.response?.status] and [error.response?.data?.detail] of a
    rejected call; both are absent for a network error. *)
Record axios_error := mk_error {
  err_status : option Z;
  err_detail : option string;
}.

(** The error branch of the response interceptor (lines 27-36):
    [localStorage] and [window.location.href] after the rejection. *)
Definition response_interceptor_error (e : axios_error) (ls : storage_t)
    (location : string) : storage_t * string :=
  if bool_decide (err_status e = Some 401) then (delete "token" ls, "/login")
  else (ls, location).

(** ** [cartAPI] (lines 79-105) *)

Inductive cart_endpoint :=
| getCart
| addToCart (productId : string) (quantity : Z)
| updateCartItem (productId : string) (quantity : Z)
| removeFromCart (productId : string)
| clearCart.

#[global] Instance cart_endpoint_eq_dec : EqDecision cart_endpoint.
Proof. solve_decision. Defined.

Definition cartAPI (token : option string) (e : cart_endpoint) : request :=
  match e with
  | getCart => api_call GET "/api/cart" [] [] (auth_headers token)
  | addToCart productId quantity =>
      api_call POST "/api/cart/add"
        [("product_id", JStr productId); ("quantity", JNum quantity)] []
        (auth_headers token)
  | updateCartItem productId quantity =>
      api_call PUT "/api/cart/update"
        [("product_id", JStr productId); ("quantity", JNum quantity)] []
        (auth_headers token)
  | removeFromCart productId =>
      api_call DELETE ("/api/cart/remove/" ++ productId) [] [] (auth_headers token)
  | clearCart => api_call DELETE "/api/cart/clear" [] [] (auth_headers token)
  end.

(** The credential a request finally carries: the [localStorage] token
    when it is a non-empty string, else the argument [token]. *)
Definition effective_token (ls : storage_t) (token : option string) : option string :=
  match ls !! "token" with
  | Some t => if truthy_str t then Some t else token
  | None => token
  end.

(** ** Theorems *)

Lemma cartAPI_authorization token e :
  get_header "Authorization" (headers (cartAPI token e)) = Some (bearer token).
Proof. destruct e; reflexivity. Qed.

Lemma cartAPI_content_type token e :
  get_header "Content-Type" (headers (cartAPI token e)) = Some "application/json".
Proof. destruct e; reflexivity. Qed.

Lemma request_interceptor_other ls config k :
  k <> "Authorization" ->
  get_header k (headers (request_interceptor ls config)) = get_header k (headers config).
Proof.
  intros Hk. unfold request_interceptor.
  destruct (ls !! "token") as [t|]; [destruct (truthy_str t)|]; simpl; auto.
  now apply get_set_header_ne.
Qed.

Lemma response_interceptor_401 e ls location :
  err_status e = Some 401 ->
  response_interceptor_error e ls location = (delete "token" ls, "/login").
Proof. intros H. unfold response_interceptor_error. now rewrite H. Qed.

(** Every cart request leaves with the bearer credential of
    [localStorage] when it holds a non-empty token, overriding the token
    the caller passed; otherwise with the caller's token (["Bearer null"]
    when the caller has none). *)
Theorem cart_request_bearer (ls : storage_t) (token : option string) (e : cart_endpoint) :
  get_header "Authorization" (headers (request_interceptor ls (cartAPI token e)))
  = Some (bearer (effective_token ls token)).
Proof.
  unfold request_interceptor, effective_token.
  destruct (ls !! "token") as [t|]; [destruct (truthy_str t)|]; simpl;
    autorewrite with tn_rw; auto using cartAPI_authorization.
Qed.

(** A rejection with status 401, whatever the call, removes the
    stored token and sends the browser to [/login]; any other rejection
    leaves both untouched. *)
Theorem response_401_invalidates (e : axios_error) (ls : storage_t) (location : string) :
  (err_status e = Some 401 ->
     response_interceptor_error e ls location = (delete "token" ls, "/login")
     /\ delete "token" ls !! "token" = None)
  /\ (err_status e <> Some 401 ->
     response_interceptor_error e ls location = (ls, location)).
Proof.
  unfold response_interceptor_error. split.
  - intros ->. split; [reflexivity | apply lookup_delete_eq].
  - intros Hne. now rewrite bool_decide_eq_false_2.
Qed.

Lemma response_401_invalidates_witness :
  (err_status (mk_error (Some 401) None) = Some 401 ->
     response_interceptor_error (mk_error (Some 401) None) {["token" := "t"]} "/cart"
       = (delete "token" {["token" := "t"]}, "/login")
     /\ delete "token" ({["token" := "t"]} : storage_t) !! "token" = None)
  /\ (err_status (mk_error (Some 401) None) <> Some 401 ->
     response_interceptor_error (mk_error (Some 401) None) {["token" := "t"]} "/cart"
       = ({["token" := "t"]}, "/cart")).
Proof. exact (response_401_invalidates (mk_error (Some 401) None) {["token" := "t"]} "/cart"). Defined.

(** (C5) The session holder modelled from spec 4.1 refines its
    contract, and every cart call carries its credential: after any
    sequence of logins and logouts from the empty holder, the
    credential is the one the last login stored (none after a logout
    or with no operation), the holder is authenticated exactly when
    that credential is non-empty, and a cart request leaves the
    request interceptor with that credential as its bearer token when
    it is non-empty, and with the caller's token otherwise. *)
Theorem session_last_op_wins ops (token : option string) (e : cart_endpoint) :
  let p := apply_ops ops holder_empty in
  currentCredential p = last_credential ops None
  /\ authenticated p = match last_credential ops None with Some t => truthy_str t | None => false end
  /\ get_header "Authorization" (headers (request_interceptor p.2 (cartAPI token e)))
     = Some (bearer (match last_credential ops None with
                     | Some t => if truthy_str t then Some t else token
                     | None => token
                     end)).
Proof.
  simpl. pose proof (apply_ops_last ops holder_empty wf_empty) as [Hwf Hc].
  rewrite empty_credential in Hc. split; [exact Hc|]. split.
  - pose proof (apply_ops_authenticated ops holder_empty wf_empty) as Ha.
    rewrite empty_credential in Ha. exact Ha.
  - rewrite cart_request_bearer. unfold effective_token.
    rewrite apply_ops_storage by reflexivity. simpl in Hc. now rewrite Hc.
Qed.
