(* ===== verification/CartContext.v ===== *)
(** * The cart synchroniser [CartProvider] ([contexts/CartContext.js])

    The provider keeps three pieces of React state ([cart], [loading],
    [cartCount]) and exposes [fetchCart] (as [refreshCart]),
    [addToCart], [updateCartItem], [removeFromCart] and [clearCart].
    Each is an [async] function; JavaScript runs one of them at a time
    until its next [await], so an execution is a sequence of atomic
    steps separated by the arrival of HTTP responses, in any order.

    The model makes that explicit.  A [world] holds the provider state,
    the [useAuth()] value, [localStorage] and [window.location], the
    requests in flight each with the continuation that awaits it
    ([KFetch]: [fetchCart] awaiting [getCart]; [KMutate op tok]: the
    handler of [op] awaiting its mutation call, with the [token] its
    closure captured when the handler was created; [KRefresh op]: the
    same handler awaiting the [getCart] of its inner [await
    fetchCart()], which that closure's [fetchCart] sends with the
    captured [token], not the current one), the toasts
    shown, the values the handlers' promises resolved to, and the log of
    requests sent; [resume_ok] and [resume_err] are the code that runs
    after an [await] when its request resolves or rejects.  [handle w ev] runs the code triggered by one event:
    a call from the view, a session change (which re-runs the
    [useEffect] on [[isAuthenticated, token]] when they changed), or a
    response or rejection of one request in flight.  [reachable] is the
    set of worlds reached from a mount.  [provider_value] is the value
    the provider publishes (lines 129-138) and [useCart] the hook that
    reads it, throwing outside a provider (lines 8-14). *)

From Stdlib Require Import ZArith QArith.
From stdpp Require Import base list strings gmap.
From S2P Require Import Prelude Model Session Api.

Module CartProvider.

(** ** Operations, messages, continuations *)

Inductive cart_op :=
| AddToCart (productId : string) (quantity : Z)
| UpdateCartItem (productId : string) (quantity : Z)
| RemoveFromCart (productId : string)
| ClearCart.

#[global] Instance cart_op_eq_dec : EqDecision cart_op.
Proof. solve_decision. Defined.

(** The [cartAPI] call each handler awaits first. *)
Definition op_endpoint (op : cart_op) : cart_endpoint :=
  match op with
  | AddToCart productId quantity => addToCart productId quantity
  | UpdateCartItem productId quantity => updateCartItem productId quantity
  | RemoveFromCart productId => removeFromCart productId
  | ClearCart => clearCart
  end.

Definition login_message (op : cart_op) : string :=
  match op with
  | AddToCart _ _ => "Please login to add items to cart"
  | UpdateCartItem _ _ => "Please login to update cart"
  | RemoveFromCart _ => "Please login to remove items from cart"
  | ClearCart => "Please login to clear cart"
  end.

Definition success_message (op : cart_op) : string :=
  match op with
  | AddToCart _ _ => "Item added to cart"
  | UpdateCartItem _ _ => "Cart updated"
  | RemoveFromCart _ => "Item removed from cart"
  | ClearCart => "Cart cleared"
  end.

Definition failure_message (op : cart_op) : string :=
  match op with
  | AddToCart _ _ => "Failed to add item to cart"
  | UpdateCartItem _ _ => "Failed to update cart"
  | RemoveFromCart _ => "Failed to remove item from cart"
  | ClearCart => "Failed to clear cart"
  end.

Inductive toast := ToastSuccess (msg : string) | ToastError (msg : string).

#[global] Instance toast_eq_dec : EqDecision toast.
Proof. solve_decision. Defined.

(** [KMutate op token]: the handler's closure holds the [token] of the
    render that created it (line 17); its [await fetchCart()] calls the
    [fetchCart] of the same closure. *)
Inductive cont := KFetch | KMutate (op : cart_op) (token : option string) | KRefresh (op : cart_op).

#[global] Instance cont_eq_dec : EqDecision cont.
Proof. solve_decision. Defined.

Record pending := mk_pending {
  req_id : nat;
  req_endpoint : cart_endpoint;
  req_cont : cont;
}.

(** ** The world *)

Record world := mk_world {
  auth : Auth.t;
  storage : storage_t;
  location : string;
  cart : CartData.t;
  loading : bool;
  cartCount : Z;
  inflight : list pending;
  next_id : nat;
  toasts : list toast;
  resolved : list (cart_op * bool);
  sent : list request;
}.

(** [response.data.items.reduce((total, item) => total + item.quantity, 0)] *)
Definition cart_count (c : CartData.t) : Z :=
  sum_by CartItem.quantity (CartData.items c).

(** Setters, one per state cell the code writes. *)
Definition setCart (c : CartData.t) (w : world) : world :=
  mk_world (auth w) (storage w) (location w) c (loading w) (cartCount w)
    (inflight w) (next_id w) (toasts w) (resolved w) (sent w).

Definition setLoading (b : bool) (w : world) : world :=
  mk_world (auth w) (storage w) (location w) (cart w) b (cartCount w)
    (inflight w) (next_id w) (toasts w) (resolved w) (sent w).

Definition setCartCount (n : Z) (w : world) : world :=
  mk_world (auth w) (storage w) (location w) (cart w) (loading w) n
    (inflight w) (next_id w) (toasts w) (resolved w) (sent w).

Definition show_toast (t : toast) (w : world) : world :=
  mk_world (auth w) (storage w) (location w) (cart w) (loading w) (cartCount w)
    (inflight w) (next_id w) (toasts w ++ [t]) (resolved w) (sent w).

Definition resolve (op : cart_op) (b : bool) (w : world) : world :=
  mk_world (auth w) (storage w) (location w) (cart w) (loading w) (cartCount w)
    (inflight w) (next_id w) (toasts w) (resolved w ++ [(op, b)]) (sent w).

Definition set_inflight (l : list pending) (w : world) : world :=
  mk_world (auth w) (storage w) (location w) (cart w) (loading w) (cartCount w)
    l (next_id w) (toasts w) (resolved w) (sent w).

Definition set_browser (a : Auth.t) (ls : storage_t) (loc : string) (w : world) : world :=
  mk_world a ls loc (cart w) (loading w) (cartCount w)
    (inflight w) (next_id w) (toasts w) (resolved w) (sent w).

(** [await cartAPI.<e>(token, ...)] with the closure's [token]: the
    request passes the request interceptor, which reads [localStorage]
    when it is sent, is logged, and waits with continuation [k]. *)
Definition send (token : option string) (e : cart_endpoint) (k : cont) (w : world) : world :=
  let r := request_interceptor (storage w) (cartAPI token e) in
  mk_world (auth w) (storage w) (location w) (cart w) (loading w) (cartCount w)
    (inflight w ++ [mk_pending (next_id w) e k]) (S (next_id w))
    (toasts w) (resolved w) (sent w ++ [r]).

(** ** The handlers *)

(** [fetchCart] of the closure holding [token], up to its [await]:
    [setLoading(true)], then [cartAPI.getCart(token)] awaited by [k]. *)
Definition fetchCart_start (token : option string) (k : cont) (w : world) : world :=
  send token getCart k (setLoading true w).

(** [fetchCart] after [getCart] resolved with [data]: [setCart],
    [setCartCount(reduce ...)], then [finally setLoading(false)]. *)
Definition fetchCart_ok (data : CartData.t) (w : world) : world :=
  setLoading false (setCartCount (cart_count data) (setCart data w)).

(** [fetchCart] after [getCart] rejected: the [catch] shows a toast and
    swallows the error; [finally setLoading(false)]. *)
Definition fetchCart_err (w : world) : world :=
  setLoading false (show_toast (ToastError "Failed to load cart") w).

(** A mutation handler up to its first [await]: the [isAuthenticated]
    guard (toast, [return false], no request), else [setLoading(true)]
    and the mutation call. *)
Definition mutation_start (op : cart_op) (w : world) : world :=
  if Auth.isAuthenticated (auth w)
  then send (Auth.token (auth w)) (op_endpoint op) (KMutate op (Auth.token (auth w)))
         (setLoading true w)
  else resolve op false (show_toast (ToastError (login_message op)) w).

(** After [await fetchCart()] returned (it never rejects): success
    toast, [return true], [finally setLoading(false)]. *)
Definition mutation_done (op : cart_op) (w : world) : world :=
  resolve op true (setLoading false (show_toast (ToastSuccess (success_message op)) w)).

(** The [catch] of a mutation handler: [error.response?.data?.detail ||
    <default>] as a toast, [return false], [finally setLoading(false)]. *)
Definition mutation_err (op : cart_op) (e : axios_error) (w : world) : world :=
  resolve op false
    (setLoading false
       (show_toast (ToastError (js_or_str (err_detail e) (failure_message op))) w)).

(** The body of the [useEffect] on [[isAuthenticated, token]]. *)
Definition auth_effect (w : world) : world :=
  if Auth.isAuthenticated (auth w) && Auth.has_token (auth w)
  then fetchCart_start (Auth.token (auth w)) KFetch w
  else setCartCount 0 (setCart CartData.empty w).

(** React re-runs the effect when a dependency changed ([Object.is]). *)
Definition deps_changed (a a' : Auth.t) : bool :=
  negb (bool_decide (Auth.isAuthenticated a = Auth.isAuthenticated a'
                     /\ Auth.token a = Auth.token a')).

(** The code after the [await] of continuation [k], when the request
    resolved with [payload]: [fetchCart] stores the cart; a mutation
    handler calls its closure's [fetchCart] (line 54 and its three
    copies); that inner [fetchCart] stores the cart and the handler
    finishes. *)
Definition resume_ok (k : cont) (payload : CartData.t) (w : world) : world :=
  match k with
  | KFetch => fetchCart_ok payload w
  | KMutate op token => fetchCart_start token (KRefresh op) w
  | KRefresh op => mutation_done op (fetchCart_ok payload w)
  end.

(** The [catch] reached when the request rejected with [e]: [fetchCart]'s
    own, the mutation handler's, or, for the inner [fetchCart], its own
    (which swallows the error, so the handler still succeeds). *)
Definition resume_err (k : cont) (e : axios_error) (w : world) : world :=
  match k with
  | KFetch => fetchCart_err w
  | KMutate op _ => mutation_err op e w
  | KRefresh op => mutation_done op (fetchCart_err w)
  end.

(** ** Events and the step function *)

Inductive event :=
| CallRefreshCart
| CallMutation (op : cart_op)
| SessionChange (o : session_op)
| ResolveRequest (id : nat) (payload : CartData.t)
| RejectRequest (id : nat) (e : axios_error).

(** The promise of request [id], removed from the in-flight list. *)
Fixpoint take_pending (id : nat) (l : list pending) : option (pending * list pending) :=
  match l with
  | [] => None
  | p :: l' =>
      if Nat.eqb (req_id p) id then Some (p, l')
      else match take_pending id l' with
           | Some (q, r) => Some (q, p :: r)
           | None => None
           end
  end.

Definition handle (w : world) (ev : event) : option world :=
  match ev with
  | CallRefreshCart => Some (fetchCart_start (Auth.token (auth w)) KFetch w)
  | CallMutation op => Some (mutation_start op w)
  | SessionChange o =>
      let '(a', ls') := apply_session o (auth w) (storage w) in
      let w' := set_browser a' ls' (location w) w in
      Some (if deps_changed (auth w) a' then auth_effect w' else w')
  | ResolveRequest id payload =>
      match take_pending id (inflight w) with
      | None => None
      | Some (p, rest) =>
          Some (resume_ok (req_cont p) payload (set_inflight rest w))
      end
  | RejectRequest id e =>
      match take_pending id (inflight w) with
      | None => None
      | Some (p, rest) =>
          let '(ls', loc') := response_interceptor_error e (storage w) (location w) in
          Some (resume_err (req_cont p) e (set_browser (auth w) ls' loc' (set_inflight rest w)))
      end
  end.

(** A sequence of events, run one after the other. *)
Abbreviation run := (run_steps handle).

(** The provider mounted under the value [a] of [useAuth()], with
    [localStorage] [ls]: initial state, then the effect's first run. *)
Definition mount (a : Auth.t) (ls : storage_t) : world :=
  auth_effect (mk_world a ls "/" CartData.empty false 0 [] 0 [] [] []).

Definition mounted (w : world) : Prop := exists a ls, w = mount a ls.

(** The worlds reached from a mount. *)
Abbreviation reachable := (reach handle mounted).

(** ** What the provider publishes *)

(** The context value, lines 129-138: the state cells; its handlers
    [addToCart] ... [refreshCart] are the events [CallMutation] and
    [CallRefreshCart] of [handle]. *)
Record value := mk_value { value_cart : CartData.t; value_cartCount : Z; value_loading : bool }.

Definition provider_value (w : world) : value := mk_value (cart w) (cartCount w) (loading w).

Inductive hook_result := HookValue (v : value) | HookThrows (message : string).

(** [useCart()], lines 8-14: the value of the nearest provider, and an
    [Error] thrown outside one. *)
Definition useCart (ctx : option value) : hook_result :=
  match ctx with
  | Some v => HookValue v
  | None => HookThrows "useCart must be used within a CartProvider"
  end.

(** Well-formedness of the in-flight list: ids below [n], distinct. *)
Definition ids_ok_l (l : list pending) (n : nat) : Prop :=
  Forall (fun p => req_id p < n)%nat l /\ NoDup (map req_id l).

(** How the network settles a request: a response or a rejection. *)
Inductive outcome := Ok (payload : CartData.t) | Ko (e : axios_error).

Definition respond (id : nat) (o : outcome) : event :=
  match o with Ok d => ResolveRequest id d | Ko e => RejectRequest id e end.

(** Concrete worlds for the witnesses: a product line, carts, runs from
    a mount under the empty session. *)
Definition line (pid : string) (q : Z) (price : Q) : CartItem.t :=
  CartItem.mk pid q (Product.mk pid price None) (inject_Z q * price).

Definition cart_p1_2 : CartData.t := CartData.mk [line "p1" 2 10] 20.
Definition cart_p1_5 : CartData.t := CartData.mk [line "p1" 5 10] 50.

Definition demo (evs : list event) : world :=
  let w0 := mount Auth.initial ∅ in
  match run w0 evs with Some w => w | None => w0 end.

Definition login_ev : event := SessionChange (SetCredential "tok" false).

(** Logged in, the mount fetch (id 0) in flight. *)
Definition W_login : world := demo [login_ev].
(** Logged in with two units of [p1] in the cart, nothing in flight. *)
Definition W_ready : world := demo [login_ev; ResolveRequest 0 cart_p1_2].
(** [updateCartItem("p1", 5)] awaiting its PUT (id 1). *)
Definition W_mut : world := demo [login_ev; ResolveRequest 0 cart_p1_2;
                                   CallMutation (UpdateCartItem "p1" 5)].
(** The same handler awaiting its refresh (id 2). *)
Definition W_ref : world := demo [login_ev; ResolveRequest 0 cart_p1_2;
                                   CallMutation (UpdateCartItem "p1" 5);
                                   ResolveRequest 1 CartData.empty].

Definition op_p1_5 : cart_op := UpdateCartItem "p1" 5.
Definition p_mut : pending := mk_pending 1 (updateCartItem "p1" 5) (KMutate op_p1_5 (Some "tok")).
Definition p_ref : pending := mk_pending 2 getCart (KRefresh op_p1_5).
Definition p_login : pending := mk_pending 0 getCart KFetch.
Definition err_oos : axios_error := mk_error (Some 400) (Some "out of stock").
Definition err_401 : axios_error := mk_error (Some 401) None.

(** ** Generic facts on the step function *)

Arguments request_interceptor : simpl never.
Arguments response_interceptor_error : simpl never.
Arguments apply_session : simpl never.
Arguments cartAPI : simpl never.

Lemma take_pending_spec id l p rest :
  take_pending id l = Some (p, rest) -> req_id p = id /\ l ≡ₚ p :: rest.
Proof.
  revert rest. induction l as [|q l IH]; intros rest H; simpl in H; [discriminate|].
  destruct (Nat.eqb_spec (req_id q) id).
  - injection H as <- <-. split; [assumption | reflexivity].
  - destruct (take_pending id l) as [[q' r]|] eqn:E; [|discriminate].
    injection H as <- <-. destruct (IH r eq_refl) as [Hid Hperm]. split; [assumption|].
    rewrite Hperm. apply perm_swap.
Qed.

Lemma take_pending_in l p :
  NoDup (map req_id l) -> In p l ->
  exists rest, take_pending (req_id p) l = Some (p, rest) /\ l ≡ₚ p :: rest.
Proof.
  induction l as [|q l IH]; intros Hnd Hin; [destruct Hin|].
  simpl in Hnd. apply NoDup_cons in Hnd as [Hnotin Hnd]. simpl.
  destruct Hin as [<-|Hin].
  - rewrite Nat.eqb_refl. eexists; split; reflexivity.
  - destruct (Nat.eqb_spec (req_id q) (req_id p)) as [Heq|Hne].
    + exfalso. apply Hnotin. rewrite Heq. apply list_elem_of_In, in_map, Hin.
    + destruct (IH Hnd Hin) as [rest [-> Hperm]].
      exists (q :: rest). split; [reflexivity|]. rewrite Hperm. apply perm_swap.
Qed.

(** Unfold the handler layer only: the setters stay folded and [cbn]
    computes their projections lazily (unfolding them all at once
    copies the world into every field). *)
Ltac unfold_world :=
  unfold resume_ok, resume_err, fetchCart_start, fetchCart_ok, fetchCart_err, mutation_start,
    mutation_done, mutation_err, auth_effect in *.

(** Split a step [handle w ev = Some w'] into the code paths it may take. *)
Ltac handle_cases ev Hstep :=
  destruct ev as [| op | o | id payload | id e]; simpl in Hstep;
  [ | | destruct (apply_session _ _ _) eqn:?
    | destruct (take_pending _ _) as [[? ?]|] eqn:?
    | destruct (take_pending _ _) as [[? ?]|] eqn:?;
        [destruct (response_interceptor_error _ _ _) eqn:? |] ];
  tn_simpl; unfold_world; repeat case_match; cbn.

(** ** Invariants of every reachable world *)


Lemma ids_ok_send l n e k :
  ids_ok_l l n -> ids_ok_l (l ++ [mk_pending n e k]) (S n).
Proof.
  intros [Hlt Hnd]. split.
  - apply Forall_app_single; [|simpl; lia].
    eapply Forall_impl; [exact Hlt|]. intros p Hp; simpl in Hp. lia.
  - rewrite map_app. apply NoDup_app. split; [exact Hnd|]. split; [|apply NoDup_singleton].
    intros x Hx Hy. apply list_elem_of_singleton in Hy. simpl in Hy. subst x.
    apply list_elem_of_In, in_map_iff in Hx as [p [Hp Hin]].
    rewrite Forall_forall in Hlt. specialize (Hlt p (proj2 (list_elem_of_In _ _) Hin)). lia.
Qed.

Lemma ids_ok_take l n id p rest :
  ids_ok_l l n -> take_pending id l = Some (p, rest) -> ids_ok_l rest n.
Proof.
  intros [Hlt Hnd] Ht. apply take_pending_spec in Ht as [_ Hperm].
  rewrite Hperm in Hlt, Hnd. split.
  - now apply Forall_cons in Hlt as [_ ?].
  - simpl in Hnd. now apply NoDup_cons in Hnd as [_ ?].
Qed.

#[export] Hint Resolve ids_ok_send ids_ok_take : tn.

Lemma ids_ok_step w ev w' :
  ids_ok_l (inflight w) (next_id w) -> handle w ev = Some w' ->
  ids_ok_l (inflight w') (next_id w').
Proof. intros H Hstep. handle_cases ev Hstep; eauto with tn. Qed.

Lemma mount_ids_ok a ls : ids_ok_l (inflight (mount a ls)) (next_id (mount a ls)).
Proof.
  unfold mount; unfold_world; case_match; cbn;
    repeat constructor; simpl; try lia; set_solver.
Qed.

Lemma reachable_ids w :
  reachable w -> ids_ok_l (inflight w) (next_id w).
Proof.
  induction 1 as [w0 [a [ls ->]]|w ev w' _ IH Hstep].
  - apply mount_ids_ok.
  - eapply ids_ok_step; eassumption.
Qed.

(** A request in flight in a reachable world is found by its id. *)
Lemma take_reachable w p :
  reachable w -> In p (inflight w) ->
  exists rest, take_pending (req_id p) (inflight w) = Some (p, rest)
               /\ inflight w ≡ₚ p :: rest.
Proof. intros Hr Hin. apply take_pending_in; [apply (reachable_ids w Hr) | exact Hin]. Qed.

Lemma take_pending_app_r id l r :
  Forall (fun q => req_id q <> id) l ->
  take_pending id (l ++ r)
  = match take_pending id r with Some (p, r') => Some (p, l ++ r') | None => None end.
Proof.
  induction 1 as [|q l Hq _ IH]; simpl.
  - now destruct (take_pending id r) as [[? ?]|].
  - apply Nat.eqb_neq in Hq. rewrite Hq, IH. now destruct (take_pending id r) as [[? ?]|].
Qed.

(** The step that settles request [p], whatever [p] awaits. *)
Lemma handle_resolve_at w p rest payload :
  take_pending (req_id p) (inflight w) = Some (p, rest) ->
  handle w (ResolveRequest (req_id p) payload)
  = Some (resume_ok (req_cont p) payload (set_inflight rest w)).
Proof. intros Ht. simpl. now rewrite Ht. Qed.

Lemma handle_reject_at w p rest e :
  take_pending (req_id p) (inflight w) = Some (p, rest) ->
  handle w (RejectRequest (req_id p) e)
  = Some (let '(ls', loc') := response_interceptor_error e (storage w) (location w) in
          resume_err (req_cont p) e (set_browser (auth w) ls' loc' (set_inflight rest w))).
Proof. intros Ht. simpl. rewrite Ht. now destruct (response_interceptor_error _ _ _). Qed.

(** Rewrite the step on request [p] of a reachable world with
    continuation [Hk], and expose the resulting world. *)
Ltac step_on p Hr Hin Hk :=
  let rest := fresh "rest" in let Ht := fresh "Ht" in
  destruct (take_reachable _ p Hr Hin) as [rest [Ht _]];
  first [rewrite (handle_resolve_at _ _ _ _ Ht) | rewrite (handle_reject_at _ _ _ _ Ht)];
  rewrite Hk;
  try (destruct (response_interceptor_error _ _ _) eqn:?);
  eexists; split; [reflexivity|]; unfold_world; cbn.

(** (C1) In every reachable world the badge count [cartCount] equals the
    sum of the quantities of the lines of [cart]: the two cells are
    always written together. *)
Theorem count_invariant w : reachable w -> cartCount w = cart_count (cart w).
Proof.
  induction 1 as [w0 [a [ls ->]]|w ev w' _ IH Hstep].
  - unfold mount; unfold_world; case_match; reflexivity.
  - handle_cases ev Hstep; auto.
Qed.

(** (C9) When no request is in flight the provider's [loading] flag is
    off: every path through a handler ends in [setLoading(false)]. *)
Theorem idle_not_loading w : reachable w -> inflight w = [] -> loading w = false.
Proof.
  induction 1 as [w0 [a [ls ->]]|w ev w' _ IH Hstep].
  - unfold mount; unfold_world; case_match; cbn; [intros Hnil; discriminate | auto].
  - handle_cases ev Hstep; intros Hnil;
      solve [reflexivity | auto | exfalso; eapply app_single_neq_nil; exact Hnil].
Qed.

Lemma demo_reachable evs :
  is_Some (run (mount Auth.initial ∅) evs) -> reachable (demo evs).
Proof.
  intros [w Hw]. unfold demo. rewrite Hw.
  eapply run_steps_reach; [apply reach_init; do 2 eexists; reflexivity | exact Hw].
Qed.

(** ** Functional behaviour of the handlers *)

(** (C3) A mutation called while [isAuthenticated] is false sends no
    request and leaves the cart alone: it shows the operation's login
    toast and its promise resolves to [false]. *)
Theorem mutation_unauthenticated w op :
  Auth.isAuthenticated (auth w) = false ->
  exists w', handle w (CallMutation op) = Some w'
    /\ sent w' = sent w /\ inflight w' = inflight w
    /\ cart w' = cart w /\ cartCount w' = cartCount w
    /\ resolved w' = resolved w ++ [(op, false)]
    /\ toasts w' = toasts w ++ [ToastError (login_message op)].
Proof.
  intros H. eexists; split; [reflexivity|].
  unfold mutation_start. rewrite H. cbn. repeat split.
Qed.

(** (C38) An authenticated mutation is sent at once, whatever is in
    flight (it does not wait for a pending refresh), with the
    operation's endpoint and the credential chosen by the request
    interceptor; the cart is not touched before the server answers. *)
Theorem mutation_sent_immediately w op :
  Auth.isAuthenticated (auth w) = true ->
  exists w', handle w (CallMutation op) = Some w'
    /\ sent w' = sent w ++ [request_interceptor (storage w)
                              (cartAPI (Auth.token (auth w)) (op_endpoint op))]
    /\ inflight w' = inflight w ++ [mk_pending (next_id w) (op_endpoint op)
                                              (KMutate op (Auth.token (auth w)))]
    /\ cart w' = cart w /\ cartCount w' = cartCount w /\ loading w' = true.
Proof.
  intros H. eexists; split; [reflexivity|].
  unfold mutation_start. rewrite H. cbn. repeat split.
Qed.

(** (C4) Logging out of an authenticated session empties the cart and
    the badge at once and removes the stored token; the requests in
    flight are not cancelled. *)
Theorem logout_clears_cart w :
  Auth.isAuthenticated (auth w) = true ->
  exists w', handle w (SessionChange ClearCredential) = Some w'
    /\ CartData.items (cart w') = [] /\ cartCount w' = 0
    /\ Auth.isAuthenticated (auth w') = false
    /\ storage w' !! "token" = None
    /\ inflight w' = inflight w.
Proof.
  intros H. eexists; split; [reflexivity|].
  unfold deps_changed. rewrite bool_decide_eq_false_2 by (rewrite H; intros [? _]; discriminate).
  unfold_world. cbn. repeat split. apply lookup_delete_eq.
Qed.

(** (C6) A rejected mutation leaves cart and badge as they were, sends
    nothing more (no retry), shows the server's [detail] (or the
    operation's default message) and resolves to [false]. *)
Theorem mutation_rejected_keeps_cart w p op tok e :
  reachable w -> In p (inflight w) -> req_cont p = KMutate op tok ->
  exists w', handle w (RejectRequest (req_id p) e) = Some w'
    /\ cart w' = cart w /\ cartCount w' = cartCount w /\ loading w' = false
    /\ sent w' = sent w
    /\ resolved w' = resolved w ++ [(op, false)]
    /\ toasts w' = toasts w ++ [ToastError (js_or_str (err_detail e) (failure_message op))].
Proof. intros Hr Hin Hk. step_on p Hr Hin Hk. repeat split. Qed.

(** (C12) An accepted mutation is not applied locally: the response body
    is ignored, the cart is unchanged, and the handler immediately
    issues a [getCart] whose answer it awaits, built with the [token]
    its closure captured when the handler was created (whatever the
    session is now) and passed through the interceptor, which reads the
    current [localStorage]. *)
Theorem mutation_accepted_refetches w p op tok payload :
  reachable w -> In p (inflight w) -> req_cont p = KMutate op tok ->
  exists w', handle w (ResolveRequest (req_id p) payload) = Some w'
    /\ cart w' = cart w /\ cartCount w' = cartCount w /\ loading w' = true
    /\ sent w' = sent w ++ [request_interceptor (storage w) (cartAPI tok getCart)]
    /\ In (mk_pending (next_id w) getCart (KRefresh op)) (inflight w')
    /\ resolved w' = resolved w.
Proof.
  intros Hr Hin Hk. step_on p Hr Hin Hk. repeat split.
  apply in_or_app. right. now left.
Qed.

(** (C11) When the refresh of a mutation answers, the server's cart
    replaces the local one as a whole, the badge is recomputed from it,
    the spinner stops, the success toast shows and the mutation
    resolves to [true]. *)
Theorem refresh_replaces_cart w p op payload :
  reachable w -> In p (inflight w) -> req_cont p = KRefresh op ->
  exists w', handle w (ResolveRequest (req_id p) payload) = Some w'
    /\ cart w' = payload /\ cartCount w' = cart_count payload /\ loading w' = false
    /\ resolved w' = resolved w ++ [(op, true)]
    /\ toasts w' = toasts w ++ [ToastSuccess (success_message op)].
Proof. intros Hr Hin Hk. step_on p Hr Hin Hk. repeat split. Qed.

(** (C37) When the refresh of an accepted mutation fails, the error is
    swallowed by [fetchCart]: the stale cart stays, and the mutation
    still shows its success toast and resolves to [true]. *)
Theorem refresh_failure_reports_success w p op e :
  reachable w -> In p (inflight w) -> req_cont p = KRefresh op ->
  exists w', handle w (RejectRequest (req_id p) e) = Some w'
    /\ cart w' = cart w /\ cartCount w' = cartCount w
    /\ resolved w' = resolved w ++ [(op, true)]
    /\ toasts w' = toasts w ++ [ToastError "Failed to load cart";
                                 ToastSuccess (success_message op)].
Proof. intros Hr Hin Hk. step_on p Hr Hin Hk. rewrite <- app_assoc. repeat split. Qed.

(** (C10) Every activation of a mutation handler settles after at most
    two answers, whatever they are: a rejection of the mutation
    resolves it to [false]; an acceptance leaves exactly one refresh
    awaiting, and any answer to that refresh resolves it to [true]. *)
Theorem mutation_settles w p op tok :
  reachable w -> In p (inflight w) -> req_cont p = KMutate op tok ->
  forall o1, exists w1, handle w (respond (req_id p) o1) = Some w1 /\
    match o1 with
    | Ko _ => resolved w1 = resolved w ++ [(op, false)]
    | Ok _ => exists q, In q (inflight w1) /\ req_cont q = KRefresh op /\
               forall o2, exists w2, handle w1 (respond (req_id q) o2) = Some w2
                                    /\ resolved w2 = resolved w ++ [(op, true)]
    end.
Proof.
  intros Hr Hin Hk [d|e]; cbn [respond]; [|step_on p Hr Hin Hk; reflexivity].
  destruct (take_reachable w p Hr Hin) as [rest [Ht _]].
  pose proof (handle_resolve_at w p rest d Ht) as Hs. rewrite Hk in Hs.
  eexists; split; [exact Hs|].
  set (q := mk_pending (next_id w) getCart (KRefresh op)).
  assert (Hin1 : In q (inflight (fetchCart_start tok (KRefresh op) (set_inflight rest w))))
    by (unfold_world; cbn; apply in_or_app; right; now left).
  assert (Hr1 : reachable (fetchCart_start tok (KRefresh op) (set_inflight rest w)))
    by (eapply reach_step; [exact Hr | exact Hs]).
  exists q. split; [exact Hin1|]. split; [reflexivity|].
  intros [d2|e2]; cbn [respond]; step_on q Hr1 Hin1 (eq_refl : req_cont q = KRefresh op); reflexivity.
Qed.

(** (C34) The code keeps no request sequence numbers: if two refreshes
    are issued and the later one is answered first, the older answer
    lands last and is the cart the user sees. *)
Theorem stale_refresh_wins w cA cB :
  reachable w ->
  exists w', run w [CallRefreshCart; CallRefreshCart;
                    ResolveRequest (S (next_id w)) cB; ResolveRequest (next_id w) cA] = Some w'
    /\ cart w' = cA /\ cartCount w' = cart_count cA /\ inflight w' = inflight w.
Proof.
  intros Hr. destruct (reachable_ids w Hr) as [Hlt _].
  set (pA := mk_pending (next_id w) getCart KFetch).
  set (pB := mk_pending (S (next_id w)) getCart KFetch).
  assert (HfB : Forall (fun q => req_id q <> S (next_id w)) (inflight w ++ [pA])).
  { apply Forall_app_single; [|simpl; lia].
    eapply Forall_impl; [exact Hlt|]. simpl; intros; lia. }
  assert (HfA : Forall (fun q => req_id q <> next_id w) (inflight w)).
  { eapply Forall_impl; [exact Hlt|]. simpl; intros; lia. }
  cbn [run_steps handle]. unfold fetchCart_start. cbn.
  rewrite take_pending_app_r by exact HfB. cbn. rewrite Nat.eqb_refl.
  cbn. rewrite app_nil_r, take_pending_app_r by exact HfA. cbn. rewrite Nat.eqb_refl.
  eexists; split; [reflexivity|]. unfold_world. cbn. rewrite app_nil_r. repeat split.
Qed.

(** A logout sends nothing and keeps the requests in flight; the
    session and [localStorage] lose the token. *)
Lemma logout_step w :
  exists w1, handle w (SessionChange ClearCredential) = Some w1
    /\ inflight w1 = inflight w /\ sent w1 = sent w
    /\ Auth.isAuthenticated (auth w1) = false /\ Auth.token (auth w1) = None
    /\ storage w1 !! "token" = None.
Proof.
  eexists; split; [reflexivity|].
  destruct (deps_changed _ _); unfold_world; cbn; repeat split; apply lookup_delete_eq.
Qed.

(** (C35) Logging out does not cancel a [getCart] in flight: when it
    answers after the logout, the previous user's cart is shown again
    although nobody is authenticated. *)
Theorem logout_leaks_inflight_cart w p c :
  reachable w -> In p (inflight w) -> req_cont p = KFetch ->
  exists w', run w [SessionChange ClearCredential; ResolveRequest (req_id p) c] = Some w'
    /\ Auth.isAuthenticated (auth w') = false
    /\ storage w' !! "token" = None
    /\ cart w' = c /\ cartCount w' = cart_count c.
Proof.
  intros Hr Hin Hk. destruct (logout_step w) as (w1 & Hs & Hinf & _ & Hauth & _ & Hst).
  assert (Hr1 : reachable w1) by (eapply reach_step; eassumption).
  assert (Hin1 : In p (inflight w1)) by (rewrite Hinf; exact Hin).
  cbn [run_steps]. rewrite Hs.
  destruct (take_reachable w1 p Hr1 Hin1) as [rest [Ht _]].
  rewrite (handle_resolve_at _ _ _ _ Ht), Hk.
  eexists; split; [reflexivity|]. unfold_world. cbn. repeat split; assumption.
Qed.

(** (C8) A mutation accepted by the server after the user logged out
    still refreshes the cart with the credential of the session that
    started it: its closure's [fetchCart] builds the header from the
    captured [token], and the interceptor, finding no token in
    [localStorage], leaves that header alone.  The old session's
    credential is sent after the logout. *)
Theorem logout_mid_mutation_sends_old_token w p op t d :
  reachable w -> In p (inflight w) -> req_cont p = KMutate op (Some t) ->
  exists w' r, run w [SessionChange ClearCredential; ResolveRequest (req_id p) d] = Some w'
    /\ Auth.token (auth w') = None /\ storage w' !! "token" = None
    /\ sent w' = sent w ++ [r] /\ method r = GET /\ url r = "/api/cart"
    /\ get_header "Authorization" (headers r) = Some ("Bearer " ++ t)%string.
Proof.
  intros Hr Hin Hk. destruct (logout_step w) as (w1 & Hs & Hinf & Hsent & _ & Htok & Hst).
  assert (Hr1 : reachable w1) by (eapply reach_step; eassumption).
  assert (Hin1 : In p (inflight w1)) by (rewrite Hinf; exact Hin).
  cbn [run_steps]. rewrite Hs.
  destruct (take_reachable w1 p Hr1 Hin1) as [rest [Ht _]].
  rewrite (handle_resolve_at _ _ _ _ Ht), Hk.
  do 2 eexists; split; [reflexivity|]. unfold fetchCart_start, send. cbn.
  rewrite Hsent. unfold request_interceptor. rewrite Hst.
  rewrite cartAPI_authorization. repeat split; assumption.
Qed.

(** (C36) The single [loading] flag is cleared by whichever handler
    finishes first: a world is reachable where a request is still in
    flight and the spinner is already off. *)
Theorem loading_cleared_while_inflight :
  exists w, reachable w /\ inflight w <> [] /\ loading w = false.
Proof.
  exists (demo [login_ev; CallRefreshCart; ResolveRequest 0 cart_p1_2]).
  split; [apply demo_reachable; vm_compute; eexists; reflexivity|].
  vm_compute. split; [discriminate | reflexivity].
Qed.

(** (C14) No rejection is silent: whichever handler awaited the request,
    an error toast is shown, and a 401 also removes the stored token and
    sends the browser to [/login]. *)
Theorem rejection_surfaces_error w p e :
  reachable w -> In p (inflight w) ->
  exists w', handle w (RejectRequest (req_id p) e) = Some w'
    /\ (exists msg more, toasts w' = toasts w ++ ToastError msg :: more)
    /\ (err_status e = Some 401 -> storage w' !! "token" = None /\ location w' = "/login").
Proof.
  intros Hr Hin. destruct (req_cont p) as [|op tok|op] eqn:Hk;
    step_on p Hr Hin Hk; (split; [do 2 eexists; rewrite <- ?app_assoc; reflexivity|]);
    intros H401; match goal with
    | H : response_interceptor_error _ _ _ = _ |- _ =>
        rewrite (response_interceptor_401 _ _ _ H401) in H; injection H as <- <-
    end; (split; [apply lookup_delete_eq | reflexivity]).
Qed.

(** (C39) [refreshCart] has no authentication guard: called with no
    session and no stored token it still sends [GET /api/cart], with the
    header ["Bearer null"]. *)
Theorem refresh_sends_without_session w :
  Auth.token (auth w) = None -> storage w !! "token" = None ->
  exists w' r, handle w CallRefreshCart = Some w' /\ sent w' = sent w ++ [r]
    /\ method r = GET /\ url r = "/api/cart"
    /\ get_header "Authorization" (headers r) = Some "Bearer null".
Proof.
  intros Htok Hls. do 2 eexists; split; [reflexivity|].
  unfold fetchCart_start, send. cbn. unfold request_interceptor. cbn. rewrite Hls.
  rewrite cartAPI_authorization, Htok. repeat split.
Qed.

(** The spec's scenario: a cart with two units of [p1] at 10;
    [updateCartItem("p1", 5)] succeeds; the refreshed cart has five units
    and a total of 50, the badge shows 5, and the call resolves to [true]. *)
Example scenario_update_quantity :
  let w := demo [login_ev; ResolveRequest 0 cart_p1_2] in
  cart w = cart_p1_2 /\ cartCount w = 2 /\
  exists w', run w [CallMutation (UpdateCartItem "p1" 5);
                    ResolveRequest 1 CartData.empty; ResolveRequest 2 cart_p1_5] = Some w'
    /\ cart w' = cart_p1_5 /\ cartCount w' = 5
    /\ CartData.total_amount (cart w') = 50%Q
    /\ resolved w' = [(UpdateCartItem "p1" 5, true)].
Proof. vm_compute. repeat split. eexists; repeat split. Qed.

(** The spec's scenario: [addToCart("p2", 1)] is rejected with
    detail "out of stock"; cart and badge stay exactly as before, the
    detail is shown, and the call resolves to [false]. *)
Example scenario_out_of_stock :
  let w := demo [login_ev; ResolveRequest 0 cart_p1_2] in
  exists w', run w [CallMutation (AddToCart "p2" 1);
                    RejectRequest 1 (mk_error (Some 400) (Some "out of stock"))] = Some w'
    /\ cart w' = cart w /\ cartCount w' = cartCount w
    /\ resolved w' = [(AddToCart "p2" 1, false)]
    /\ last (toasts w') = Some (ToastError "out of stock").
Proof. vm_compute. eexists; repeat split. Qed.

(** ** Witnesses *)

Ltac reach := apply demo_reachable; vm_compute; eexists; reflexivity.
Ltac member := vm_compute; auto.

Lemma count_invariant_witness : cartCount W_ready = cart_count (cart W_ready).
Proof. apply count_invariant. reach. Defined.

Lemma idle_not_loading_witness : loading W_ready = false.
Proof. apply idle_not_loading; [reach | vm_compute; reflexivity]. Defined.

Lemma mutation_unauthenticated_witness :
  exists w', handle (demo []) (CallMutation ClearCart) = Some w'
    /\ sent w' = sent (demo []) /\ inflight w' = inflight (demo [])
    /\ cart w' = cart (demo []) /\ cartCount w' = cartCount (demo [])
    /\ resolved w' = resolved (demo []) ++ [(ClearCart, false)]
    /\ toasts w' = toasts (demo []) ++ [ToastError (login_message ClearCart)].
Proof. apply mutation_unauthenticated. vm_compute. reflexivity. Defined.

Lemma mutation_sent_immediately_witness :
  exists w', handle W_login (CallMutation op_p1_5) = Some w'
    /\ sent w' = sent W_login ++ [request_interceptor (storage W_login)
                              (cartAPI (Auth.token (auth W_login)) (op_endpoint op_p1_5))]
    /\ inflight w' = inflight W_login
                     ++ [mk_pending (next_id W_login) (op_endpoint op_p1_5)
                                    (KMutate op_p1_5 (Auth.token (auth W_login)))]
    /\ cart w' = cart W_login /\ cartCount w' = cartCount W_login /\ loading w' = true.
Proof. apply mutation_sent_immediately. vm_compute. reflexivity. Defined.

Lemma logout_clears_cart_witness :
  exists w', handle W_ready (SessionChange ClearCredential) = Some w'
    /\ CartData.items (cart w') = [] /\ cartCount w' = 0
    /\ Auth.isAuthenticated (auth w') = false
    /\ storage w' !! "token" = None /\ inflight w' = inflight W_ready.
Proof. apply logout_clears_cart. vm_compute. reflexivity. Defined.

Lemma mutation_rejected_keeps_cart_witness :
  exists w', handle W_mut (RejectRequest (req_id p_mut) err_oos) = Some w'
    /\ cart w' = cart W_mut /\ cartCount w' = cartCount W_mut /\ loading w' = false
    /\ sent w' = sent W_mut
    /\ resolved w' = resolved W_mut ++ [(op_p1_5, false)]
    /\ toasts w' = toasts W_mut
                   ++ [ToastError (js_or_str (err_detail err_oos) (failure_message op_p1_5))].
Proof. apply (mutation_rejected_keeps_cart _ _ _ (Some "tok")); [reach | member | reflexivity]. Defined.

Lemma mutation_accepted_refetches_witness :
  exists w', handle W_mut (ResolveRequest (req_id p_mut) CartData.empty) = Some w'
    /\ cart w' = cart W_mut /\ cartCount w' = cartCount W_mut /\ loading w' = true
    /\ sent w' = sent W_mut ++ [request_interceptor (storage W_mut) (cartAPI (Some "tok") getCart)]
    /\ In (mk_pending (next_id W_mut) getCart (KRefresh op_p1_5)) (inflight w')
    /\ resolved w' = resolved W_mut.
Proof. apply mutation_accepted_refetches; [reach | member | reflexivity]. Defined.

Lemma refresh_replaces_cart_witness :
  exists w', handle W_ref (ResolveRequest (req_id p_ref) cart_p1_5) = Some w'
    /\ cart w' = cart_p1_5 /\ cartCount w' = cart_count cart_p1_5 /\ loading w' = false
    /\ resolved w' = resolved W_ref ++ [(op_p1_5, true)]
    /\ toasts w' = toasts W_ref ++ [ToastSuccess (success_message op_p1_5)].
Proof. apply refresh_replaces_cart; [reach | member | reflexivity]. Defined.

Lemma refresh_failure_reports_success_witness :
  exists w', handle W_ref (RejectRequest (req_id p_ref) err_401) = Some w'
    /\ cart w' = cart W_ref /\ cartCount w' = cartCount W_ref
    /\ resolved w' = resolved W_ref ++ [(op_p1_5, true)]
    /\ toasts w' = toasts W_ref ++ [ToastError "Failed to load cart";
                                     ToastSuccess (success_message op_p1_5)].
Proof. apply refresh_failure_reports_success; [reach | member | reflexivity]. Defined.

Lemma mutation_settles_witness :
  exists w1, handle W_mut (respond (req_id p_mut) (Ok CartData.empty)) = Some w1 /\
    exists q, In q (inflight w1) /\ req_cont q = KRefresh op_p1_5 /\
      forall o2, exists w2, handle w1 (respond (req_id q) o2) = Some w2
                           /\ resolved w2 = resolved W_mut ++ [(op_p1_5, true)].
Proof.
  exact (mutation_settles W_mut p_mut op_p1_5 (Some "tok")
           ltac:(reach) ltac:(member) eq_refl (Ok CartData.empty)).
Defined.

Lemma stale_refresh_wins_witness :
  exists w', run W_ready [CallRefreshCart; CallRefreshCart;
                          ResolveRequest (S (next_id W_ready)) cart_p1_5;
                          ResolveRequest (next_id W_ready) cart_p1_2] = Some w'
    /\ cart w' = cart_p1_2 /\ cartCount w' = cart_count cart_p1_2
    /\ inflight w' = inflight W_ready.
Proof. apply stale_refresh_wins. reach. Defined.

Lemma logout_leaks_inflight_cart_witness :
  exists w', run W_login [SessionChange ClearCredential;
                          ResolveRequest (req_id p_login) cart_p1_2] = Some w'
    /\ Auth.isAuthenticated (auth w') = false
    /\ storage w' !! "token" = None
    /\ cart w' = cart_p1_2 /\ cartCount w' = cart_count cart_p1_2.
Proof. apply logout_leaks_inflight_cart; [reach | member | reflexivity]. Defined.

Lemma logout_mid_mutation_sends_old_token_witness :
  exists w' r, run W_mut [SessionChange ClearCredential; ResolveRequest (req_id p_mut) cart_p1_5]
                 = Some w'
    /\ Auth.token (auth w') = None /\ storage w' !! "token" = None
    /\ sent w' = sent W_mut ++ [r] /\ method r = GET /\ url r = "/api/cart"
    /\ get_header "Authorization" (headers r) = Some "Bearer tok".
Proof. apply (logout_mid_mutation_sends_old_token _ _ op_p1_5); [reach | member | reflexivity]. Defined.

Lemma rejection_surfaces_error_witness :
  exists w', handle W_ref (RejectRequest (req_id p_ref) err_401) = Some w'
    /\ (exists msg more, toasts w' = toasts W_ref ++ ToastError msg :: more)
    /\ (err_status err_401 = Some 401 ->
        storage w' !! "token" = None /\ location w' = "/login").
Proof. apply rejection_surfaces_error; [reach | member]. Defined.

Lemma refresh_sends_without_session_witness :
  exists w' r, handle (demo []) CallRefreshCart = Some w' /\ sent w' = sent (demo []) ++ [r]
    /\ method r = GET /\ url r = "/api/cart"
    /\ get_header "Authorization" (headers r) = Some "Bearer null".
Proof. apply refresh_sends_without_session; vm_compute; reflexivity. Defined.

End CartProvider.
