(* ===== verification/Pricing.v ===== *)
(** * Order-summary arithmetic of [pages/Cart.js] and [pages/Checkout.js]

    Both pages read the server's [cart.total_amount] (never a sum of
    lines) as the subtotal, charge 5.99 shipping below a 50 threshold,
    add 8% tax, and show the total.  [Checkout.js] names the pieces
    ([subtotal], [shipping], [tax], [total], lines 20-23); [Cart.js]
    writes the same formula inline (line 184) and shows a banner with
    the amount missing for free shipping (lines 205-208).  JavaScript
    numbers are modelled as exact rationals [Q], so the theorems state
    the intended arithmetic; rounding by [toFixed(2)] is not modelled. *)

From Stdlib Require Import QArith Lqa.
From stdpp Require Import base strings.
From S2P Require Import Prelude Model.

Module OrderSummary.

Local Open Scope Q_scope.

(** [x < y] on numbers. *)
Definition Qlt_bool (x y : Q) : bool := negb (Qle_bool y x).

(** [x || 0]: a zero total is replaced by the literal [0]. *)
Definition js_or_zero (x : Q) : Q := if Qeq_bool x 0 then 0 else x.

(** [const subtotal = cart.total_amount || 0] (Checkout.js:20,
    Cart.js:36). *)
Definition subtotal (c : CartData.t) : Q := js_or_zero (CartData.total_amount c).

(** [subtotal >= 50 ? 0 : 5.99] (Checkout.js:21). *)
Definition shipping (s : Q) : Q := if Qle_bool 50 s then 0 else 599 # 100.

(** [subtotal * 0.08] (Checkout.js:22). *)
Definition tax (s : Q) : Q := s * (8 # 100).

(** [subtotal + shipping + tax] (Checkout.js:23). *)
Definition total (s : Q) : Q := s + shipping s + tax s.

(** Cart.js:184, the same total written inline. *)
Definition cart_page_total (totalAmount : Q) : Q :=
  totalAmount + (if Qle_bool 50 totalAmount then 0 else 599 # 100)
  + totalAmount * (8 # 100).

(** Cart.js:171, the shipping cell. *)
Definition shipping_label (totalAmount : Q) : string :=
  if Qle_bool 50 totalAmount then "Free" else "$5.99".

(** Cart.js:205-208: [totalAmount < 50 && <banner "Add 50 - totalAmount more">]. *)
Definition free_shipping_banner (totalAmount : Q) : option Q :=
  if Qlt_bool totalAmount 50 then Some (50 - totalAmount) else None.

(** ** Lemmas *)

Lemma shipping_cases s :
  (50 <= s /\ shipping s = 0) \/ (s < 50 /\ shipping s = 599 # 100).
Proof.
  unfold shipping. destruct (Qle_bool 50 s) eqn:E.
  - left. split; [now apply Qle_bool_iff | reflexivity].
  - right. split; [|reflexivity].
    apply Qnot_le_lt. intros H. apply Qle_bool_iff in H. congruence.
Qed.

Lemma Qlt_bool_iff x y : Qlt_bool x y = true <-> x < y.
Proof.
  unfold Qlt_bool. destruct (Qle_bool y x) eqn:E; simpl.
  - apply Qle_bool_iff in E. split; [discriminate | intros H; lra].
  - split; [intros _ | reflexivity].
    apply Qnot_le_lt. intros H. apply Qle_bool_iff in H. congruence.
Qed.

Lemma total_eq s : total s == (108 # 100) * s + shipping s.
Proof. unfold total, tax. lra. Qed.

(** The cart page's inline total and the checkout page's named
    total agree for every subtotal, and both equal 108% of the subtotal
    plus the shipping charge. *)
Theorem pages_agree_on_total s :
  cart_page_total s == total s /\ total s == (108 # 100) * s + shipping s.
Proof.
  split; [|apply total_eq].
  unfold cart_page_total, total, tax, shipping. destruct (Qle_bool 50 s); lra.
Qed.

(** The free-shipping banner is shown exactly when shipping is
    charged, and the amount it asks for is positive and brings the
    subtotal exactly to the threshold; otherwise the shipping cell reads
    "Free". *)
Theorem banner_iff_shipping_charged s :
  match free_shipping_banner s with
  | Some r => shipping s = 599 # 100 /\ 0 < r /\ s + r == 50
              /\ shipping_label s = "$5.99"
  | None => shipping s = 0 /\ shipping_label s = "Free"
  end.
Proof.
  unfold free_shipping_banner, shipping_label.
  destruct (shipping_cases s) as [[Hle Hs]|[Hlt Hs]]; rewrite Hs.
  - assert (Qlt_bool s 50 = false) as ->.
    { destruct (Qlt_bool s 50) eqn:E; [apply Qlt_bool_iff in E; lra | reflexivity]. }
    apply Qle_bool_iff in Hle. now rewrite Hle.
  - assert (Qlt_bool s 50 = true) as -> by now apply Qlt_bool_iff.
    assert (Qle_bool 50 s = false) as ->.
    { destruct (Qle_bool 50 s) eqn:E; [apply Qle_bool_iff in E; lra | reflexivity]. }
    repeat split; lra.
Qed.

(** For a non-negative subtotal the total lies between 108% of the
    subtotal and that plus 5.99; shipping is the only non-linear part. *)
Theorem total_bounds s :
  0 <= s -> (108 # 100) * s <= total s <= (108 # 100) * s + (599 # 100).
Proof.
  intros Hs. rewrite total_eq.
  destruct (shipping_cases s) as [[_ ->]|[_ ->]]; split; lra.
Qed.

(** (C40) The total is not monotone in the subtotal: any subtotal in
    (50 - 5.99/1.08, 50) costs the customer more than a subtotal of 50,
    because crossing the threshold drops the 5.99 shipping. *)
Theorem total_drops_at_threshold s :
  50 - (599 # 108) < s < 50 -> total 50 < total s.
Proof.
  intros [Hlo Hhi]. rewrite !total_eq.
  destruct (shipping_cases 50) as [[_ ->]|[H _]]; [|lra].
  destruct (shipping_cases s) as [[H _]|[_ ->]]; [lra|].
  assert (Hlo' : (108 # 100) * (50 - (599 # 108)) < (108 # 100) * s) by lra.
  lra.
Qed.

Lemma total_bounds_witness :
  0 <= 20 /\ (108 # 100) * 20 <= total 20 <= (108 # 100) * 20 + (599 # 100).
Proof. split; [vm_compute; discriminate | apply total_bounds; vm_compute; discriminate]. Defined.

Lemma total_drops_at_threshold_witness : total 50 < total (4999 # 100).
Proof. apply total_drops_at_threshold. split; vm_compute; reflexivity. Defined.

End OrderSummary.
