(* ===== verification/Routes.v ===== *)
(** * Routing and route guards of [App.js]

    [App] shows a spinner while [useAuth().loading] holds (lines 62-67)
    and otherwise renders the [<Routes>] table (lines 73-147): public
    pages, the two auth pages wrapped in [PublicRoute] (lines 47-60),
    the account pages wrapped in [ProtectedRoute] (lines 28-45) and the
    admin pages wrapped in [ProtectedRoute adminOnly].  A guard renders
    its child or a [<Navigate replace>] to another path, which the
    router then renders in turn.

    A path is matched the way React Router v6 matches these patterns:
    segments split on ['/'] with empty segments dropped (trailing
    slashes are allowed), static segments compared case-insensitively,
    [:id] matching one non-empty segment, and ["*"] matching what no
    other route matches.  Percent-decoding of [:id] is not modelled.
    [navigate fuel a path] follows redirects; the theorems show that
    once authentication has loaded one redirect at most leads to a
    rendered page, and that a page behind a guard is rendered only for
    the users the guard admits. *)

From Stdlib Require Import Ascii.
From stdpp Require Import base list strings.
From S2P Require Import Prelude Session.

Module Router.

Inductive page :=
| Home | Login | Register | Products | ProductDetail | Cart | Checkout
| Profile | Orders | Wishlist | AdminDashboard | AdminProducts | AdminOrders
| AdminUsers | AdminAnalytics | NotFound.

#[global] Instance page_eq_dec : EqDecision page.
Proof. solve_decision. Defined.

(** The wrapper of a route's element. *)
Inductive guard := Open | PublicRoute | ProtectedRoute (adminOnly : bool).

(** What React renders. *)
Inductive element :=
| LoadingSpinner
| Navigate (to : string)
| Render (p : page) (params : list (string * string)).

Record route := mk_route { route_path : string; route_guard : guard; route_page : page }.

#[global] Instance guard_eq_dec : EqDecision guard.
Proof. solve_decision. Defined.
#[global] Instance route_eq_dec : EqDecision route.
Proof. solve_decision. Defined.

(** The [<Routes>] table, lines 73-147. *)
Definition routes : list route :=
  [ mk_route "/" Open Home;
    mk_route "/products" Open Products;
    mk_route "/products/:id" Open ProductDetail;
    mk_route "/login" PublicRoute Login;
    mk_route "/register" PublicRoute Register;
    mk_route "/cart" (ProtectedRoute false) Cart;
    mk_route "/checkout" (ProtectedRoute false) Checkout;
    mk_route "/profile" (ProtectedRoute false) Profile;
    mk_route "/orders" (ProtectedRoute false) Orders;
    mk_route "/wishlist" (ProtectedRoute false) Wishlist;
    mk_route "/admin" (ProtectedRoute true) AdminDashboard;
    mk_route "/admin/products" (ProtectedRoute true) AdminProducts;
    mk_route "/admin/orders" (ProtectedRoute true) AdminOrders;
    mk_route "/admin/users" (ProtectedRoute true) AdminUsers;
    mk_route "/admin/analytics" (ProtectedRoute true) AdminAnalytics;
    mk_route "*" Open NotFound ].

(** ** Matching *)

(** Match pattern segments against path segments, collecting [:param]s. *)
Fixpoint match_segments (pat segs : list string) : option (list (string * string)) :=
  match pat, segs with
  | [], [] => Some []
  | p :: pat', s :: segs' =>
      match p with
      | String ":"%char name =>
          ps ← match_segments pat' segs'; Some ((name, s) :: ps)
      | _ =>
          if String.eqb (string_lower p) (string_lower s)
          then match_segments pat' segs' else None
      end
  | _, _ => None
  end.

(** The splat route, rendered when nothing else matches. *)
Definition splat_route : route := mk_route "*" Open NotFound.

(** The first non-splat route of [rs] whose pattern matches the path
    segments [segs], else the splat route. *)
Fixpoint first_match (rs : list route) (segs : list string) : route * list (string * string) :=
  match rs with
  | [] => (splat_route, [])
  | r :: rs' =>
      if String.eqb (route_path r) "*" then first_match rs' segs
      else match match_segments (path_segments (route_path r)) segs with
           | Some ps => (r, ps)
           | None => first_match rs' segs
           end
  end.

(** The route rendered for [path]. *)
Definition match_route (path : string) : route * list (string * string) :=
  first_match routes (path_segments path).

(** ** Guards and the app *)

(** [ProtectedRoute], lines 28-45. *)
Definition protected_route (adminOnly : bool) (a : Auth.t) (child : element) : element :=
  if Auth.loading a then LoadingSpinner
  else if negb (Auth.isAuthenticated a) then Navigate "/login"
  else if adminOnly && negb (Auth.isAdmin a) then Navigate "/"
  else child.

(** [PublicRoute], lines 47-60. *)
Definition public_route (a : Auth.t) (child : element) : element :=
  if Auth.loading a then LoadingSpinner
  else if Auth.isAuthenticated a then Navigate "/"
  else child.

Definition guard_element (g : guard) (a : Auth.t) (child : element) : element :=
  match g with
  | Open => child
  | PublicRoute => public_route a child
  | ProtectedRoute adminOnly => protected_route adminOnly a child
  end.

(** [App], lines 62-152. *)
Definition App (a : Auth.t) (path : string) : element :=
  if Auth.loading a then LoadingSpinner
  else let '(r, ps) := match_route path in
       guard_element (route_guard r) a (Render (route_page r) ps).

(** Follow [<Navigate replace>] at most [fuel] times: the final path and
    element, or [None] when the fuel runs out on a redirect. *)
Fixpoint navigate (fuel : nat) (a : Auth.t) (path : string) : option (string * element) :=
  match App a path with
  | Navigate to => match fuel with O => None | S f => navigate f a to end
  | e => Some (path, e)
  end.

Definition admin_pages : list page :=
  [AdminDashboard; AdminProducts; AdminOrders; AdminUsers; AdminAnalytics].

Definition account_pages : list page := [Cart; Checkout; Profile; Orders; Wishlist].

(** Users for the witnesses. *)
Definition guest : Auth.t := Auth.mk None false false false.
Definition shopper : Auth.t := Auth.mk (Some "t") true false false.
Definition administrator : Auth.t := Auth.mk (Some "t") true true false.

(** ** Lemmas *)

Lemma first_match_in rs segs :
  In (fst (first_match rs segs)) rs \/ fst (first_match rs segs) = splat_route.
Proof.
  induction rs as [|r rs IH]; simpl; [now right|].
  destruct (String.eqb _ _); [tauto|].
  destruct (match_segments _ _); simpl; tauto.
Qed.

Lemma match_route_cases path :
  let r := fst (match_route path) in
  In r routes.
Proof.
  simpl. destruct (first_match_in routes (path_segments path)) as [H|H]; [exact H|].
  unfold match_route. rewrite H. simpl. tauto.
Qed.

(** A guard's verdict for the user [a] once authentication has loaded. *)
Lemma guard_element_render g a child p ps :
  guard_element g a child = Render p ps ->
  child = Render p ps /\
  match g with
  | Open => True
  | PublicRoute => Auth.isAuthenticated a = false
  | ProtectedRoute adminOnly =>
      Auth.isAuthenticated a = true /\ (adminOnly = true -> Auth.isAdmin a = true)
  end.
Proof.
  destruct g as [| |adminOnly]; simpl; [auto| |];
    unfold public_route, protected_route;
    destruct (Auth.loading a), (Auth.isAuthenticated a); try discriminate; auto.
  destruct adminOnly, (Auth.isAdmin a); simpl; try discriminate; auto.
Qed.

Lemma App_render a path p ps :
  App a path = Render p ps ->
  Auth.loading a = false /\ In (mk_route (route_path (fst (match_route path)))
                               (route_guard (fst (match_route path))) p) routes
  /\ match route_guard (fst (match_route path)) with
     | Open => True
     | PublicRoute => Auth.isAuthenticated a = false
     | ProtectedRoute adminOnly =>
         Auth.isAuthenticated a = true /\ (adminOnly = true -> Auth.isAdmin a = true)
     end.
Proof.
  unfold App. destruct (Auth.loading a); [discriminate|].
  pose proof (match_route_cases path) as Hin. simpl in Hin.
  destruct (match_route path) as [r ps'] eqn:E. simpl in *.
  intros H. apply guard_element_render in H as [Hc Hg]. injection Hc as <- <-.
  destruct r; simpl in *. auto.
Qed.

(** The two targets of the guards' redirects render their pages. *)
Lemma App_login a :
  Auth.loading a = false -> Auth.isAuthenticated a = false -> App a "/login" = Render Login [].
Proof.
  intros Hl Ha. unfold App. rewrite Hl.
  replace (match_route "/login") with (mk_route "/login" PublicRoute Login, @nil (string * string))
    by (vm_compute; reflexivity).
  cbn. unfold public_route. now rewrite Hl, Ha.
Qed.

Lemma App_home a : Auth.loading a = false -> App a "/" = Render Home [].
Proof.
  intros Hl. unfold App. rewrite Hl.
  now replace (match_route "/") with (mk_route "/" Open Home, @nil (string * string))
    by (vm_compute; reflexivity).
Qed.

(** Case analysis on the table entry that rendered [p]. *)
Ltac table_cases Hin Hp :=
  simpl in Hin; repeat destruct Hin as [Hin|Hin]; try contradiction;
  injection Hin as <- <- <-; simpl in Hp; intuition (try discriminate).

(** (C16) An admin page is rendered only to an authenticated administrator. *)
Theorem admin_pages_need_admin a path p ps :
  App a path = Render p ps -> In p admin_pages ->
  Auth.isAuthenticated a = true /\ Auth.isAdmin a = true.
Proof.
  intros H Hp. apply App_render in H as [_ [Hin Hg]].
  destruct (fst (match_route path)) as [rp rg rpg]; simpl in *.
  table_cases Hin Hp.
Qed.

(** (C17) The cart, checkout, profile, orders and wishlist pages are
    rendered only to an authenticated user, and the login and register
    pages only to an unauthenticated one. *)
Theorem guarded_pages_need_session a path p ps :
  App a path = Render p ps ->
  (In p account_pages -> Auth.isAuthenticated a = true)
  /\ (In p [Login; Register] -> Auth.isAuthenticated a = false).
Proof.
  intros H. apply App_render in H as [_ [Hin Hg]].
  destruct (fst (match_route path)) as [rp rg rpg]; simpl in *.
  split; intros Hp; table_cases Hin Hp.
Qed.

(** (C18) Once authentication has loaded, every path renders a page
    after at most one redirect, and the redirect is the one its guard
    makes: the path itself renders its route's page; or the path is
    protected and the user a guest, who lands on [/login]; or the user
    is signed in and the path is an auth page, or an admin page and
    the user no administrator, and the user lands on [/].  There are no
    redirect loops. *)
Theorem navigate_settles a path :
  Auth.loading a = false ->
  exists path' p ps, navigate 1 a path = Some (path', Render p ps)
    /\ ((path' = path /\ App a path = Render p ps)
        \/ (path' = "/login" /\ p = Login /\ Auth.isAuthenticated a = false
            /\ exists adminOnly, route_guard (fst (match_route path)) = ProtectedRoute adminOnly)
        \/ (path' = "/" /\ p = Home /\ Auth.isAuthenticated a = true
            /\ (route_guard (fst (match_route path)) = PublicRoute
                \/ (route_guard (fst (match_route path)) = ProtectedRoute true
                    /\ Auth.isAdmin a = false)))).
Proof.
  intros Hl. unfold navigate. unfold App at 1 3. rewrite Hl.
  destruct (match_route path) as [[rp [| |adminOnly] rpg] ps] eqn:E; cbn [fst route_guard];
    unfold guard_element, public_route, protected_route; rewrite ?Hl;
    [do 3 eexists; split; [reflexivity | left; split; reflexivity]| |].
  - destruct (Auth.isAuthenticated a) eqn:Ha; cbn -[App];
      [|do 3 eexists; split; [reflexivity | left; split; reflexivity]].
    rewrite App_home by exact Hl.
    do 3 eexists; split; [reflexivity | right; right; intuition congruence].
  - destruct (Auth.isAuthenticated a) eqn:Ha; cbn -[App].
    + destruct adminOnly, (Auth.isAdmin a) eqn:Hadm; cbn -[App];
        try (do 3 eexists; split; [reflexivity | left; split; reflexivity]).
      rewrite App_home by exact Hl.
      do 3 eexists; split; [reflexivity | right; right; intuition congruence].
    + rewrite App_login by assumption.
      do 3 eexists; split; [reflexivity | right; left; eauto].
Qed.

(** No route of the table is shadowed: the path of every route
    other than the splat renders that very route. *)
Theorem routes_not_shadowed :
  Forall (fun r => route_path r = "*" \/ fst (match_route (route_path r)) = r) routes.
Proof.
  apply List.Forall_forall. intros r Hr. simpl in Hr.
  repeat destruct Hr as [<-|Hr]; try contradiction;
    first [left; reflexivity | right; vm_compute; reflexivity].
Qed.

(** ** Witnesses *)

Lemma admin_pages_need_admin_witness :
  Auth.isAuthenticated administrator = true /\ Auth.isAdmin administrator = true.
Proof.
  apply (admin_pages_need_admin administrator "/admin/users" AdminUsers []);
    vm_compute; auto.
Defined.

Lemma guarded_pages_need_session_witness :
  (In Checkout account_pages -> Auth.isAuthenticated shopper = true)
  /\ (In Checkout [Login; Register] -> Auth.isAuthenticated shopper = false).
Proof. apply (guarded_pages_need_session shopper "/checkout/" Checkout []). vm_compute. reflexivity. Defined.

Lemma navigate_settles_witness :
  exists path' p ps, navigate 1 guest "/checkout" = Some (path', Render p ps)
    /\ ((path' = "/checkout" /\ App guest "/checkout" = Render p ps)
        \/ (path' = "/login" /\ p = Login /\ Auth.isAuthenticated guest = false
            /\ exists adminOnly, route_guard (fst (match_route "/checkout")) = ProtectedRoute adminOnly)
        \/ (path' = "/" /\ p = Home /\ Auth.isAuthenticated guest = true
            /\ (route_guard (fst (match_route "/checkout")) = PublicRoute
                \/ (route_guard (fst (match_route "/checkout")) = ProtectedRoute true
                    /\ Auth.isAdmin guest = false)))).
Proof. apply navigate_settles. reflexivity. Defined.

End Router.
