(* ===== verification/CartPage.v ===== *)
(** * The cart page [pages/Cart.js]

    The page reads [cart] and [loading] from the cart provider and
    [isAuthenticated] from [useAuth()].  It renders a login prompt, a
    spinner, an empty-cart message or the lines with the order summary
    (lines 8-52), in that order of precedence.  On a line, the minus and
    plus buttons call [handleQuantityChange] with the quantity one below
    or above (lines 54-57, 122, 131), which calls [updateCartItem] only
    for a quantity of at least 1; "Remove" calls [removeFromCart]
    (lines 59-61, 143) and "Clear Cart" calls [clearCart] after a
    [window.confirm] (lines 63-67).  The buttons are modelled by the
    provider events they trigger, so the page composes with
    [CartProvider.handle].  The order summary (lines 157-212) is the
    inline arithmetic of [Pricing]; [Checkout] proves it agrees with
    the checkout page's. *)

From Stdlib Require Import ZArith QArith.
From stdpp Require Import base list strings gmap.
From S2P Require Import Prelude Model Session Api CartContext Pricing.
Import CartProvider.

Module CartPage.

Inductive view :=
| PleaseLogin
| Spinner
| EmptyCart
| Lines (items : list CartItem.t) (totalAmount : Q)
| Thrown (message : string).

(** Lines 8-52: the early returns, then the page with its lines. *)
Definition render (isAuthenticated loading : bool) (cart : CartData.t) : view :=
  if negb isAuthenticated then PleaseLogin
  else if loading then Spinner
  else let cartItems := CartData.items cart in
       let totalAmount := OrderSummary.js_or_zero (CartData.total_amount cart) in
       match cartItems with
       | [] => EmptyCart
       | _ => Lines cartItems totalAmount
       end.

(** The order summary of the page, lines 157-212: subtotal, the
    shipping cell, tax and total, each written inline, and the
    free-shipping banner. *)
Record cart_summary := mk_cart_summary {
  cs_subtotal : Q;
  cs_shipping : string;
  cs_tax : Q;
  cs_total : Q;
  cs_banner : option Q;
}.

Definition order_summary (totalAmount : Q) : cart_summary :=
  mk_cart_summary totalAmount (OrderSummary.shipping_label totalAmount)
    (totalAmount * (8 # 100)) (OrderSummary.cart_page_total totalAmount)
    (OrderSummary.free_shipping_banner totalAmount).

(** The page in a provider world, through [useCart()] (line 9) and
    [useAuth()]. *)
Definition render_world (w : world) : view :=
  match useCart (Some (provider_value w)) with
  | HookValue v => render (Auth.isAuthenticated (auth w)) (value_loading v) (value_cart v)
  | HookThrows message => Thrown message
  end.

(** [handleQuantityChange(productId, newQuantity)], lines 54-57. *)
Definition handleQuantityChange (productId : string) (newQuantity : Z) : list event :=
  if newQuantity <? 1 then [] else [CallMutation (UpdateCartItem productId newQuantity)].

(** [handleRemoveItem(productId)], lines 59-61. *)
Definition handleRemoveItem (productId : string) : list event :=
  [CallMutation (RemoveFromCart productId)].

Inductive button := Minus | Plus | Remove.

(** The buttons of one line, lines 120-147. *)
Definition line_click (b : button) (item : CartItem.t) : list event :=
  match b with
  | Minus => handleQuantityChange (CartItem.product_id item) (CartItem.quantity item - 1)
  | Plus => handleQuantityChange (CartItem.product_id item) (CartItem.quantity item + 1)
  | Remove => handleRemoveItem (CartItem.product_id item)
  end.

(** [handleClearCart], lines 63-67, with the answer to [window.confirm]. *)
Definition handleClearCart (confirmed : bool) : list event :=
  if confirmed then [CallMutation ClearCart] else [].

(** The events a click on the rendered page can trigger. *)
Inductive page_click := LineClick (b : button) (item : CartItem.t) | ClearClick (confirmed : bool).

Definition click (v : view) (c : page_click) : list event :=
  match v, c with
  | Lines items _, LineClick b item => if bool_decide (item ∈ items) then line_click b item else []
  | Lines _ _, ClearClick confirmed => handleClearCart confirmed
  | _, _ => []
  end.

(** The quantity an event asks the server to store, if it is an update. *)
Definition update_quantity (ev : event) : option Z :=
  match ev with CallMutation (UpdateCartItem _ q) => Some q | _ => None end.

(** ** Lemmas *)

Lemma handleQuantityChange_ge pid n ev q :
  ev ∈ handleQuantityChange pid n -> update_quantity ev = Some q -> 1 <= q.
Proof.
  unfold handleQuantityChange. destruct (n <? 1) eqn:E; [set_solver|].
  rewrite list_elem_of_singleton. intros -> Hq. simpl in Hq. tn_simpl.
  apply Z.ltb_ge in E. lia.
Qed.

Lemma line_click_mutation b item ev :
  ev ∈ line_click b item -> exists op, ev = CallMutation op.
Proof.
  destruct b; simpl; unfold handleQuantityChange; try case_match;
    rewrite ?list_elem_of_singleton; intros Hc; subst; first [by eexists | set_solver].
Qed.

Lemma click_events v c ev :
  ev ∈ click v c ->
  (exists items q, v = Lines items q) /\ exists op, ev = CallMutation op.
Proof.
  destruct v as [| | |items q|], c as [b item|[]]; simpl; intros Hc; try set_solver.
  case_bool_decide; [|set_solver].
  split; [eauto | exact (line_click_mutation _ _ _ Hc)].
Qed.

Lemma render_lines_authenticated isAuth ld c items q :
  render isAuth ld c = Lines items q -> isAuth = true /\ ld = false.
Proof.
  unfold render. destruct isAuth, ld; simpl; try discriminate.
  destruct (CartData.items c); discriminate || auto.
Qed.

(** ** Theorems *)

(** (C26) No click on the cart page asks the server for a quantity
    below one: the minus button on a single unit does nothing, and
    removal is the separate "Remove" button. *)
Theorem no_update_below_one v c ev q :
  ev ∈ click v c -> update_quantity ev = Some q -> 1 <= q.
Proof.
  destruct v as [| | |items tq|], c as [b item|[]]; simpl; intros Hc Hq; try set_solver.
  case_bool_decide; [|set_solver].
  destruct b; simpl in Hc; [eapply handleQuantityChange_ge; eauto..|].
  apply list_elem_of_singleton in Hc. subst. discriminate.
Qed.

(** (C27) Every click the rendered cart page reacts to reaches the
    server: the page is shown only to an authenticated user, so the
    provider never answers its calls with the login toast; each click
    sends exactly one request, for the endpoint of its operation. *)
Theorem page_clicks_reach_server w c ev :
  ev ∈ click (render_world w) c ->
  exists op w', ev = CallMutation op /\ handle w ev = Some w'
    /\ sent w' = sent w ++ [request_interceptor (storage w)
                              (cartAPI (Auth.token (auth w)) (op_endpoint op))].
Proof.
  intros Hin. destruct (click_events _ _ _ Hin) as [[items [q Hv]] [op ->]].
  apply render_lines_authenticated in Hv as [Ha _].
  exists op. eexists. split; [reflexivity|]. split; [reflexivity|].
  simpl. unfold mutation_start. rewrite Ha. reflexivity.
Qed.

(** ** Witnesses *)

Lemma no_update_below_one_witness : 1 <= 1.
Proof.
  apply (no_update_below_one (render_world W_ready) (LineClick Minus (line "p1" 2 10))
           (CallMutation (UpdateCartItem "p1" 1)) 1); vm_compute; [left | reflexivity].
Defined.

Lemma page_clicks_reach_server_witness :
  exists op w', CallMutation (RemoveFromCart "p1") = CallMutation op
    /\ handle W_ready (CallMutation (RemoveFromCart "p1")) = Some w'
    /\ sent w' = sent W_ready ++ [request_interceptor (storage W_ready)
                              (cartAPI (Auth.token (auth W_ready)) (op_endpoint op))].
Proof.
  apply (page_clicks_reach_server W_ready (LineClick Remove (line "p1" 2 10))).
  vm_compute. left.
Defined.

End CartPage.
