(* ===== verification/Endpoints.v ===== *)
(** * The REST endpoints of [services/api.js]

    Besides [cartAPI] (in [Api]), [services/api.js] exports seven groups
    of calls on the same axios instance: [authAPI] (lines 38-50),
    [productsAPI] (52-77), [ordersAPI] (107-128), [reviewsAPI]
    (130-149), [wishlistAPI] (151-172), [analyticsAPI] (174-198) and
    [paymentAPI] (200-216).  Each group is an inductive type with one
    constructor per method, carrying the method's arguments, and a
    function that builds the request exactly as the source writes it:
    the HTTP verb, the path (arguments interpolated into template
    literals without encoding), the JSON body, the query parameters and
    the per-call headers.  [endpoint] gathers the groups.

    Two families of theorems follow.  The first says which credential
    each request finally carries once the request interceptor has run:
    the [localStorage] token overrides the caller's, and the public
    calls carry one exactly when [localStorage] holds one.  The second
    is a round trip: a dispatcher built from the client's own URL
    scheme recovers, from the verb and the path of each request, the
    method that built it and its path arguments, provided the
    arguments are non-empty and contain no ['/']; an argument with a
    ['/'] is read as another method. *)

From Stdlib Require Import ZArith Ascii.
From stdpp Require Import base list strings gmap.
From S2P Require Import Prelude Session Api.

Module Endpoints.

(** ** The groups of calls *)

Inductive auth_endpoint :=
| login (email password : string)
| register (userData : list (string * json))
| getProfile (token : option string).

(** [authAPI], lines 38-50. *)
Definition authAPI (e : auth_endpoint) : request :=
  match e with
  | login email password =>
      api_call POST "/api/auth/login" [("email", JStr email); ("password", JStr password)] [] []
  | register userData => api_call POST "/api/auth/register" userData [] []
  | getProfile token => api_call GET "/api/user/profile" [] [] (auth_headers token)
  end.

Inductive products_endpoint :=
| getProducts (params : list (string * string))
| getProduct (id : string)
| createProduct (token : option string) (productData : list (string * json))
| updateProduct (token : option string) (id : string) (productData : list (string * json))
| deleteProduct (token : option string) (id : string)
| getCategories.

(** [productsAPI], lines 52-77 ([params = {}] is the empty list). *)
Definition productsAPI (e : products_endpoint) : request :=
  match e with
  | getProducts params => api_call GET "/api/products" [] params []
  | getProduct id => api_call GET ("/api/products/" ++ id) [] [] []
  | createProduct token productData =>
      api_call POST "/api/products" productData [] (auth_headers token)
  | updateProduct token id productData =>
      api_call PUT ("/api/products/" ++ id) productData [] (auth_headers token)
  | deleteProduct token id =>
      api_call DELETE ("/api/products/" ++ id) [] [] (auth_headers token)
  | getCategories => api_call GET "/api/categories" [] [] []
  end.

Inductive orders_endpoint :=
| getOrders (token : option string)
| getOrder (token : option string) (orderId : string)
| createOrder (token : option string) (orderData : list (string * json))
| updateOrderStatus (token : option string) (orderId status : string).

(** [ordersAPI], lines 107-128. *)
Definition ordersAPI (e : orders_endpoint) : request :=
  match e with
  | getOrders token => api_call GET "/api/orders" [] [] (auth_headers token)
  | getOrder token orderId =>
      api_call GET ("/api/orders/" ++ orderId) [] [] (auth_headers token)
  | createOrder token orderData => api_call POST "/api/orders" orderData [] (auth_headers token)
  | updateOrderStatus token orderId status =>
      api_call PUT ("/api/orders/" ++ orderId ++ "/status") [("status", JStr status)] []
        (auth_headers token)
  end.

Inductive reviews_endpoint :=
| getProductReviews (productId : string)
| createReview (token : option string) (reviewData : list (string * json))
| updateReview (token : option string) (reviewId : string) (reviewData : list (string * json))
| deleteReview (token : option string) (reviewId : string).

(** [reviewsAPI], lines 130-149. *)
Definition reviewsAPI (e : reviews_endpoint) : request :=
  match e with
  | getProductReviews productId =>
      api_call GET ("/api/products/" ++ productId ++ "/reviews") [] [] []
  | createReview token reviewData => api_call POST "/api/reviews" reviewData [] (auth_headers token)
  | updateReview token reviewId reviewData =>
      api_call PUT ("/api/reviews/" ++ reviewId) reviewData [] (auth_headers token)
  | deleteReview token reviewId =>
      api_call DELETE ("/api/reviews/" ++ reviewId) [] [] (auth_headers token)
  end.

Inductive wishlist_endpoint :=
| getWishlist (token : option string)
| addToWishlist (token : option string) (productId : string)
| removeFromWishlist (token : option string) (productId : string)
| isInWishlist (token : option string) (productId : string).

(** [wishlistAPI], lines 151-172. *)
Definition wishlistAPI (e : wishlist_endpoint) : request :=
  match e with
  | getWishlist token => api_call GET "/api/wishlist" [] [] (auth_headers token)
  | addToWishlist token productId =>
      api_call POST "/api/wishlist/add" [("product_id", JStr productId)] [] (auth_headers token)
  | removeFromWishlist token productId =>
      api_call DELETE ("/api/wishlist/remove/" ++ productId) [] [] (auth_headers token)
  | isInWishlist token productId =>
      api_call GET ("/api/wishlist/check/" ++ productId) [] [] (auth_headers token)
  end.

Inductive analytics_endpoint :=
| getDashboardStats (token : option string)
| getSalesData (token : option string) (params : list (string * string))
| getTopProducts (token : option string) (params : list (string * string))
| getUserActivity (token : option string) (params : list (string * string)).

(** [analyticsAPI], lines 174-198. *)
Definition analyticsAPI (e : analytics_endpoint) : request :=
  match e with
  | getDashboardStats token => api_call GET "/api/analytics/dashboard" [] [] (auth_headers token)
  | getSalesData token params =>
      api_call GET "/api/analytics/sales" [] params (auth_headers token)
  | getTopProducts token params =>
      api_call GET "/api/analytics/top-products" [] params (auth_headers token)
  | getUserActivity token params =>
      api_call GET "/api/analytics/user-activity" [] params (auth_headers token)
  end.

Inductive payment_endpoint :=
| createPaymentIntent (token : option string) (amount : json)
| confirmPayment (token : option string) (paymentIntentId : string)
| getPaymentHistory (token : option string).

(** [paymentAPI], lines 200-216. *)
Definition paymentAPI (e : payment_endpoint) : request :=
  match e with
  | createPaymentIntent token amount =>
      api_call POST "/api/payment/create-intent" [("amount", amount)] [] (auth_headers token)
  | confirmPayment token paymentIntentId =>
      api_call POST "/api/payment/confirm" [("payment_intent_id", JStr paymentIntentId)] []
        (auth_headers token)
  | getPaymentHistory token => api_call GET "/api/payment/history" [] [] (auth_headers token)
  end.

(** Every call of [services/api.js]. *)
Inductive endpoint :=
| EAuth (e : auth_endpoint)
| EProducts (e : products_endpoint)
| ECart (token : option string) (e : cart_endpoint)
| EOrders (e : orders_endpoint)
| EReviews (e : reviews_endpoint)
| EWishlist (e : wishlist_endpoint)
| EAnalytics (e : analytics_endpoint)
| EPayment (e : payment_endpoint).

Definition api_request (e : endpoint) : request :=
  match e with
  | EAuth e => authAPI e
  | EProducts e => productsAPI e
  | ECart token e => cartAPI token e
  | EOrders e => ordersAPI e
  | EReviews e => reviewsAPI e
  | EWishlist e => wishlistAPI e
  | EAnalytics e => analyticsAPI e
  | EPayment e => paymentAPI e
  end.

(** ** The credential a call is written with *)

(** [Some token] for a call written with [`Bearer ${token}`], [None]
    for the public calls, which set no [Authorization] header. *)
Definition endpoint_token (e : endpoint) : option (option string) :=
  match e with
  | EAuth (getProfile token) => Some token
  | EAuth _ => None
  | EProducts (createProduct token _ | updateProduct token _ _ | deleteProduct token _) =>
      Some token
  | EProducts _ => None
  | ECart token _ => Some token
  | EOrders (getOrders token | getOrder token _ | createOrder token _
             | updateOrderStatus token _ _) => Some token
  | EReviews (getProductReviews _) => None
  | EReviews (createReview token _ | updateReview token _ _ | deleteReview token _) =>
      Some token
  | EWishlist (getWishlist token | addToWishlist token _ | removeFromWishlist token _
               | isInWishlist token _) => Some token
  | EAnalytics (getDashboardStats token | getSalesData token _ | getTopProducts token _
                | getUserActivity token _) => Some token
  | EPayment (createPaymentIntent token _ | confirmPayment token _
              | getPaymentHistory token) => Some token
  end.

(** The token the request interceptor reads: [localStorage.getItem('token')]
    when truthy. *)
Definition stored_token (ls : storage_t) : option string :=
  match ls !! "token" with
  | Some t => if truthy_str t then Some t else None
  | None => None
  end.

(** ** A dispatcher for the client's URL scheme *)

(** The method name and the path arguments of a call. *)
Definition endpoint_route (e : endpoint) : string * list string :=
  match e with
  | EAuth (login _ _) => ("login", [])
  | EAuth (register _) => ("register", [])
  | EAuth (getProfile _) => ("getProfile", [])
  | EProducts (getProducts _) => ("getProducts", [])
  | EProducts (getProduct id) => ("getProduct", [id])
  | EProducts (createProduct _ _) => ("createProduct", [])
  | EProducts (updateProduct _ id _) => ("updateProduct", [id])
  | EProducts (deleteProduct _ id) => ("deleteProduct", [id])
  | EProducts getCategories => ("getCategories", [])
  | ECart _ getCart => ("getCart", [])
  | ECart _ (addToCart _ _) => ("addToCart", [])
  | ECart _ (updateCartItem _ _) => ("updateCartItem", [])
  | ECart _ (removeFromCart productId) => ("removeFromCart", [productId])
  | ECart _ clearCart => ("clearCart", [])
  | EOrders (getOrders _) => ("getOrders", [])
  | EOrders (getOrder _ orderId) => ("getOrder", [orderId])
  | EOrders (createOrder _ _) => ("createOrder", [])
  | EOrders (updateOrderStatus _ orderId _) => ("updateOrderStatus", [orderId])
  | EReviews (getProductReviews productId) => ("getProductReviews", [productId])
  | EReviews (createReview _ _) => ("createReview", [])
  | EReviews (updateReview _ reviewId _) => ("updateReview", [reviewId])
  | EReviews (deleteReview _ reviewId) => ("deleteReview", [reviewId])
  | EWishlist (getWishlist _) => ("getWishlist", [])
  | EWishlist (addToWishlist _ _) => ("addToWishlist", [])
  | EWishlist (removeFromWishlist _ productId) => ("removeFromWishlist", [productId])
  | EWishlist (isInWishlist _ productId) => ("isInWishlist", [productId])
  | EAnalytics (getDashboardStats _) => ("getDashboardStats", [])
  | EAnalytics (getSalesData _ _) => ("getSalesData", [])
  | EAnalytics (getTopProducts _ _) => ("getTopProducts", [])
  | EAnalytics (getUserActivity _ _) => ("getUserActivity", [])
  | EPayment (createPaymentIntent _ _) => ("createPaymentIntent", [])
  | EPayment (confirmPayment _ _) => ("confirmPayment", [])
  | EPayment (getPaymentHistory _) => ("getPaymentHistory", [])
  end.

(** The verb and path pattern of every method, [:name] marking a path
    argument, in the order of [services/api.js]. *)
Definition api_routes : list (string * http_method * string) :=
  [ ("login", POST, "/api/auth/login"); ("register", POST, "/api/auth/register");
    ("getProfile", GET, "/api/user/profile");
    ("getProducts", GET, "/api/products"); ("getProduct", GET, "/api/products/:id");
    ("createProduct", POST, "/api/products"); ("updateProduct", PUT, "/api/products/:id");
    ("deleteProduct", DELETE, "/api/products/:id"); ("getCategories", GET, "/api/categories");
    ("getCart", GET, "/api/cart"); ("addToCart", POST, "/api/cart/add");
    ("updateCartItem", PUT, "/api/cart/update");
    ("removeFromCart", DELETE, "/api/cart/remove/:productId");
    ("clearCart", DELETE, "/api/cart/clear");
    ("getOrders", GET, "/api/orders"); ("getOrder", GET, "/api/orders/:orderId");
    ("createOrder", POST, "/api/orders");
    ("updateOrderStatus", PUT, "/api/orders/:orderId/status");
    ("getProductReviews", GET, "/api/products/:productId/reviews");
    ("createReview", POST, "/api/reviews"); ("updateReview", PUT, "/api/reviews/:reviewId");
    ("deleteReview", DELETE, "/api/reviews/:reviewId");
    ("getWishlist", GET, "/api/wishlist"); ("addToWishlist", POST, "/api/wishlist/add");
    ("removeFromWishlist", DELETE, "/api/wishlist/remove/:productId");
    ("isInWishlist", GET, "/api/wishlist/check/:productId");
    ("getDashboardStats", GET, "/api/analytics/dashboard");
    ("getSalesData", GET, "/api/analytics/sales");
    ("getTopProducts", GET, "/api/analytics/top-products");
    ("getUserActivity", GET, "/api/analytics/user-activity");
    ("createPaymentIntent", POST, "/api/payment/create-intent");
    ("confirmPayment", POST, "/api/payment/confirm");
    ("getPaymentHistory", GET, "/api/payment/history") ].

(** Match path segments against a pattern, collecting the arguments. *)
Fixpoint match_pattern (pat segs : list string) : option (list string) :=
  match pat, segs with
  | [], [] => Some []
  | p :: pat', s :: segs' =>
      match p with
      | String ":"%char _ => args ← match_pattern pat' segs'; Some (s :: args)
      | _ => if String.eqb p s then match_pattern pat' segs' else None
      end
  | _, _ => None
  end.

Fixpoint dispatch_in (rs : list (string * http_method * string)) (m : http_method)
    (segs : list string) : option (string * list string) :=
  match rs with
  | [] => None
  | (name, m', pat) :: rs' =>
      if bool_decide (m = m') then
        match match_pattern (path_segments pat) segs with
        | Some args => Some (name, args)
        | None => dispatch_in rs' m segs
        end
      else dispatch_in rs' m segs
  end.

(** The method a request is routed to, read from its verb and path. *)
Definition dispatch (r : request) : option (string * list string) :=
  dispatch_in api_routes (method r) (path_segments (url r)).

(** A path argument that survives interpolation: non-empty, no ['/']. *)
Definition arg_ok (s : string) : bool := negb (String.eqb s "") && negb (has_char "/" s).

(** ** Lemmas *)

Lemma api_request_authorization e :
  get_header "Authorization" (headers (api_request e)) = bearer <$> endpoint_token e.
Proof.
  destruct e as [[]|[]|token e|[]|[]|[]|[]|[]]; try reflexivity.
  apply cartAPI_authorization.
Qed.

Lemma api_request_content_type e :
  get_header "Content-Type" (headers (api_request e)) = Some "application/json".
Proof.
  destruct e as [[]|[]|token e|[]|[]|[]|[]|[]]; try reflexivity.
  apply cartAPI_content_type.
Qed.

(** The request interceptor sets [Authorization] from [localStorage]
    when it holds a token, and leaves the header alone otherwise. *)
Lemma request_interceptor_authorization ls r :
  get_header "Authorization" (headers (request_interceptor ls r))
  = match stored_token ls with
    | Some t => Some (bearer (Some t))
    | None => get_header "Authorization" (headers r)
    end.
Proof.
  unfold request_interceptor, stored_token.
  destruct (ls !! "token") as [t|]; [destruct (truthy_str t)|]; simpl;
    autorewrite with tn_rw; reflexivity.
Qed.

Lemma arg_ok_spec s :
  arg_ok s = true <-> String.eqb s "" = false /\ has_char "/" s = false.
Proof. unfold arg_ok. rewrite andb_true_iff, !negb_true_iff. reflexivity. Qed.

(** Split the hypothesis [forallb arg_ok args = true] into facts the
    path computation rewrites with. *)
Ltac args_ok_hyps H :=
  simpl in H; rewrite ?andb_true_r in H;
  repeat match type of H with
  | _ && _ = true => let H' := fresh "H" in apply andb_true_iff in H as [H' H]
  end;
  repeat match goal with
  | H : arg_ok _ = true |- _ =>
      let H1 := fresh "Hne" in let H2 := fresh "Hsep" in
      apply arg_ok_spec in H as [H1 H2]
  end.

#[local] Arguments String.append : simpl nomatch.

(** Compute the segments of a path with interpolated arguments. *)
Ltac path_simpl :=
  unfold path_segments; simpl;
  rewrite ?split_on_sep, ?split_on_no_sep by assumption; cbn;
  repeat match goal with H : String.eqb _ "" = false |- _ => rewrite H end.

(** ** Theorems *)

(** (C13) Every request of [services/api.js] leaves with
    [Content-Type: application/json] and with the bearer credential of
    [localStorage] when it holds a non-empty token, whatever token the
    caller passed; otherwise the call keeps the header it was written
    with: ["Bearer <token>"] (["Bearer null"] for a missing one) for the
    authenticated calls, none for the public ones ([login],
    [register], the product list, a product, the categories and the
    reviews of a product). *)
Theorem api_request_credential (ls : storage_t) (e : endpoint) :
  let r := request_interceptor ls (api_request e) in
  get_header "Content-Type" (headers r) = Some "application/json"
  /\ get_header "Authorization" (headers r)
     = match stored_token ls with
       | Some t => Some (bearer (Some t))
       | None => bearer <$> endpoint_token e
       end.
Proof.
  simpl. split.
  - rewrite request_interceptor_other by discriminate. apply api_request_content_type.
  - rewrite request_interceptor_authorization, api_request_authorization. reflexivity.
Qed.

(** (C29) The URL scheme of [services/api.js] is unambiguous: from the
    verb and the path of any request, the dispatcher recovers the
    method that built it and its path arguments, provided every path
    argument is non-empty and free of ['/']. *)
Theorem api_dispatch_roundtrip (e : endpoint) :
  forallb arg_ok (endpoint_route e).2 = true ->
  dispatch (api_request e) = Some (endpoint_route e).
Proof.
  destruct e as [[]|[]|token []|[]|[]|[]|[]|[]]; intros Hok; args_ok_hyps Hok;
    unfold dispatch; cbn [api_request authAPI productsAPI cartAPI ordersAPI reviewsAPI
      wishlistAPI analyticsAPI paymentAPI api_call url method endpoint_route fst snd];
    path_simpl; reflexivity.
Qed.

(** Path arguments are interpolated without [encodeURIComponent]:
    asking for the product ["7/reviews"] issues the request of the
    reviews of product ["7"]. *)
Example product_id_not_encoded :
  dispatch (api_request (EProducts (getProduct "7/reviews")))
  = Some ("getProductReviews", ["7"]).
Proof. vm_compute. reflexivity. Qed.

(** ** Witnesses *)

Lemma api_dispatch_roundtrip_witness :
  dispatch (api_request (EOrders (updateOrderStatus (Some "t") "o42" "shipped")))
  = Some ("updateOrderStatus", ["o42"]).
Proof. apply (api_dispatch_roundtrip (EOrders (updateOrderStatus (Some "t") "o42" "shipped"))). reflexivity. Defined.

End Endpoints.
