(* ===== verification/Checkout.v ===== *)
(** * Order submission ([pages/Checkout.js])

    The checkout page keeps [formData] (shipping address, payment
    method; lines 13-17) and a [loading] flag.  [handleChange] writes
    the field named by the input (lines 25-30).  [handleSubmit] (lines
    32-58) refuses an address that is blank once trimmed, with a toast
    and no request; otherwise it sets [loading], awaits
    [ordersAPI.createOrder(localStorage.getItem('token'), formData)],
    and on a response with data shows a success toast, calls the cart
    provider's [clearCart()] without awaiting it and navigates to
    [/orders]; a rejection passes the response interceptor of
    [services/api.js] and shows the server's [detail] or a default
    message; [finally] clears [loading].  The submit button is disabled
    while [loading] holds (lines 153-160), so no submit event arrives
    then.  Before rendering, the page redirects to [/login] without a
    session and to [/cart] with an empty cart (lines 60-68); it then
    shows the form beside an order summary of the cart (lines 166-227),
    which is proved to agree with the cart page's.

    The page is an explicit state with an executable step function
    [handle] and its reachability relation; [awaiting] counts the
    order requests in flight, and [cart_calls] records the calls made
    into the cart provider, which [CartContext] models. *)

From Stdlib Require Import ZArith QArith.
From stdpp Require Import base list strings gmap.
From S2P Require Import Prelude Model Session Api CartContext Pricing CartPage Endpoints.
Import CartProvider Endpoints.

Module CheckoutPage.

(** ** Form and state *)

Record form := mk_form { shipping_address : string; payment_method : string }.

(** [useState({ shipping_address: '', payment_method: 'credit_card' })] *)
Definition initial_form : form := mk_form "" "credit_card".

(** The [name] of an input of the form. *)
Inductive field := FShippingAddress | FPaymentMethod.

(** [handleChange], lines 25-30: [{ ...formData, [name]: value }]. *)
Definition handleChange (name : field) (value : string) (f : form) : form :=
  match name with
  | FShippingAddress => mk_form value (payment_method f)
  | FPaymentMethod => mk_form (shipping_address f) value
  end.

(** [formData] as the JSON body of the order. *)
Definition form_json (f : form) : list (string * json) :=
  [("shipping_address", JStr (shipping_address f)); ("payment_method", JStr (payment_method f))].

Record state := mk_state {
  formData : form;
  loading : bool;
  awaiting : nat;
  storage : storage_t;
  location : string;
  toasts : list toast;
  cart_calls : list cart_op;
  sent : list request;
}.

Definition setFormData (f : form) (s : state) : state :=
  mk_state f (loading s) (awaiting s) (storage s) (location s) (toasts s) (cart_calls s) (sent s).

Definition show_toast (t : toast) (s : state) : state :=
  mk_state (formData s) (loading s) (awaiting s) (storage s) (location s) (toasts s ++ [t])
    (cart_calls s) (sent s).

(** [finally setLoading(false)], with the awaited request settled. *)
Definition settle (s : state) : state :=
  mk_state (formData s) false (pred (awaiting s)) (storage s) (location s) (toasts s)
    (cart_calls s) (sent s).

(** ** The handler *)

(** The order request: [ordersAPI.createOrder(localStorage.getItem('token'),
    formData)] through the request interceptor. *)
Definition order_request (ls : storage_t) (f : form) : request :=
  request_interceptor ls (ordersAPI (createOrder (ls !! "token") (form_json f))).

(** [handleSubmit] up to its [await], lines 32-46. *)
Definition handleSubmit (s : state) : state :=
  if negb (truthy_str (js_trim (shipping_address (formData s))))
  then show_toast (ToastError "Please enter a shipping address") s
  else mk_state (formData s) true (S (awaiting s)) (storage s) (location s) (toasts s)
         (cart_calls s) (sent s ++ [order_request (storage s) (formData s)]).

(** After the order call resolved, lines 48-52 and 55-57: [data] is the
    truthiness of [response.data]. *)
Definition order_ok (data : bool) (s : state) : state :=
  settle (if data
          then mk_state (formData s) (loading s) (awaiting s) (storage s) "/orders"
                 (toasts s ++ [ToastSuccess "Order placed successfully!"])
                 (cart_calls s ++ [ClearCart]) (sent s)
          else s).

(** After the order call rejected, lines 53-57, behind the response
    interceptor. *)
Definition order_err (e : axios_error) (s : state) : state :=
  let '(ls', loc') := response_interceptor_error e (storage s) (location s) in
  settle (mk_state (formData s) (loading s) (awaiting s) ls' loc'
            (toasts s ++ [ToastError (js_or_str (err_detail e) "Failed to place order")])
            (cart_calls s) (sent s)).

Inductive event :=
| Change (name : field) (value : string)
| Submit
| OrderResolved (data : bool)
| OrderRejected (e : axios_error).

(** One event; [None] when it cannot happen: a submit while the button
    is disabled, an answer with no order call in flight. *)
Definition handle (s : state) (ev : event) : option state :=
  match ev with
  | Change name value => Some (setFormData (handleChange name value (formData s)) s)
  | Submit => if loading s then None else Some (handleSubmit s)
  | OrderResolved data => if Nat.eqb (awaiting s) 0 then None else Some (order_ok data s)
  | OrderRejected e => if Nat.eqb (awaiting s) 0 then None else Some (order_err e s)
  end.

(** The page mounted at [/checkout] with [localStorage] [ls]. *)
Definition mount (ls : storage_t) : state :=
  mk_state initial_form false 0 ls "/checkout" [] [] [].

(** The states reached from a mount. *)
Definition reachable : state -> Prop := reach handle (fun s => exists ls, s = mount ls).

(** ** The page, lines 60-227 *)

(** The order summary, lines 166-227: one line per cart item (its id,
    quantity and total, lines 175-200), then subtotal, shipping ("Free"
    when it is 0, line 210), tax and total. *)
Record summary := mk_summary {
  sum_lines : list (string * Z * Q);
  sum_subtotal : Q;
  sum_shipping_free : bool;
  sum_shipping : Q;
  sum_tax : Q;
  sum_total : Q;
}.

Definition order_summary (cart : CartData.t) : summary :=
  let st := OrderSummary.subtotal cart in
  mk_summary
    (map (fun it => (CartItem.product_id it, CartItem.quantity it, CartItem.total it))
       (CartData.items cart))
    st (Qeq_bool (OrderSummary.shipping st) 0) (OrderSummary.shipping st)
    (OrderSummary.tax st) (OrderSummary.total st).

(** The redirects of lines 60-68, then the form, whose submit button is
    disabled while an order is placed (lines 155-163), beside the
    summary. *)
Inductive view := RedirectLogin | RedirectCart | OrderForm (submit_disabled : bool) (s : summary).

Definition render (isAuthenticated loading : bool) (cart : CartData.t) : view :=
  if negb isAuthenticated then RedirectLogin
  else match CartData.items cart with
       | [] => RedirectCart
       | _ => OrderForm loading (order_summary cart)
       end.

(** Concrete runs for the witnesses. *)
Definition ls_tok : storage_t := {["token" := "tok"]}.

Definition demo (evs : list event) : state :=
  match run_steps handle (mount ls_tok) evs with Some s => s | None => mount ls_tok end.

Definition S_filled : state := demo [Change FShippingAddress "1 Main St"].
Definition S_blank : state := demo [Change FShippingAddress "   "].
Definition S_waiting : state := demo [Change FShippingAddress "1 Main St"; Submit].

(** ** Lemmas *)

(** At most one order call is in flight, exactly while [loading] holds. *)
Definition single_order (s : state) : Prop :=
  (awaiting s <= 1)%nat /\ (loading s = true <-> awaiting s = 1%nat).

Lemma blank_address_toast s :
  all_space (shipping_address (formData s)) = true ->
  handleSubmit s = show_toast (ToastError "Please enter a shipping address") s.
Proof.
  intros H. apply js_trim_empty in H. unfold handleSubmit. now rewrite H.
Qed.

Lemma filled_address_sends s :
  all_space (shipping_address (formData s)) = false ->
  handleSubmit s = mk_state (formData s) true (S (awaiting s)) (storage s) (location s)
                     (toasts s) (cart_calls s) (sent s ++ [order_request (storage s) (formData s)]).
Proof.
  intros H. unfold handleSubmit.
  destruct (truthy_str (js_trim _)) eqn:E; [reflexivity|].
  exfalso. unfold truthy_str in E. apply negb_false_iff, String.eqb_eq, js_trim_empty in E.
  congruence.
Qed.

Lemma single_order_step s ev s' :
  single_order s -> handle s ev = Some s' -> single_order s'.
Proof.
  unfold single_order. intros [Hle Hld] Hstep.
  destruct ev as [name value| |data|e]; simpl in Hstep.
  - tn_simpl. exact (conj Hle Hld).
  - destruct (loading s) eqn:El; tn_simpl.
    destruct (all_space (shipping_address (formData s))) eqn:Ea.
    + rewrite blank_address_toast by exact Ea. simpl. rewrite El. exact (conj Hle Hld).
    + rewrite filled_address_sends by exact Ea. simpl.
      assert (awaiting s <> 1%nat) by (intros H; apply Hld in H; congruence). lia.
  - destruct (Nat.eqb_spec (awaiting s) 0); tn_simpl.
    unfold order_ok, settle. destruct data; simpl; split; try lia; split; intros Hc; discriminate || lia.
  - destruct (Nat.eqb_spec (awaiting s) 0); tn_simpl.
    unfold order_err, settle. destruct (response_interceptor_error _ _ _). simpl.
    split; try lia; split; intros Hc; discriminate || lia.
Qed.

Lemma checkout_demo_reachable evs :
  (exists s, run_steps handle (mount ls_tok) evs = Some s) -> reachable (demo evs).
Proof.
  intros [s Hs]. unfold demo. rewrite Hs.
  eapply run_steps_reach; [apply reach_init; eexists; reflexivity | exact Hs].
Qed.

(** ** Theorems *)

(** (C7) The page never has two orders in flight: in every reachable
    state at most one [createOrder] call awaits its answer, and exactly
    while the spinner replaces the disabled submit button. *)
Theorem checkout_single_order s : reachable s -> single_order s.
Proof.
  apply reach_invariant; [|exact single_order_step].
  intros s0 [ls ->]. unfold single_order. simpl. split; [lia | split; discriminate].
Qed.

(** An address that is empty or white space only is refused before
    any request: the page shows ["Please enter a shipping address"]
    and nothing else changes. *)
Theorem blank_address_refused s s' :
  all_space (shipping_address (formData s)) = true ->
  handle s Submit = Some s' ->
  s' = show_toast (ToastError "Please enter a shipping address") s
  /\ sent s' = sent s /\ awaiting s' = awaiting s.
Proof.
  intros Ha Hstep. simpl in Hstep. destruct (loading s); tn_simpl.
  rewrite blank_address_toast by exact Ha. auto.
Qed.

(** (C23) With an address that is not blank, a submit sends exactly one
    [POST /api/orders] whose body is the form and whose credential is
    the one [localStorage] holds (["Bearer null"] when it holds none),
    and shows the spinner. *)
Theorem order_submitted s :
  loading s = false -> all_space (shipping_address (formData s)) = false ->
  exists s', handle s Submit = Some s' /\ loading s' = true
    /\ sent s' = sent s ++ [order_request (storage s) (formData s)]
    /\ method (order_request (storage s) (formData s)) = POST
    /\ url (order_request (storage s) (formData s)) = "/api/orders"
    /\ data (order_request (storage s) (formData s)) = form_json (formData s)
    /\ get_header "Authorization" (headers (order_request (storage s) (formData s)))
       = Some (bearer (storage s !! "token")).
Proof.
  intros Hl Ha. simpl. rewrite Hl, filled_address_sends by exact Ha.
  eexists. split; [reflexivity|]. split; [reflexivity|]. split; [reflexivity|].
  unfold order_request, request_interceptor.
  split; [|split; [|split]]; destruct (storage s !! "token") as [t|];
    try destruct (truthy_str t); reflexivity.
Qed.

(** A successful order, once its response carries data, shows the
    success toast, calls the cart provider's [clearCart] once, goes to
    [/orders] and hides the spinner; a response without data only hides
    the spinner. *)
Theorem order_placed_clears_cart s :
  awaiting s <> 0%nat ->
  handle s (OrderResolved true)
  = Some (mk_state (formData s) false (pred (awaiting s)) (storage s) "/orders"
            (toasts s ++ [ToastSuccess "Order placed successfully!"])
            (cart_calls s ++ [ClearCart]) (sent s))
  /\ handle s (OrderResolved false) = Some (settle s).
Proof. intros H. simpl. apply Nat.eqb_neq in H. now rewrite H. Qed.

(** (C24) A rejected order leaves the cart alone: no call into the cart
    provider, no navigation to [/orders], the server's [detail] (or
    ["Failed to place order"]) as an error toast, the spinner hidden;
    on a 401 the token is gone and the browser is sent to [/login]. *)
Theorem order_failure_keeps_cart s e :
  awaiting s <> 0%nat ->
  exists s', handle s (OrderRejected e) = Some s'
    /\ cart_calls s' = cart_calls s /\ loading s' = false
    /\ toasts s' = toasts s ++ [ToastError (js_or_str (err_detail e) "Failed to place order")]
    /\ (err_status e = Some 401 -> storage s' !! "token" = None /\ location s' = "/login")
    /\ (err_status e <> Some 401 -> storage s' = storage s /\ location s' = location s).
Proof.
  intros H. simpl. apply Nat.eqb_neq in H. rewrite H.
  eexists. split; [reflexivity|]. unfold order_err, response_interceptor_error.
  case_bool_decide as H401; simpl; repeat split; try tauto.
  apply lookup_delete_eq.
Qed.

(** (C25) The cart page and the checkout page show the same order: for
    an authenticated user with a non-empty cart, the checkout lists the
    cart page's lines in order with their quantities and totals, and
    the two summaries, each computed in its own file, agree on the
    subtotal, on whether shipping is free, on the tax and on the total;
    with an empty cart the checkout sends the user back to the cart. *)
Theorem summaries_agree ld c :
  match CartPage.render true false c, render true ld c with
  | CartPage.Lines items ta, OrderForm _ s =>
      sum_lines s
      = map (fun it => (CartItem.product_id it, CartItem.quantity it, CartItem.total it)) items
      /\ sum_subtotal s = CartPage.cs_subtotal (CartPage.order_summary ta)
      /\ (sum_shipping_free s = true <-> CartPage.cs_shipping (CartPage.order_summary ta) = "Free")
      /\ sum_tax s == CartPage.cs_tax (CartPage.order_summary ta)
      /\ sum_total s == CartPage.cs_total (CartPage.order_summary ta)
  | CartPage.EmptyCart, RedirectCart => True
  | _, _ => False
  end.
Proof.
  unfold CartPage.render, render, order_summary. simpl.
  destruct (CartData.items c) as [|it items]; [exact I|].
  simpl. split; [reflexivity|]. split; [reflexivity|].
  split; [unfold OrderSummary.shipping, OrderSummary.shipping_label;
          destruct (Qle_bool 50 _); split; easy|].
  split; [reflexivity|]. symmetry. apply OrderSummary.pages_agree_on_total.
Qed.

(** ** Witnesses *)

Lemma checkout_single_order_witness : single_order S_waiting.
Proof.
  apply checkout_single_order, checkout_demo_reachable. vm_compute. eexists. reflexivity.
Defined.

Lemma blank_address_refused_witness :
  handleSubmit S_blank = show_toast (ToastError "Please enter a shipping address") S_blank
  /\ sent (handleSubmit S_blank) = sent S_blank
  /\ awaiting (handleSubmit S_blank) = awaiting S_blank.
Proof. apply blank_address_refused; vm_compute; reflexivity. Defined.

Lemma order_submitted_witness :
  exists s', handle S_filled Submit = Some s' /\ loading s' = true
    /\ sent s' = sent S_filled ++ [order_request (storage S_filled) (formData S_filled)]
    /\ method (order_request (storage S_filled) (formData S_filled)) = POST
    /\ url (order_request (storage S_filled) (formData S_filled)) = "/api/orders"
    /\ data (order_request (storage S_filled) (formData S_filled)) = form_json (formData S_filled)
    /\ get_header "Authorization" (headers (order_request (storage S_filled) (formData S_filled)))
       = Some (bearer (storage S_filled !! "token")).
Proof. apply order_submitted; vm_compute; reflexivity. Defined.

Lemma order_placed_clears_cart_witness :
  handle S_waiting (OrderResolved true)
  = Some (mk_state (formData S_waiting) false (pred (awaiting S_waiting)) (storage S_waiting)
            "/orders" (toasts S_waiting ++ [ToastSuccess "Order placed successfully!"])
            (cart_calls S_waiting ++ [ClearCart]) (sent S_waiting))
  /\ handle S_waiting (OrderResolved false) = Some (settle S_waiting).
Proof. apply order_placed_clears_cart. vm_compute. discriminate. Defined.

Lemma order_failure_keeps_cart_witness :
  exists s', handle S_waiting (OrderRejected err_401) = Some s'
    /\ cart_calls s' = cart_calls S_waiting /\ loading s' = false
    /\ toasts s' = toasts S_waiting
                   ++ [ToastError (js_or_str (err_detail err_401) "Failed to place order")]
    /\ (err_status err_401 = Some 401 -> storage s' !! "token" = None /\ location s' = "/login")
    /\ (err_status err_401 <> Some 401 -> storage s' = storage S_waiting
                                          /\ location s' = location S_waiting).
Proof. apply order_failure_keeps_cart. vm_compute. discriminate. Defined.

End CheckoutPage.
