(* ===== verification/CartSpec.v ===== *)
(** * The cart synchroniser's atomic contract, and its refinement

    Section 4.2 of the design describes the synchroniser as a machine
    whose operations are atomic: a refresh replaces the snapshot by the
    server's answer; a mutation is refused locally without a session,
    fails with the server's reason, or succeeds and is followed by a
    refresh before its promise resolves; a session change re-fetches or
    empties the cart.  [astate] is what a consumer of the provider
    observes (session, [localStorage], location, snapshot, badge count,
    toasts, the values the handlers' promises resolved to, requests
    sent), and [astep] runs one such atomic operation, given how the
    server answers each of its calls.

    The provider of [CartContext] is asynchronous: each operation is a
    call followed by responses matched to continuations by request id.
    [realise w ev] is the list of concrete events by which an operation
    executes when nothing else is in flight: the call, then the answer
    to each request it sends, in order.  The refinement theorems show
    that from any quiescent world every atomic operation, and every
    sequence of them, is executed by the provider with exactly the
    effect [astep] gives, through the abstraction [abs], leaving the
    world quiescent again.

    The contract is also stated as an interface, the record
    [cart_contract] of operations with their law; [contract_trace]
    is proved against the interface for any implementation, and
    [provider_contract] is the provider's implementation of it. *)

From Stdlib Require Import ZArith QArith.
From stdpp Require Import base list strings gmap.
From S2P Require Import Prelude Model Session Api CartContext.
Import CartProvider.

Module CartSpec.

(** ** The abstract machine *)

Record astate := mk_astate {
  a_auth : Auth.t;
  a_storage : storage_t;
  a_location : string;
  a_cart : CartData.t;
  a_count : Z;
  a_toasts : list toast;
  a_resolved : list (cart_op * bool);
  a_sent : list request;
}.

(** What a consumer observes of a provider world. *)
Definition abs (w : world) : astate :=
  mk_astate (auth w) (storage w) (location w) (cart w) (cartCount w) (toasts w) (resolved w)
    (sent w).

Definition a_send (e : cart_endpoint) (a : astate) : astate :=
  mk_astate (a_auth a) (a_storage a) (a_location a) (a_cart a) (a_count a) (a_toasts a)
    (a_resolved a)
    (a_sent a ++ [request_interceptor (a_storage a) (cartAPI (Auth.token (a_auth a)) e)]).

Definition a_toast (t : toast) (a : astate) : astate :=
  mk_astate (a_auth a) (a_storage a) (a_location a) (a_cart a) (a_count a) (a_toasts a ++ [t])
    (a_resolved a) (a_sent a).

Definition a_result (op : cart_op) (b : bool) (a : astate) : astate :=
  mk_astate (a_auth a) (a_storage a) (a_location a) (a_cart a) (a_count a) (a_toasts a)
    (a_resolved a ++ [(op, b)]) (a_sent a).

(** The snapshot and its projection, replaced together. *)
Definition a_replace (c : CartData.t) (a : astate) : astate :=
  mk_astate (a_auth a) (a_storage a) (a_location a) c (cart_count c) (a_toasts a)
    (a_resolved a) (a_sent a).

(** A rejected call: the global 401 handling. *)
Definition a_rejected (e : axios_error) (a : astate) : astate :=
  let '(ls, loc) := response_interceptor_error e (a_storage a) (a_location a) in
  mk_astate (a_auth a) ls loc (a_cart a) (a_count a) (a_toasts a) (a_resolved a) (a_sent a).

(** A refresh answered with [o]. *)
Definition a_fetch (o : outcome) (a : astate) : astate :=
  let a := a_send getCart a in
  match o with
  | Ok c => a_replace c a
  | Ko e => a_toast (ToastError "Failed to load cart") (a_rejected e a)
  end.

(** A mutation whose call is answered with [ack] and, when accepted,
    whose refresh is answered with [ref]. *)
Definition a_mutate (op : cart_op) (ack ref : outcome) (a : astate) : astate :=
  if negb (Auth.isAuthenticated (a_auth a))
  then a_result op false (a_toast (ToastError (login_message op)) a)
  else let a := a_send (op_endpoint op) a in
       match ack with
       | Ko e => a_result op false
                   (a_toast (ToastError (js_or_str (err_detail e) (failure_message op)))
                      (a_rejected e a))
       | Ok _ => a_result op true (a_toast (ToastSuccess (success_message op)) (a_fetch ref a))
       end.

(** Whether a session change makes the provider fetch. *)
Definition session_fetches (a a' : Auth.t) : bool :=
  deps_changed a a' && Auth.isAuthenticated a' && Auth.has_token a'.

(** A session change; [r] answers the fetch it may trigger. *)
Definition a_session (o : session_op) (r : outcome) (a : astate) : astate :=
  let '(au, ls) := apply_session o (a_auth a) (a_storage a) in
  let b := mk_astate au ls (a_location a) (a_cart a) (a_count a) (a_toasts a) (a_resolved a)
             (a_sent a) in
  if deps_changed (a_auth a) au then
    if Auth.isAuthenticated au && Auth.has_token au then a_fetch r b
    else a_replace CartData.empty b
  else b.

Inductive aevent :=
| ARefresh (o : outcome)
| AMutate (op : cart_op) (ack ref : outcome)
| ASession (o : session_op) (r : outcome).

Definition astep (a : astate) (ev : aevent) : astate :=
  match ev with
  | ARefresh o => a_fetch o a
  | AMutate op ack ref => a_mutate op ack ref a
  | ASession o r => a_session o r a
  end.

(** ** The concrete schedule of an atomic operation *)

Definition realise (w : world) (ev : aevent) : list event :=
  let n := next_id w in
  match ev with
  | ARefresh o => [CallRefreshCart; respond n o]
  | AMutate op ack ref =>
      CallMutation op
        :: (if Auth.isAuthenticated (auth w)
            then respond n ack :: match ack with Ok _ => [respond (S n) ref] | Ko _ => [] end
            else [])
  | ASession o r =>
      SessionChange o
        :: (if session_fetches (auth w) (fst (apply_session o (auth w) (storage w)))
            then [respond n r] else [])
  end.

(** Nothing in flight, no spinner. *)
Definition quiescent (w : world) : Prop := inflight w = [] /\ loading w = false.

(** ** Lemmas *)

Lemma inflight_send w tok e k :
  inflight w = [] -> inflight (send tok e k w) = [mk_pending (next_id w) e k].
Proof. intros H. unfold send. cbn. now rewrite H. Qed.

Lemma take_pending_single n e k :
  take_pending n [mk_pending n e k] = Some (mk_pending n e k, []).
Proof. simpl. now rewrite Nat.eqb_refl. Qed.

(** The answer to the only request in flight reaches its continuation. *)
Lemma resolve_sent w tok e k payload n :
  inflight w = [] -> n = next_id w ->
  handle (send tok e k w) (ResolveRequest n payload)
  = Some (resume_ok k payload (set_inflight [] (send tok e k w))).
Proof.
  intros H ->. apply (handle_resolve_at _ (mk_pending (next_id w) e k)).
  rewrite inflight_send by exact H. apply take_pending_single.
Qed.

Lemma reject_sent w tok e k err n :
  inflight w = [] -> n = next_id w ->
  handle (send tok e k w) (RejectRequest n err)
  = Some (let '(ls', loc') := response_interceptor_error err (storage w) (location w) in
          resume_err k err (set_browser (auth w) ls' loc' (set_inflight [] (send tok e k w)))).
Proof.
  intros H ->.
  change (RejectRequest (next_id w) err) with (RejectRequest (req_id (mk_pending (next_id w) e k)) err).
  rewrite (handle_reject_at _ _ []); [reflexivity|].
  rewrite inflight_send by exact H. apply take_pending_single.
Qed.


(** Answer the fetch started on [v] (nothing else in flight) with [o]
    and match the result against the abstract fetch. *)
Ltac answer_fetch v Hq o :=
  let E := fresh "E" in
  unfold fetchCart_start; destruct o as [?c|?e]; simpl respond;
  [ rewrite (run_steps_cons _ _ _ _ _ (resolve_sent (setLoading true v) _ _ _ _ _ Hq eq_refl))
  | rewrite (run_steps_cons _ _ _ _ _ (reject_sent (setLoading true v) _ _ _ _ _ Hq eq_refl)); simpl;
    destruct (response_interceptor_error _ _ _) eqn:E ];
  eexists; (split; [reflexivity|]); (split; [split; reflexivity|]);
  unfold a_fetch, a_rejected; cbn; try rewrite E; reflexivity.

(** A fetch started with nothing in flight and answered with [o]. *)
Lemma fetch_refines v o :
  inflight v = [] ->
  exists v', run (fetchCart_start (Auth.token (auth v)) KFetch v) [respond (next_id v) o] = Some v'
    /\ quiescent v' /\ abs v' = a_fetch o (abs v).
Proof. intros Hq. answer_fetch v Hq o. Qed.

(** The refresh inside a mutation handler, sent with the token of the
    session it started in (unchanged while nothing else runs), then
    its success. *)
Lemma refetch_refines v op o :
  inflight v = [] ->
  exists v', run (fetchCart_start (Auth.token (auth v)) (KRefresh op) v)
               [respond (next_id v) o] = Some v'
    /\ quiescent v'
    /\ abs v' = a_result op true (a_toast (ToastSuccess (success_message op)) (a_fetch o (abs v))).
Proof. intros Hq. answer_fetch v Hq o. Qed.

Lemma mutate_refines w op ack ref :
  quiescent w ->
  exists w', run w (realise w (AMutate op ack ref)) = Some w' /\ quiescent w'
    /\ abs w' = astep (abs w) (AMutate op ack ref).
Proof.
  intros [Hq Hl]. unfold realise, astep, a_mutate. cbn [a_auth abs].
  rewrite (run_steps_cons _ _ _ _ (mutation_start op w)) by reflexivity.
  unfold mutation_start. destruct (Auth.isAuthenticated (auth w)); simpl negb.
  - destruct ack as [p|e]; simpl respond.
    + rewrite (run_steps_cons _ _ _ _ _ (resolve_sent (setLoading true w) _ _ _ _ _ Hq eq_refl)).
      destruct (refetch_refines (set_inflight [] (send (Auth.token (auth w)) (op_endpoint op)
                  (KMutate op (Auth.token (auth w))) (setLoading true w))) op ref eq_refl)
        as [w' [Hrun [Hq' Habs]]].
      exists w'. split; [exact Hrun|]. split; [exact Hq'|]. rewrite Habs. reflexivity.
    + rewrite (run_steps_cons _ _ _ _ _ (reject_sent (setLoading true w) _ _ _ _ _ Hq eq_refl)).
      simpl. destruct (response_interceptor_error _ _ _) eqn:E.
      eexists. split; [reflexivity|]. split; [split; reflexivity|].
      unfold a_rejected. cbn. rewrite E. reflexivity.
  - eexists. split; [reflexivity|]. split; [split; assumption|]. reflexivity.
Qed.

Lemma session_refines w o r :
  quiescent w ->
  exists w', run w (realise w (ASession o r)) = Some w' /\ quiescent w'
    /\ abs w' = astep (abs w) (ASession o r).
Proof.
  intros [Hq Hl]. unfold realise, astep, a_session, session_fetches. cbn [abs a_auth a_storage].
  destruct (apply_session o (auth w) (storage w)) as [au ls] eqn:E. simpl fst.
  rewrite (run_steps_cons _ _ _ _ (let w' := set_browser au ls (location w) w in
                           if deps_changed (auth w) au then auth_effect w' else w'))
    by (simpl; now rewrite E).
  destruct (deps_changed (auth w) au); simpl andb.
  - unfold auth_effect. cbn [auth set_browser].
    destruct (Auth.isAuthenticated au && Auth.has_token au).
    + destruct (fetch_refines (set_browser au ls (location w) w) r Hq) as [w' [Hrun [Hq' Habs]]].
      exists w'. split; [exact Hrun|]. split; [exact Hq'|]. rewrite Habs. reflexivity.
    + eexists. split; [reflexivity|]. split; [split; assumption|]. reflexivity.
  - eexists. split; [reflexivity|]. split; [split; assumption|]. reflexivity.
Qed.

(** One atomic operation from a quiescent world. *)
Lemma realise_refines w ev :
  quiescent w ->
  exists w', run w (realise w ev) = Some w' /\ quiescent w' /\ abs w' = astep (abs w) ev.
Proof.
  destruct ev as [o|op ack ref|o r].
  - intros [Hq Hl]. unfold realise.
    rewrite (run_steps_cons _ _ _ _ (fetchCart_start (Auth.token (auth w)) KFetch w))
      by reflexivity.
    exact (fetch_refines w o Hq).
  - apply mutate_refines.
  - apply session_refines.
Qed.

(** ** The contract, as an interface

    What the synchroniser promises its consumers: a step function on
    the provider's events, an observation of its state, the idle
    states, and for each atomic operation the events that execute it,
    with the law that from an idle state they run to an idle state
    whose observation is the atomic machine's. *)
Record cart_contract (W : Type) := {
  cc_step : W -> event -> option W;
  cc_abs : W -> astate;
  cc_idle : W -> Prop;
  cc_realise : W -> aevent -> list event;
  cc_refines : forall w ev, cc_idle w ->
    exists w', run_steps cc_step w (cc_realise w ev) = Some w' /\ cc_idle w'
               /\ cc_abs w' = astep (cc_abs w) ev;
}.

Arguments cc_step {W} c.
Arguments cc_abs {W} c.
Arguments cc_idle {W} c.
Arguments cc_realise {W} c.
Arguments cc_refines {W} c.

(** Any implementation of the contract executes every sequence of
    atomic operations. *)
Lemma contract_trace {W} (c : cart_contract W) w aevs :
  cc_idle c w ->
  exists evs w', run_steps (cc_step c) w evs = Some w' /\ cc_idle c w'
    /\ cc_abs c w' = fold_left astep aevs (cc_abs c w).
Proof.
  revert w. induction aevs as [|ev aevs IH]; intros w Hq.
  - exists [], w. auto.
  - destruct (cc_refines c w ev Hq) as [w1 [Hrun1 [Hq1 Habs1]]].
    destruct (IH w1 Hq1) as [evs [w' [Hrun [Hq' Habs]]]].
    exists (cc_realise c w ev ++ evs), w'. rewrite run_steps_app, Hrun1. simpl.
    rewrite Habs, Habs1. auto.
Qed.

(** [CartProvider] implements the contract. *)
Definition provider_contract : cart_contract world :=
  {| cc_step := handle; cc_abs := abs; cc_idle := quiescent; cc_realise := realise;
     cc_refines := realise_refines |}.

(** ** Theorems *)

(** (C2) Refinement: the asynchronous provider implements the atomic
    contract.  From any reachable world with nothing in flight, every
    sequence of atomic operations (refreshes, mutations, session
    changes, each with the server's answers) is executed by a sequence
    of provider events (each call answered before the next) that ends
    in a reachable world with nothing in flight, whose observable state
    is the one the atomic machine computes. *)
Theorem provider_refines_atomic w aevs :
  reachable w -> quiescent w ->
  exists evs w', run w evs = Some w' /\ reachable w' /\ quiescent w'
    /\ abs w' = fold_left astep aevs (abs w).
Proof.
  intros Hr Hq.
  destruct (contract_trace provider_contract w aevs Hq) as [evs [w' [Hrun [Hq' Habs]]]].
  exists evs, w'. split; [exact Hrun|]. split; [exact (run_steps_reach _ _ _ _ _ Hr Hrun)|].
  split; [exact Hq' | exact Habs].
Qed.

(** ** Witnesses *)

Lemma provider_refines_atomic_witness :
  exists evs w', run W_ready evs = Some w' /\ reachable w' /\ quiescent w'
    /\ abs w' = fold_left astep [AMutate op_p1_5 (Ok CartData.empty) (Ok cart_p1_5)]
                  (abs W_ready).
Proof.
  apply provider_refines_atomic.
  - apply demo_reachable. vm_compute. eexists. reflexivity.
  - split; vm_compute; reflexivity.
Defined.

End CartSpec.
