(* ===== verification/ProductDetail.v ===== *)
(** * Adding products to the cart: [pages/ProductDetail.js] and the
      product cards of [pages/Products.js] and [pages/Wishlist.js]

    The product page keeps a [quantity] (initially 1, line 15).  Its
    select offers the values [1 .. Math.min(10, stock)] (lines 146-157)
    and is shown only to an authenticated user; the "Add to Cart"
    button is disabled when [stock === 0] (lines 162-169).
    [handleAddToCart] awaits the provider's [addToCart(_id, quantity)]
    and puts the quantity back to 1 when it resolved to [true] (lines
    51-56).  The product is the data of a [useQuery], which React Query
    refetches while the page stays mounted (on window focus, for
    instance), so the stock can change under a chosen quantity.  The
    stars are [renderStars(Math.floor(average_rating || 0))] (lines
    58-72, 113).

    The page is an explicit state with an executable step function:
    the calls it makes into the cart provider ([CartContext]) are
    recorded as [cart_op]s, and the provider's answer to each is an
    event.  [Array(n)] with a negative [n] throws a [RangeError]; the
    select's options are [None] then.

    The product cards of the list page (lines 54-56, 234-242) and of the
    wishlist (lines 73-77) call [addToCart(_id, 1)], the former only
    for an authenticated user, both disabled at stock 0.

    [render] is the page as shown (lines 26-212): spinner, "Product not
    found" (also when the query has an error with a product loaded),
    or the stars, review count, purchase area and availability. *)

From Stdlib Require Import ZArith QArith Qround.
From stdpp Require Import base list strings list_numbers.
From S2P Require Import Prelude Model Session Api CartContext.
Import CartProvider.

Module ProductCards.

(** [handleAddToCart(productId)] of the list page, Products.js lines
    54-56: [await addToCart(productId, 1)]. *)
Definition handleAddToCart (productId : string) : list cart_op := [AddToCart productId 1].

(** [handleAddToCart(product._id)] of the list page ([addToCart(id, 1)]),
    behind [isAuthenticated && ...] and [disabled={stock === 0}]. *)
Definition products_card_click (isAuthenticated : bool) (productId : string) (stock : Z)
    : list cart_op :=
  if isAuthenticated && negb (stock =? 0) then handleAddToCart productId else [].

(** The wishlist card's button: [addToCart(item.product._id, 1)],
    [disabled={stock === 0}], shown to everyone. *)
Definition wishlist_card_click (productId : string) (stock : Z) : list cart_op :=
  if negb (stock =? 0) then [AddToCart productId 1] else [].

End ProductCards.

Module ProductDetailPage.

(** The fields of [product.data] the page reads. *)
Record product := mk_product {
  _id : string;
  stock : Z;
  average_rating : Q;
}.

(** The options of the quantity select: [[...Array(Math.min(10, stock))]
    .map((_, i) => i + 1)]; a negative length is a [RangeError]. *)
Definition quantity_options (stock : Z) : option (list Z) :=
  let n := Z.min 10 stock in
  if n <? 0 then None else Some (map (fun i => i + 1) (seqZ 0 n)).

(** [renderStars(rating)], lines 58-72: solid for [i <= rating]. *)
Definition renderStars (rating : Z) : list bool :=
  map (fun i => i <=? rating) [1; 2; 3; 4; 5].

(** [Math.floor(productData.average_rating || 0)], line 113. *)
Definition star_rating (p : product) : Z := Qfloor (average_rating p).

Record state := mk_state {
  isAuthenticated : bool;
  prod : product;
  quantity : Z;
  awaiting : nat;
  cart_calls : list cart_op;
}.

Inductive event :=
| SelectQuantity (v : Z)
| ClickAdd
| AddSettled (success : bool)
| Refetch (p : product).

(** [setQuantity(parseInt(e.target.value))] for an offered value. *)
Definition select (v : Z) (s : state) : option state :=
  match quantity_options (stock (prod s)) with
  | Some opts =>
      if isAuthenticated s && bool_decide (v ∈ opts)
      then Some (mk_state (isAuthenticated s) (prod s) v (awaiting s) (cart_calls s))
      else None
  | None => None
  end.

(** [handleAddToCart] up to its [await], when the button is there and
    enabled. *)
Definition handleAddToCart (s : state) : option state :=
  if isAuthenticated s && negb (stock (prod s) =? 0)
  then Some (mk_state (isAuthenticated s) (prod s) (quantity s) (S (awaiting s))
               (cart_calls s ++ [AddToCart (_id (prod s)) (quantity s)]))
  else None.

(** After [await addToCart(...)]: [if (success) setQuantity(1)]. *)
Definition add_settled (success : bool) (s : state) : state :=
  mk_state (isAuthenticated s) (prod s) (if success then 1 else quantity s)
    (pred (awaiting s)) (cart_calls s).

Definition handle (s : state) (ev : event) : option state :=
  match ev with
  | SelectQuantity v => select v s
  | ClickAdd => handleAddToCart s
  | AddSettled b => if Nat.eqb (awaiting s) 0 then None else Some (add_settled b s)
  | Refetch p =>
      if String.eqb (_id p) (_id (prod s))
      then Some (mk_state (isAuthenticated s) p (quantity s) (awaiting s) (cart_calls s))
      else None
  end.

(** The page after its query loaded [p]. *)
Definition mount (isAuth : bool) (p : product) : state := mk_state isAuth p 1 0 [].

Definition is_refetch (ev : event) : bool :=
  match ev with Refetch _ => true | _ => false end.

(** The quantity of an [addToCart] call. *)
Definition add_quantity (op : cart_op) : Z :=
  match op with AddToCart _ q => q | _ => 0 end.

(** ** The page as rendered *)

(** The purchase area, lines 141-178: for a signed-in user the quantity
    select (its value and options, [None] when [Array] throws) and the
    button (disabled, label); for a guest the "Login to Purchase" link. *)
Inductive purchase :=
| LoginToPurchase
| Buy (value : Z) (options : option (list Z)) (disabled : bool) (label : string).

(** What the loaded page shows that depends on the data: the stars
    (line 113), the review count (line 116), the purchase area, the
    icon buttons beside it (lines 180-185, with no [onClick]), and the
    details list: the SKU (line 196) and the availability (lines
    203-206). *)
Record detail := mk_detail {
  stars : list bool;
  reviews : Z;
  purchase_area : purchase;
  icon_buttons : list string;
  sku : string;
  availability : string;
}.

Inductive view := Spinner | NotFound | Page (d : detail).

(** [ProductDetail]'s body, lines 26-212, from the query's [isLoading],
    [error] and data (the page's state when a product is loaded) and
    the product's [review_count]: [if (error || !product)] shows
    "Product not found" even when a product is loaded. *)
Definition render (isLoading error : bool) (s : option state) (review_count : option Z) : view :=
  if isLoading then Spinner else
  match s with
  | None => NotFound
  | Some s =>
      if error then NotFound else
      let st := stock (prod s) in
      Page (mk_detail (renderStars (star_rating (prod s))) (js_or_num review_count 0)
        (if isAuthenticated s
         then Buy (quantity s) (quantity_options st) (st =? 0)
                (if st =? 0 then "Out of Stock" else "Add to Cart")
         else LoginToPurchase)
        ["HeartIcon"; "ShareIcon"] (_id (prod s))
        (if 0 <? st then "In Stock" else "Out of Stock"))
  end.

(** Whether a view shows the Add to Cart button enabled. *)
Definition add_enabled (v : view) : bool :=
  match v with
  | Page d => match purchase_area d with Buy _ _ disabled _ => negb disabled | _ => false end
  | _ => false
  end.

(** Products for the witnesses. *)
Definition tee : product := mk_product "p1" 12 (37 # 10).
Definition tee_low : product := mk_product "p1" 3 (37 # 10).


(** ** Lemmas *)

(** The quantity stays a value the select offers, or 1. *)
Definition quantity_ok (bound : Z) (s : state) : Prop :=
  1 <= quantity s <= Z.max 1 bound
  /\ Forall (fun op => 1 <= add_quantity op <= Z.max 1 bound) (cart_calls s).

Lemma quantity_options_spec stock opts v :
  quantity_options stock = Some opts -> v ∈ opts -> 1 <= v <= Z.min 10 stock.
Proof.
  unfold quantity_options. destruct (Z.min 10 stock <? 0); intros H; tn_simpl.
  rewrite list_elem_of_fmap. intros [i [-> Hi]]. apply elem_of_seqZ in Hi. lia.
Qed.

Lemma quantity_ok_weaken b b' s : b <= b' -> quantity_ok b s -> quantity_ok b' s.
Proof.
  intros Hb [Hq Hc]. split; [lia|].
  eapply Forall_impl; [exact Hc|]. simpl. intros op Hop. lia.
Qed.

(** Every step keeps the quantity and the calls below any bound on the
    options of the product shown; only a refetch changes the product. *)
Lemma quantity_ok_step b s ev s' :
  Z.min 10 (stock (prod s)) <= b -> quantity_ok b s -> handle s ev = Some s' ->
  quantity_ok b s' /\ (is_refetch ev = false -> prod s' = prod s).
Proof.
  intros Hb [Hq Hc] Hstep. unfold quantity_ok. destruct ev as [v| |sc|p]; simpl in Hstep.
  - unfold select in Hstep. destruct (quantity_options _) as [opts|] eqn:Eo; [|discriminate].
    destruct (isAuthenticated s && bool_decide (v ∈ opts)) eqn:Ev; tn_simpl.
    apply andb_true_iff in Ev as [_ Hv]. apply bool_decide_eq_true in Hv.
    pose proof (quantity_options_spec _ _ _ Eo Hv). simpl.
    split; [split; [lia | exact Hc] | reflexivity].
  - unfold handleAddToCart in Hstep. case_match; tn_simpl. simpl.
    split; [|reflexivity]. split; [lia|]. apply Forall_app_single; [exact Hc|]. simpl. lia.
  - case_match; tn_simpl. simpl.
    split; [split; [destruct sc; lia | exact Hc] | reflexivity].
  - case_match; tn_simpl. simpl. split; [split; assumption | discriminate].
Qed.

Lemma quantity_capped_run s evs s' :
  quantity_ok 10 s -> run_steps handle s evs = Some s' -> quantity_ok 10 s'.
Proof.
  apply run_steps_preserves. intros s1 ev s2 Hok E.
  refine (proj1 (quantity_ok_step 10 s1 ev s2 _ Hok E)). lia.
Qed.

Lemma quantity_stock_run s evs s' :
  quantity_ok (Z.min 10 (stock (prod s))) s ->
  forallb (fun ev => negb (is_refetch ev)) evs = true -> run_steps handle s evs = Some s' ->
  quantity_ok (Z.min 10 (stock (prod s))) s' /\ prod s' = prod s.
Proof.
  revert s. induction evs as [|ev evs IH]; intros s Hok Hnr Hrun; simpl in Hrun, Hnr; tn_simpl;
    [auto|].
  apply andb_true_iff in Hnr as [Hev Hnr]. apply negb_true_iff in Hev.
  destruct (handle s ev) as [s1|] eqn:E; [|discriminate].
  destruct (quantity_ok_step _ s ev s1 (Z.le_refl _) Hok E) as [Hok1 Hp1].
  specialize (Hp1 Hev).
  destruct (IH s1) as [H1 H2]; [rewrite Hp1; exact Hok1 | exact Hnr | exact Hrun |].
  rewrite Hp1 in H1, H2. auto.
Qed.

Lemma mount_quantity_ok a p b : quantity_ok b (mount a p).
Proof. split; simpl; [lia | constructor]. Qed.

(** ** Theorems *)

(** Every [addToCart] call the product page makes asks for a
    positive number of units, at most 10 (the select's cap), whatever
    the user selects, clicks and the query refetches. *)
Theorem add_quantity_capped a p evs s :
  run_steps handle (mount a p) evs = Some s ->
  Forall (fun op => 1 <= add_quantity op <= 10) (cart_calls s).
Proof.
  intros Hrun. destruct (quantity_capped_run _ _ _ (mount_quantity_ok a p 10) Hrun)
    as [_ Hc].
  exact Hc.
Qed.

(** (C33) As long as the product is not refetched, every [addToCart]
    call of the product page asks for at most [Math.min(10, stock)]
    units (1 when the select is empty). *)
Theorem add_quantity_within_stock a p evs s :
  run_steps handle (mount a p) evs = Some s ->
  forallb (fun ev => negb (is_refetch ev)) evs = true ->
  Forall (fun op => 1 <= add_quantity op <= Z.max 1 (Z.min 10 (stock p))) (cart_calls s).
Proof.
  intros Hrun Hnr.
  destruct (quantity_stock_run (mount a p) evs s (mount_quantity_ok a p _) Hnr Hrun)
    as [[_ Hc] _].
  exact Hc.
Qed.

(** The chosen quantity survives a refetch that lowers the stock:
    after choosing 8 units of a product with 12 in stock, a refetch
    showing 3 in stock, and a click, the page asks for 8 units. *)
Example stale_quantity_after_refetch :
  exists s, run_steps handle (mount true tee) [SelectQuantity 8; Refetch tee_low; ClickAdd] = Some s
    /\ cart_calls s = [AddToCart "p1" 8] /\ stock (prod s) = 3.
Proof. eexists. split; [vm_compute; reflexivity | split; reflexivity]. Qed.

(** The star row always has five stars, the first [floor(rating)] of
    them solid (none for a rating below 1, all five from 5 up). *)
Theorem renderStars_solid r :
  length (renderStars r) = 5%nat
  /\ length (filter (fun b => b = true) (renderStars r)) = Z.to_nat (Z.max 0 (Z.min 5 r)).
Proof.
  split; [reflexivity|]. unfold renderStars. simpl map.
  destruct (Z.leb_spec 1 r), (Z.leb_spec 2 r), (Z.leb_spec 3 r), (Z.leb_spec 4 r),
    (Z.leb_spec 5 r); try lia;
    apply Nat2Z.inj; rewrite Z2Nat.id by lia; simpl; lia.
Qed.

(** The Add to Cart click is an event of the page exactly when the
    loaded page shows the button enabled. *)
Lemma render_click_enabled s rc :
  add_enabled (render false false (Some s) rc) = true <-> handle s ClickAdd <> None.
Proof.
  simpl. unfold handleAddToCart.
  destruct (isAuthenticated s), (stock (prod s) =? 0); simpl; split; congruence.
Qed.

Lemma isAuthenticated_run s evs s' :
  run_steps handle s evs = Some s' -> isAuthenticated s' = isAuthenticated s.
Proof.
  revert s. induction evs as [|ev evs IH]; intros s Hrun; simpl in Hrun; [congruence|].
  destruct (handle s ev) as [s1|] eqn:E; [|discriminate].
  rewrite (IH s1 Hrun). destruct ev; simpl in E; unfold select, handleAddToCart in E;
    repeat case_match; tn_simpl; reflexivity.
Qed.

(** As long as the product is not refetched, the quantity select of a
    signed-in user shows a value it offers: the quantity stays between
    1 and [Math.min(10, stock)] (a refetch breaks this, see
    [stale_quantity_after_refetch]). *)
Theorem select_shows_quantity p evs s rc :
  1 <= stock p -> run_steps handle (mount true p) evs = Some s ->
  forallb (fun ev => negb (is_refetch ev)) evs = true ->
  match render false false (Some s) rc with
  | Page d => match purchase_area d with Buy v (Some opts) _ _ => v ∈ opts | _ => False end
  | _ => False
  end.
Proof.
  intros Hst Hrun Hnr.
  destruct (quantity_stock_run (mount true p) evs s (mount_quantity_ok true p _) Hnr Hrun)
    as [[Hq _] Hp].
  pose proof (isAuthenticated_run _ _ _ Hrun) as Ha. simpl in Hp, Ha, Hq.
  simpl. rewrite Ha, Hp. unfold quantity_options.
  destruct (Z.min 10 (stock p) <? 0) eqn:E; [apply Z.ltb_lt in E; lia|].
  apply list_elem_of_fmap. exists (quantity s - 1). split; [lia|].
  apply elem_of_seqZ. lia.
Qed.

(** A negative stock, which the page does not guard against, shows an
    enabled "Add to Cart" button next to "Out of Stock", and its select
    has no options: [Array(-1)] throws. *)
Example negative_stock_render :
  render false false (Some (mount true (mk_product "p1" (-1) 0))) None
  = Page (mk_detail [false; false; false; false; false] 0
            (Buy 1 None false "Add to Cart") ["HeartIcon"; "ShareIcon"] "p1" "Out of Stock").
Proof. reflexivity. Qed.

(** ** Witnesses *)

Lemma add_quantity_capped_witness :
  Forall (fun op => 1 <= add_quantity op <= 10)
    (cart_calls (mk_state true tee 8 1 [AddToCart "p1" 8])).
Proof. apply (add_quantity_capped true tee [SelectQuantity 8; ClickAdd]). vm_compute. reflexivity. Defined.

Lemma add_quantity_within_stock_witness :
  Forall (fun op => 1 <= add_quantity op <= Z.max 1 (Z.min 10 (stock tee_low)))
    (cart_calls (mk_state true tee_low 3 1 [AddToCart "p1" 3])).
Proof.
  apply (add_quantity_within_stock true tee_low [SelectQuantity 3; ClickAdd]); vm_compute; reflexivity.
Defined.

End ProductDetailPage.
