(* ===== verification/Links.v ===== *)
(** * In-app navigation: the links of the views, and the home page

    The views link to one another with [<Link to=...>]: the quick links
    of [components/layout/Footer.js] (lines 42-68), the quick actions
    of [pages/admin/AdminDashboard.js] (lines 46-51, 90-98), the
    buttons of [pages/Home.js], [pages/Cart.js], [pages/Wishlist.js]
    and [pages/ProductDetail.js], and the product cards of the home,
    list, wishlist and cart pages, which link to
    [`/products/${product._id}`].  The footer's social, customer
    service and legal entries are [<a href="#">] placeholders.

    [pages/Home.js] asks [productsAPI.getProducts] for the eight newest
    products (lines 14-17) and shows [products?.slice(0, 8)] (lines
    100-140) under three feature cards, one of which promises free
    shipping over $50 (lines 19-35).  The rest of these views, the
    admin dashboard's statistics among them, is in [Views].

    The theorems compose these views with the router of [Routes] and
    the requests of [Endpoints]: every link leads to a route of the
    table, a product link renders the product page with that very id,
    which then requests that very product. *)

From Stdlib Require Import ZArith QArith Ascii.
From stdpp Require Import base list strings gmap.
From S2P Require Import Prelude Session Api Routes Endpoints Pricing.
Import Router Endpoints.

Module Navigation.

(** ** Links *)

(** Where an entry of a view leads. *)
Inductive target := To (path : string) | Anchor (href : string).

(** The footer's social icons, Footer.js lines 20-38. *)
Definition footer_social : list (string * target) :=
  [ ("Facebook", Anchor "#"); ("Instagram", Anchor "#"); ("Twitter", Anchor "#") ].

(** Its quick links, lines 42-68. *)
Definition footer_quick_links : list (string * target) :=
  [ ("Home", To "/"); ("Products", To "/products"); ("Cart", To "/cart");
    ("Orders", To "/orders") ].

(** Its customer service entries, lines 71-97. *)
Definition footer_customer_service : list (string * target) :=
  [ ("Contact Us", Anchor "#"); ("FAQs", Anchor "#"); ("Shipping Info", Anchor "#");
    ("Returns", Anchor "#") ].

(** Its legal entries, lines 128-138. *)
Definition footer_legal : list (string * target) :=
  [ ("Privacy Policy", Anchor "#"); ("Terms of Service", Anchor "#");
    ("Cookie Policy", Anchor "#") ].

(** The footer's entries in the order of the source. *)
Definition footer : list (string * target) :=
  footer_social ++ footer_quick_links ++ footer_customer_service ++ footer_legal.

(** [quickActions] of the admin dashboard, lines 46-51, linked at line
    93. *)
Definition quickActions : list (string * string) :=
  [ ("Add Product", "/admin/products"); ("View Orders", "/admin/orders");
    ("Manage Users", "/admin/users"); ("View Analytics", "/admin/analytics") ].

(** [`/products/${product._id}`]: the product cards of Home (line 131),
    Products (lines 196, 212, 229), Wishlist (lines 43, 59, 80) and the
    lines of the cart (line 110). *)
Definition product_link (id : string) : string := "/products/" ++ id.

(** The hero buttons of the home page, Home.js lines 50-62 ("Shop Now",
    "Browse Products"), and its "View All Products" button, line 145. *)
Definition home_links : list string := ["/products"; "/products"; "/products"].

(** The buttons of the cart page: "Login" (Cart.js line 19), "Continue
    Shopping" of the empty cart (line 45), "Proceed to Checkout" (line
    192), "Continue Shopping" (line 198). *)
Definition cart_links : list string := ["/login"; "/products"; "/checkout"; "/products"].

(** "Browse Products" of the empty wishlist, Wishlist.js line 34. *)
Definition wishlist_links : list string := ["/products"].

(** The product page: "Back to Products" when the product is missing
    (ProductDetail.js line 41), the breadcrumb (lines 79-81) and the
    "Login to Purchase" button (line 173). *)
Definition detail_links : list string := ["/products"; "/"; "/products"; "/login"].

(** The other [<Link to>]s of the pages. *)
Definition page_links : list string := home_links ++ cart_links ++ wishlist_links ++ detail_links.

(** Every path a link of the app leads to, product links aside. *)
Definition app_links : list string :=
  omap (fun e => match e.2 with To p => Some p | Anchor _ => None end) footer
  ++ quickActions.*2 ++ page_links.

(** ** The home page *)

(** [productsAPI.getProducts({ limit: 8, sort_by: 'created_at', order:
    'desc' })], lines 14-17: the numbers are sent as their decimal
    text. *)
Definition home_request : request :=
  productsAPI (getProducts [("limit", "8"); ("sort_by", "created_at"); ("order", "desc")]).

(** The feature cards, lines 19-35. *)
Definition features : list (string * string) :=
  [ ("Free Shipping", "Free shipping on orders over $50");
    ("Secure Payment", "Safe and secure payment processing");
    ("Quality Products", "Carefully curated high-quality items") ].

(** [productsData?.data?.products?.slice(0, 8)], line 104: nothing when
    the list is absent. *)
Definition home_products (products : option (list string)) : list string :=
  match products with Some l => firstn 8 l | None => [] end.

Inductive home_view := HomeSpinner | Featured (links : list string).

(** The featured section, lines 100-140: a spinner while the query
    loads, else one card per product, each linking to its page. *)
Definition home_render (isLoading : bool) (products : option (list string)) : home_view :=
  if isLoading then HomeSpinner else Featured (map product_link (home_products products)).

(** ** The product page's query *)

(** [useParams()], ProductDetail.js line 12: the value of a route
    parameter, [undefined] when the route has none. *)
Fixpoint useParams (name : string) (params : list (string * string)) : option string :=
  match params with
  | [] => None
  | (k, v) :: ps => if String.eqb k name then Some v else useParams name ps
  end.

(** [useQuery(['product', id], () => productsAPI.getProduct(id),
    { enabled: !!id })], ProductDetail.js lines 18-24: no request
    without a (non-empty) id. *)
Definition detail_request (params : list (string * string)) : option request :=
  match useParams "id" params with
  | Some id => if truthy_str id then Some (productsAPI (getProduct id)) else None
  | None => None
  end.

(** ** Lemmas *)

#[local] Arguments String.append : simpl nomatch.

Lemma segments_arg pre id :
  arg_ok id = true -> path_segments (pre ++ String "/"%char id) = path_segments pre ++ [id].
Proof.
  intros Hid. apply arg_ok_spec in Hid as [Hne Hsl].
  now rewrite path_segments_app_sep, (path_segments_single id).
Qed.

Lemma App_product_link a id :
  Auth.loading a = false -> arg_ok id = true ->
  App a (product_link id) = Render ProductDetail [("id", id)].
Proof.
  intros Hl Hid. unfold App, match_route, product_link. rewrite Hl.
  change ("/products/" ++ id)%string with ("/products" ++ String "/"%char id)%string.
  rewrite segments_arg by exact Hid. reflexivity.
Qed.

Lemma detail_request_dispatch id :
  arg_ok id = true ->
  option_map dispatch (detail_request [("id", id)]) = Some (Some ("getProduct", [id])).
Proof.
  intros Hid. unfold detail_request.
  replace (useParams "id" [("id", id)]) with (Some id) by reflexivity.
  pose proof Hid as Hne. apply arg_ok_spec in Hne as [Hne _].
  unfold truthy_str. rewrite Hne. cbn [negb option_map]. f_equal.
  unfold dispatch. cbn [productsAPI api_call url method].
  change ("/api/products/" ++ id)%string with ("/api/products" ++ String "/"%char id)%string.
  rewrite segments_arg by exact Hid. reflexivity.
Qed.

(** (C19) A product card's link, for an id that survives interpolation,
    renders the product page with that id as its [:id] parameter, once
    the session has loaded whoever the user is, and the query that page
    then sends is routed to [getProduct] of that same id. *)
Theorem product_links_reach_detail a id :
  Auth.loading a = false -> arg_ok id = true ->
  App a (product_link id) = Render ProductDetail [("id", id)] /\
  option_map dispatch (detail_request [("id", id)]) = Some (Some ("getProduct", [id])).
Proof. intros Hl Hid. split; [apply App_product_link | apply detail_request_dispatch]; assumption. Qed.

(** (C15) A rejected request with status 401, whatever the call, ends
    on the login page: the interceptor removes the stored token and
    sets [window.location.href] to [/login]; that reload starts the
    session holder empty (spec 4.1), so the interceptor attaches no
    stored credential any more and [App] renders the login page. *)
Theorem unauthorized_lands_on_login e ls loc :
  err_status e = Some 401 ->
  let '(ls', loc') := response_interceptor_error e ls loc in
  ls' !! "token" = None /\ loc' = "/login"
  /\ (forall token, effective_token ls' token = token)
  /\ App (fst holder_empty) loc' = Render Login [].
Proof.
  intros H401. rewrite response_interceptor_401 by exact H401.
  split; [apply lookup_delete_eq|]. split; [reflexivity|]. split; [|reflexivity].
  intros token. unfold effective_token. now rewrite lookup_delete_eq.
Qed.

(** (C22) No link of the app leads to the not-found page: every footer
    quick link, admin quick action and page button matches a route of
    the table, and every admin quick action matches an admin-only
    route. *)
Theorem app_links_resolve :
  Forall (fun p => route_page (match_route p).1 <> NotFound) app_links /\
  Forall (fun qa => route_guard (match_route qa.2).1 = ProtectedRoute true) quickActions.
Proof.
  split; apply List.Forall_forall; intros x Hx; vm_compute in Hx;
    repeat destruct Hx as [<-|Hx]; try contradiction; vm_compute; congruence.
Qed.

(** (C21) The home page shows at most eight cards, one per product of
    the response in its order, and each opens the product page of its
    own product. *)
Theorem home_cards_open_their_product a ids :
  Auth.loading a = false -> Forall (fun id => arg_ok id = true) ids ->
  exists links, home_render false (Some ids) = Featured links /\ (length links <= 8)%nat /\
    Forall2 (fun id l => App a l = Render ProductDetail [("id", id)]) (firstn 8 ids) links.
Proof.
  intros Hl Hids. exists (map product_link (firstn 8 ids)). split; [reflexivity|]. split.
  - rewrite length_map, length_firstn. lia.
  - apply Forall2_fmap_r, Forall_Forall2_diag.
    eapply Forall_impl; [apply Forall_take, Hids|]. intros id Hid. now apply App_product_link.
Qed.

(** ** Witnesses *)

Lemma unauthorized_lands_on_login_witness :
  let e := mk_error (Some 401) (Some "expired") in
  err_status e = Some 401 /\
  let '(ls', loc') := response_interceptor_error e {["token" := "t"]} "/cart" in
  ls' !! "token" = None /\ loc' = "/login"
  /\ (forall token, effective_token ls' token = token)
  /\ App (fst holder_empty) loc' = Render Login [].
Proof. split; [reflexivity|]. apply unauthorized_lands_on_login. reflexivity. Defined.

Lemma product_links_reach_detail_witness :
  Auth.loading shopper = false /\ arg_ok "p1" = true /\
  App shopper (product_link "p1") = Render ProductDetail [("id", "p1")] /\
  option_map dispatch (detail_request [("id", "p1")]) = Some (Some ("getProduct", ["p1"])).
Proof.
  split; [reflexivity|]. split; [reflexivity|].
  apply product_links_reach_detail; reflexivity.
Defined.

Lemma home_cards_open_their_product_witness :
  Auth.loading guest = false /\ Forall (fun id => arg_ok id = true) ["p1"; "p2"] /\
  exists links, home_render false (Some ["p1"; "p2"]) = Featured links /\
    (length links <= 8)%nat /\
    Forall2 (fun id l => App guest l = Render ProductDetail [("id", id)])
      (firstn 8 ["p1"; "p2"]) links.
Proof.
  split; [reflexivity|]. split; [repeat constructor|].
  apply home_cards_open_their_product; [reflexivity | repeat constructor].
Defined.

End Navigation.
