(* ===== verification/Products.v ===== *)
(** * The product list page [pages/Products.js]

    The page keeps one piece of state, [filters] (lines 11-19), read
    from the URL's search parameters when it is created, written back to
    the URL by an effect after every change (lines 37-43), and passed as
    query parameters to [productsAPI.getProducts].  Its handlers change
    one filter and go back to page 1 ([handleFilterChange], lines 45-47),
    move to a page ([handlePageChange], lines 49-52), parse the sort
    select's ["<sort_by>-<order>"] value (lines 148-154) and reset all
    filters (lines 167-176).  The pagination bar (lines 250-290) shows up
    to five numbered buttons around the current page.  Module
    [ProductsPage] holds the filters, these handlers and the page as a
    step function over the filters; Module [ProductsListing] the two
    queries (lines 24-35) and the rendered page (lines 58-291) from the
    listing the server returns, and the theorems that compose them with
    the router and the product cards' cart calls.

    The URL is modelled as the list of its search parameters in order
    ([URLSearchParams]); [searchParams.get(k)] is the first value bound
    to [k].  A JavaScript [undefined] produced by destructuring a split
    with fewer than two pieces is modelled as the empty string; both are
    falsy, which is all the URL effect looks at. *)

From Stdlib Require Import ZArith Ascii.
From stdpp Require Import base list strings sets pretty list_numbers.
From S2P Require Import Prelude Model Session Api CartContext Endpoints Routes ProductDetail Links.

Module ProductsPage.

Record filters := mk_filters {
  page : Z;
  search : string;
  category : string;
  min_price : string;
  max_price : string;
  sort_by : string;
  order : string;
}.

#[global] Instance filters_eq_dec : EqDecision filters.
Proof. solve_decision. Defined.

Abbreviation search_params := (list (string * string)).

(** [searchParams.get(k)] *)
Fixpoint get_param (k : string) (sp : search_params) : option string :=
  match sp with
  | [] => None
  | (k', v) :: sp' => if String.eqb k k' then Some v else get_param k sp'
  end.

(** [useState({...})], lines 11-19: the page always starts at 1. *)
Definition initial_filters (sp : search_params) : filters :=
  mk_filters 1
    (js_or_str (get_param "search" sp) "")
    (js_or_str (get_param "category" sp) "")
    (js_or_str (get_param "min_price" sp) "")
    (js_or_str (get_param "max_price" sp) "")
    (js_or_str (get_param "sort_by" sp) "created_at")
    (js_or_str (get_param "order" sp) "desc").

(** The URL effect, lines 37-43: [Object.entries(filters)] in insertion
    order, keeping truthy values ([page] is a number, truthy unless 0). *)
Definition to_search_params (f : filters) : search_params :=
  (if bool_decide (page f = 0) then [] else [("page", pretty (page f))])
  ++ filter (fun kv => kv.2 <> "")
       [("search", search f); ("category", category f);
        ("min_price", min_price f); ("max_price", max_price f);
        ("sort_by", sort_by f); ("order", order f)].

Inductive filter_key := KSearch | KCategory | KMinPrice | KMaxPrice | KSortBy | KOrder.

(** [handleFilterChange(key, value)], lines 45-47:
    [{ ...prev, [key]: value, page: 1 }]. *)
Definition handleFilterChange (key : filter_key) (value : string) (prev : filters) : filters :=
  let 'mk_filters _ s c lo hi sb o := prev in
  match key with
  | KSearch => mk_filters 1 value c lo hi sb o
  | KCategory => mk_filters 1 s value lo hi sb o
  | KMinPrice => mk_filters 1 s c value hi sb o
  | KMaxPrice => mk_filters 1 s c lo value sb o
  | KSortBy => mk_filters 1 s c lo hi value o
  | KOrder => mk_filters 1 s c lo hi sb value
  end.

(** [handlePageChange(page)], lines 49-52. *)
Definition handlePageChange (p : Z) (prev : filters) : filters :=
  let 'mk_filters _ s c lo hi sb o := prev in mk_filters p s c lo hi sb o.

(** The sort select's value, line 149. *)
Definition sort_value (f : filters) : string := sort_by f ++ "-" ++ order f.

(** Its [onChange], lines 150-154: split on ['-'], then two filter
    changes in a row. *)
Definition sort_change (v : string) (f : filters) : filters :=
  let parts := split_on "-"%char v in
  let sb := default "" (parts !! 0%nat) in
  let o := default "" (parts !! 1%nat) in
  handleFilterChange KOrder o (handleFilterChange KSortBy sb f).

(** The six options of the select, lines 157-162. *)
Definition sort_options : list string :=
  ["created_at-desc"; "created_at-asc"; "name-asc"; "name-desc"; "price-asc"; "price-desc"].

(** "Clear Filters", lines 167-176. *)
Definition cleared : filters := mk_filters 1 "" "" "" "" "created_at" "desc".

(** ** Pagination, lines 250-290 *)

(** [[...Array(Math.min(5, totalPages))].map((_, index) => ...)], the
    buttons whose [pageNumber] does not exceed [totalPages]. *)
Definition page_buttons (p totalPages : Z) : list Z :=
  filter (fun n => n <= totalPages)
    (map (fun index => Z.max 1 (p - 2) + index) (seqZ 0 (Z.min 5 totalPages))).

Inductive nav := Previous | Next | PageButton (n : Z).

(** A click on the bar: [None] when the button is disabled or absent. *)
Definition click (a : nav) (p totalPages : Z) : option Z :=
  match a with
  | Previous => if bool_decide (p = 1) then None else Some (p - 1)
  | Next => if bool_decide (p = totalPages) then None else Some (p + 1)
  | PageButton n => if bool_decide (n ∈ page_buttons p totalPages) then Some n else None
  end.

(** ** The page as a machine *)

(** What the user does on the page: edit a filter input (the search box,
    the category select and the price inputs, lines 92-139, all call
    [handleFilterChange]), choose a sort option, clear the filters,
    click the pagination bar, or reload, which builds the page again
    from the URL the effect wrote. *)
Inductive event :=
| FilterChange (k : filter_key) (v : string)
| SortChange (v : string)
| Clear
| Nav (a : nav)
| Reload.

(** One event, against a listing of [totalPages] pages; a click on a
    disabled or absent button is no event ([None]). *)
Definition step (totalPages : Z) (f : filters) (ev : event) : option filters :=
  match ev with
  | FilterChange k v => Some (handleFilterChange k v f)
  | SortChange v => Some (sort_change v f)
  | Clear => Some cleared
  | Nav a => p ← click a (page f) totalPages; Some (handlePageChange p f)
  | Reload => Some (initial_filters (to_search_params f))
  end.

(** ** Lemmas *)

Lemma page_buttons_range p totalPages n :
  n ∈ page_buttons p totalPages -> 1 <= n <= totalPages.
Proof.
  unfold page_buttons. rewrite list_elem_of_filter, list_elem_of_fmap.
  intros [Hle [i [-> Hi]]]. apply elem_of_seqZ in Hi. lia.
Qed.

Lemma page_buttons_nodup p totalPages : NoDup (page_buttons p totalPages).
Proof.
  unfold page_buttons. apply NoDup_filter. change (map ?g ?l) with (g <$> l).
  apply NoDup_fmap_2_strong; [intros x y _ _ ?; lia | apply NoDup_seqZ].
Qed.

(** Reading back one URL field written by the effect. *)
Lemma read_back_field v d : js_or_str (if decide (v = "") then None else Some v) d
                            = if decide (v = "") then d else v.
Proof. case_decide; [reflexivity|]. now apply js_or_str_some. Qed.

Lemma get_param_notin k (sp : search_params) : k ∉ sp.*1 -> get_param k sp = None.
Proof.
  induction sp as [|[k' v] sp IH]; simpl; intros Hk; [reflexivity|].
  destruct (String.eqb_spec k k') as [->|]; [set_solver|]. apply IH. set_solver.
Qed.

(** With distinct keys, dropping empty values hides exactly the empty ones. *)
Lemma get_param_nonempty k (sp : search_params) :
  NoDup sp.*1 ->
  get_param k (filter (fun kv => kv.2 <> "") sp)
  = v ← get_param k sp; if decide (v = "") then None else Some v.
Proof.
  induction sp as [|[k' v] sp IH]; simpl; intros Hnd; [reflexivity|].
  apply NoDup_cons in Hnd as [Hk' Hnd].
  rewrite filter_cons. simpl.
  destruct (String.eqb_spec k k') as [->|Hne].
  - case_decide as Hv; simpl.
    + rewrite String.eqb_refl. now rewrite decide_False by tauto.
    + rewrite IH by exact Hnd. rewrite get_param_notin by exact Hk'. simpl.
      now rewrite decide_True by (destruct (decide (v = "")); tauto).
  - case_decide; simpl; [|now apply IH].
    apply String.eqb_neq in Hne. rewrite Hne. now apply IH.
Qed.

Lemma get_param_skip_page k p (sp : search_params) :
  k <> "page" ->
  get_param k ((if bool_decide (p = 0) then [] else [("page", pretty p)]) ++ sp)
  = get_param k sp.
Proof.
  intros Hk. case_bool_decide; simpl; [reflexivity|].
  apply String.eqb_neq in Hk. now rewrite Hk.
Qed.

(** ** Theorems *)

(** (C31) Every filter except the page survives the round trip through
    the URL: writing [filters] to the search parameters and building the
    page's state from them again gives the same filters on page 1
    (provided the sort fields are set, as the select and the defaults
    keep them). *)
Theorem url_roundtrip f :
  sort_by f <> "" -> order f <> "" ->
  initial_filters (to_search_params f) = handlePageChange 1 f.
Proof.
  intros Hsb Ho. destruct f as [p s c lo hi sb o]; simpl in *.
  unfold initial_filters, to_search_params; simpl.
  rewrite !get_param_skip_page by discriminate.
  rewrite !get_param_nonempty by (simpl; repeat constructor; set_solver).
  simpl. rewrite !read_back_field. f_equal; case_decide; congruence.
Qed.

(** The sort select round-trips: choosing the option that shows
    the current [sort_by] and [order] (neither containing ['-']) gives
    back the same filters on page 1, and each of the six options shows
    itself again once chosen. *)
Theorem sort_select_roundtrip f :
  has_char "-" (sort_by f) = false -> has_char "-" (order f) = false ->
  sort_change (sort_value f) f = handlePageChange 1 f
  /\ Forall (fun v => sort_value (sort_change v f) = v) sort_options.
Proof.
  intros Hsb Ho. split.
  - unfold sort_change, sort_value.
    change (String.append "-" (order f)) with (String "-"%char (order f)).
    rewrite split_on_sep, split_on_no_sep by assumption.
    now destruct f.
  - destruct f. repeat constructor.
Qed.

(** The current page is among the numbered buttons whenever it
    lies between 1 and the number of pages, and every button is a page
    that exists. *)
Theorem current_page_shown p totalPages :
  1 <= p <= totalPages ->
  p ∈ page_buttons p totalPages
  /\ Forall (fun n => 1 <= n <= totalPages) (page_buttons p totalPages).
Proof.
  intros Hp. split.
  - unfold page_buttons. apply list_elem_of_filter. split; [lia|].
    apply list_elem_of_fmap. exists (p - Z.max 1 (p - 2)). split; [lia|].
    apply elem_of_seqZ. lia.
  - apply Forall_forall. intros n Hn. apply page_buttons_range with p.
    exact Hn.
Qed.

(** (C32) The window is not re-centred at the end: on the last page of
    five or more only three numbered buttons are shown. *)
Theorem last_page_three_buttons totalPages :
  5 <= totalPages ->
  page_buttons totalPages totalPages = [totalPages - 2; totalPages - 1; totalPages].
Proof.
  intros HT. unfold page_buttons.
  rewrite Z.min_l, Z.max_r by lia.
  change (seqZ 0 5) with [0; 1; 2; 3; 4]. simpl map.
  rewrite !filter_cons, filter_nil.
  repeat (case_decide; try lia). repeat f_equal; lia.
Qed.

(** Pagination never leaves the range of pages: from a page between
    1 and [totalPages], every enabled click (previous, next or a numbered
    button) lands on a page between 1 and [totalPages]. *)
Theorem click_stays_in_range a p totalPages p' :
  1 <= p <= totalPages -> click a p totalPages = Some p' -> 1 <= p' <= totalPages.
Proof.
  intros Hp. destruct a as [| |n]; simpl; case_bool_decide; intros Hc; tn_simpl; try lia.
  now apply page_buttons_range with p.
Qed.

(** ** Witnesses *)

Lemma sort_select_roundtrip_witness :
  sort_change (sort_value cleared) cleared = handlePageChange 1 cleared
  /\ Forall (fun v => sort_value (sort_change v cleared) = v) sort_options.
Proof. apply sort_select_roundtrip; reflexivity. Defined.

Lemma url_roundtrip_witness :
  initial_filters (to_search_params (mk_filters 3 "shoe" "" "" "10" "price" "asc"))
  = handlePageChange 1 (mk_filters 3 "shoe" "" "" "10" "price" "asc").
Proof. apply url_roundtrip; discriminate. Defined.

Lemma current_page_shown_witness :
  6 ∈ page_buttons 6 20 /\ Forall (fun n => 1 <= n <= 20) (page_buttons 6 20).
Proof. apply current_page_shown. lia. Defined.

Lemma last_page_three_buttons_witness : page_buttons 10 10 = [10 - 2; 10 - 1; 10].
Proof. apply last_page_three_buttons. lia. Defined.

Lemma click_stays_in_range_witness : 1 <= 5 <= 10.
Proof. apply (click_stays_in_range Next 4 10 5); [lia | reflexivity]. Defined.

End ProductsPage.

Module ProductsListing.
Import Endpoints ProductsPage.

(** ** The queries *)

(** [productsAPI.getProducts(filters)], lines 24-30: axios serialises
    every key whose value is neither [null] nor [undefined], so an empty
    filter is sent as an empty string, and the page as its decimal
    text. *)
Definition query_params (f : filters) : list (string * string) :=
  [("page", pretty (page f)); ("search", search f); ("category", category f);
   ("min_price", min_price f); ("max_price", max_price f); ("sort_by", sort_by f);
   ("order", order f)].

Definition products_request (f : filters) : request :=
  productsAPI (getProducts (query_params f)).

(** [productsAPI.getCategories()], lines 32-35. *)
Definition categories_request : request := productsAPI getCategories.

(** ** The responses *)

(** The fields of a product the page acts on. *)
Record item := mk_item { item_id : string; item_stock : Z }.

(** [productsData.data]: each field may be missing. *)
Record listing := mk_listing {
  products : option (list item);
  total_pages : option Z;
  total_count : option Z;
}.

(** An entry of [categoriesData.data.categories]. *)
Record category_entry := mk_category { category_id : string; category_name : string }.

(** ** The view *)

(** One product card, lines 193-245: the image, the name and "View
    Details" link to the product's page; the "Add to Cart" button is
    rendered only for a signed-in user ([isAuthenticated && ...], line
    234), and [Some true] when it is disabled for want of stock (line
    238). *)
Record card := mk_card { card_links : list string; add_to_cart : option bool }.

Definition product_card (isAuthenticated : bool) (p : item) : card :=
  mk_card (replicate 3 (Navigation.product_link (item_id p)))
    (if isAuthenticated then Some (item_stock p =? 0) else None).

(** The pagination bar, lines 250-289: Previous, disabled on page 1;
    the numbered buttons, the current one highlighted (line 270); Next,
    disabled on the last page. *)
Record pager := mk_pager {
  prev_disabled : bool;
  buttons : list (Z * bool);
  next_disabled : bool;
}.

Definition render_pager (p totalPages : Z) : pager :=
  mk_pager (p =? 1) (map (fun n => (n, n =? p)) (page_buttons p totalPages)) (p =? totalPages).

(** The filter inputs as shown, lines 83-181: the search text, the
    category select (["All Categories"] with the empty value, then one
    option per category name), the two price inputs, and the sort
    select's value. *)
Record sidebar := mk_sidebar {
  sb_search : string;
  sb_category : string;
  sb_options : list string;
  sb_min_price : string;
  sb_max_price : string;
  sb_sort : string;
}.

Definition render_sidebar (f : filters) (categories : list category_entry) : sidebar :=
  mk_sidebar (search f) (category f) ("" :: map category_name categories)
    (min_price f) (max_price f) (sort_value f).

Inductive body := NoProducts | Grid (cards : list card) (bar : option pager).

Inductive view := Spinner | Page (count : Z) (side : sidebar) (b : body).

(** The page, lines 58-291: a spinner while the first query loads;
    else the product count ([total_count || 0], line 77), the sidebar,
    and "No products found" or the grid, with the bar when there is
    more than one page ([total_pages || 1], lines 67 and 250). *)
Definition render (isLoading isAuthenticated : bool) (d : option listing)
    (cs : option (list category_entry)) (f : filters) : view :=
  if isLoading then Spinner else
  let ps := default [] (d ≫= products) in
  let totalPages := js_or_num (d ≫= total_pages) 1 in
  Page (js_or_num (d ≫= total_count) 0) (render_sidebar f (default [] cs))
    (match ps with
     | [] => NoProducts
     | _ => Grid (map (product_card isAuthenticated) ps)
              (if 1 <? totalPages then Some (render_pager (page f) totalPages) else None)
     end).

(** ** Lemmas *)

(** The highlighted entries of a list of distinct page numbers. *)
Lemma highlight_absent (l : list Z) p :
  p ∉ l -> filter (fun nb => nb.2 = true) (map (fun n => (n, n =? p)) l) = [].
Proof.
  induction l as [|n l IH]; intros Hp; [reflexivity|]. simpl. rewrite filter_cons. simpl.
  destruct (Z.eqb_spec n p) as [->|Hne]; [set_solver|].
  rewrite decide_False by discriminate. apply IH. set_solver.
Qed.

Lemma highlight_unique (l : list Z) p :
  NoDup l -> p ∈ l -> filter (fun nb => nb.2 = true) (map (fun n => (n, n =? p)) l) = [(p, true)].
Proof.
  induction l as [|n l IH]; intros Hnd Hp; [set_solver|].
  apply NoDup_cons in Hnd as [Hn Hnd]. simpl. rewrite filter_cons. simpl.
  destruct (Z.eqb_spec n p) as [->|Hne].
  - rewrite decide_True by reflexivity. f_equal. now apply highlight_absent.
  - rewrite decide_False by discriminate. apply IH; [exact Hnd | set_solver].
Qed.

(** The bar of a page between 1 and the last highlights that page and
    no other. *)
Lemma pager_highlights_current p totalPages :
  1 <= p <= totalPages ->
  filter (fun nb => nb.2 = true) (buttons (render_pager p totalPages)) = [(p, true)].
Proof.
  intros Hp. apply highlight_unique; [apply page_buttons_nodup|].
  exact (proj1 (current_page_shown _ _ Hp)).
Qed.

Lemma products_request_sent f :
  dispatch (products_request f) = Some ("getProducts", [])
  /\ get_param "page" (params (products_request f)) = Some (pretty (page f)).
Proof. split; reflexivity. Qed.

(** ** Browsing a stable catalog *)

Lemma page_handleFilterChange k v f : page (handleFilterChange k v f) = 1.
Proof. destruct f, k; reflexivity. Qed.

Lemma page_sort_change v f : page (sort_change v f) = 1.
Proof. apply page_handleFilterChange. Qed.

Lemma page_initial_filters sp : page (initial_filters sp) = 1.
Proof. reflexivity. Qed.

Lemma page_cleared : page cleared = 1.
Proof. reflexivity. Qed.

Lemma page_handlePageChange p f : page (handlePageChange p f) = p.
Proof. now destruct f. Qed.

#[local] Hint Rewrite page_handleFilterChange page_sort_change page_initial_filters
  page_cleared : tn_rw.

Section StableCatalog.

(** The number of pages the server reports for the filters, after
    [total_pages || 1] (line 67): at least one, and the same whatever
    page is asked for, as long as the catalog does not change. *)
Context (T : filters -> Z).
Hypothesis T_pos : forall f, 1 <= T f.
Hypothesis T_page : forall p f, T (handlePageChange p f) = T f.

(** (C30) Browsing never leaves the catalog: from the page built from
    any URL, after any sequence of filter edits, sort changes, clears,
    pagination clicks and reloads, the current page lies between 1 and
    the number of pages of the current filters, the pagination bar
    highlights that page and no other, and the query the page sends is
    routed to [getProducts] asking for that page. *)
Theorem page_in_catalog f :
  reach (fun f ev => step (T f) f ev) (fun f => exists sp, f = initial_filters sp) f ->
  1 <= page f <= T f
  /\ filter (fun nb => nb.2 = true) (buttons (render_pager (page f) (T f))) = [(page f, true)]
  /\ dispatch (products_request f) = Some ("getProducts", [])
  /\ get_param "page" (params (products_request f)) = Some (pretty (page f)).
Proof.
  intros Hr. assert (1 <= page f <= T f) as Hp.
  { revert f Hr. apply reach_invariant.
    - intros f0 [sp ->]. pose proof (T_pos (initial_filters sp)). tn_simpl. lia.
    - intros f0 ev f1 Hp Hs.
      destruct ev as [k v|v| |a|]; simpl in Hs; tn_simpl;
        try (match goal with |- 1 <= 1 <= T ?g => pose proof (T_pos g); lia end).
      destruct (click a (page f0) (T f0)) as [p|] eqn:Hc; simpl in Hs; tn_simpl.
      rewrite T_page, page_handlePageChange. exact (click_stays_in_range _ _ _ _ Hp Hc). }
  split; [exact Hp|]. split; [exact (pager_highlights_current _ _ Hp)|].
  exact (products_request_sent f).
Qed.

End StableCatalog.

(** (C20) Every product card of the list opens its own product and
    adds its own product: once the session has loaded, each of a
    card's three links renders the product page with that product's id,
    and its "Add to Cart" button is enabled exactly when the click adds
    one unit of that product; with no product the page says so. *)
Theorem product_cards_open_their_product a isAuth d cs f ps :
  Auth.loading a = false -> d ≫= products = Some ps ->
  Forall (fun p => arg_ok (item_id p) = true) ps ->
  match render false isAuth d cs f with
  | Page _ _ (Grid cards _) =>
      Forall2 (fun p c =>
        Forall (fun l => Router.App a l = Router.Render Router.ProductDetail [("id", item_id p)])
          (card_links c)
        /\ (add_to_cart c = Some false <->
            ProductCards.products_card_click isAuth (item_id p) (item_stock p)
            = [CartProvider.AddToCart (item_id p) 1])) ps cards
  | Page _ _ NoProducts => ps = []
  | Spinner => False
  end.
Proof.
  intros Hl Hd Hids. unfold render. rewrite Hd. simpl.
  destruct ps as [|p0 ps0]; [reflexivity|].
  apply Forall2_fmap_r, Forall_Forall2_diag. eapply Forall_impl; [exact Hids|].
  intros p Hp. split.
  - apply Forall_replicate. now apply Navigation.App_product_link.
  - unfold ProductCards.products_card_click, ProductCards.handleAddToCart. simpl.
    destruct isAuth, (item_stock p =? 0); simpl; split; congruence.
Qed.

(** ** Witnesses *)

Lemma page_in_catalog_witness :
  let f := handlePageChange 2 (initial_filters []) in
  1 <= page f <= 3
  /\ filter (fun nb => nb.2 = true) (buttons (render_pager (page f) 3)) = [(page f, true)]
  /\ dispatch (products_request f) = Some ("getProducts", [])
  /\ get_param "page" (params (products_request f)) = Some (pretty (page f)).
Proof.
  apply (page_in_catalog (fun _ => 3)); [intros; lia | reflexivity |].
  apply reach_step with (s := initial_filters []) (ev := Nav Next);
    [apply reach_init; now exists [] | reflexivity].
Defined.

Lemma product_cards_open_their_product_witness :
  let d := Some (mk_listing (Some [mk_item "p1" 4; mk_item "p2" 0]) (Some 1) (Some 2)) in
  Auth.loading Router.shopper = false /\
  match render false true d None cleared with
  | Page _ _ (Grid cards _) =>
      Forall2 (fun p c =>
        Forall (fun l => Router.App Router.shopper l
                         = Router.Render Router.ProductDetail [("id", item_id p)]) (card_links c)
        /\ (add_to_cart c = Some false <->
            ProductCards.products_card_click true (item_id p) (item_stock p)
            = [CartProvider.AddToCart (item_id p) 1]))
        [mk_item "p1" 4; mk_item "p2" 0] cards
  | Page _ _ NoProducts => [mk_item "p1" 4; mk_item "p2" 0] = []
  | Spinner => False
  end.
Proof.
  split; [reflexivity|].
  apply product_cards_open_their_product; [reflexivity | reflexivity | repeat constructor].
Defined.

End ProductsListing.
