(* ===== verification/Account.v ===== *)
(** * The account pages: [pages/Wishlist.js] and [pages/Profile.js]

    Both pages sit behind [ProtectedRoute] in [App.js].  The wishlist
    page fetches the wishlist with the token of [localStorage] (lines
    11-14), shows a spinner while the query loads, "Your wishlist is
    empty" with a link to the product list, or one card per item (lines
    39-88): three links to the product's page and an "Add to Cart"
    button calling the provider's [addToCart(item.product._id, 1)],
    disabled when the product is out of stock.  The profile page shows
    four fields of the [user] that [useAuth()] publishes.

    The theorems compose the page with the router and the cart
    provider: a click on an enabled button of the wishlist, shown
    through [App], always reaches the server. *)

From Stdlib Require Import ZArith Ascii.
From stdpp Require Import base list strings gmap.
From S2P Require Import Prelude Model Session Api CartContext Endpoints Routes Links.
Import CartProvider.

Module WishlistPage.

(** ** The query and its data *)

(** [wishlistAPI.getWishlist(localStorage.getItem('token'))], lines
    11-14. *)
Definition wishlist_request (ls : storage_t) : request :=
  Endpoints.wishlistAPI (Endpoints.getWishlist (ls !! "token")).

(** [item.product]: the fields a card acts on. *)
Record wl_product := mk_wl_product { wl_id : string; wl_stock : Z }.

Record wishlist_item := mk_wishlist_item { product : wl_product }.

(** [wishlistData.data]: the items may be missing. *)
Record wishlist_data := mk_wishlist_data { items : option (list wishlist_item) }.

(** ** The view *)

(** A card, lines 41-87: the image (line 43), the name (line 59) and
    "View" (line 80) link to the product's page; the button is
    disabled when [item.product.stock === 0] (line 75) and its
    [onClick] calls [addToCart(item.product._id, 1)] (line 73). *)
Record wl_card := mk_wl_card {
  wl_links : list string;
  wl_disabled : bool;
  wl_onClick : cart_op;
}.

Definition wishlist_card (it : wishlist_item) : wl_card :=
  let id := wl_id (product it) in
  mk_wl_card [Navigation.product_link id; Navigation.product_link id; Navigation.product_link id]
    (wl_stock (product it) =? 0) (AddToCart id 1).

Inductive view := Spinner | Empty | Grid (cards : list wl_card).

(** The page, lines 16-93: [wishlistData?.data?.items || []]. *)
Definition render (isLoading : bool) (d : option wishlist_data) : view :=
  if isLoading then Spinner else
  match default [] (d ≫= items) with
  | [] => Empty
  | its => Grid (map wishlist_card its)
  end.

(** A click on the button of the [i]-th card: the provider call it
    makes, none when the button is disabled or absent. *)
Definition click (v : view) (i : nat) : list event :=
  match v with
  | Grid cards =>
      match cards !! i with
      | Some c => if wl_disabled c then [] else [CallMutation (wl_onClick c)]
      | None => []
      end
  | _ => []
  end.

(** ** Theorems *)

(** What a click on the page can be: the [AddToCart] of an enabled card. *)
Lemma click_cases d i ev :
  ev ∈ click (render false d) i ->
  exists it, default [] (d ≫= items) !! i = Some it /\ (wl_stock (product it) =? 0) = false
    /\ ev = CallMutation (AddToCart (wl_id (product it)) 1).
Proof.
  unfold click, render. destruct (default [] (d ≫= items)) as [|it0 its] eqn:Hits;
    [set_solver|].
  rewrite list_lookup_fmap. destruct ((it0 :: its) !! i) as [it|] eqn:Hi; simpl; [|set_solver].
  destruct (wl_stock (product it) =? 0) eqn:Hs; simpl; [set_solver|].
  intros ->%list_elem_of_singleton. eauto.
Qed.

(** (C28) Every click the wishlist page reacts to reaches the server:
    shown by [App], the page is behind [ProtectedRoute], so the
    provider's [addToCart] never answers with the login toast; a click
    on the enabled button of a card sends exactly one request, adding
    one unit of that card's product. *)
Theorem wishlist_clicks_reach_server w d i ev :
  Router.App (auth w) "/wishlist" = Router.Render Router.Wishlist [] ->
  ev ∈ click (render false d) i ->
  exists it w', default [] (d ≫= items) !! i = Some it
    /\ ev = CallMutation (AddToCart (wl_id (product it)) 1) /\ handle w ev = Some w'
    /\ sent w' = sent w ++ [request_interceptor (storage w)
                              (cartAPI (Auth.token (auth w)) (addToCart (wl_id (product it)) 1))].
Proof.
  intros Happ Hin.
  assert (Auth.isAuthenticated (auth w) = true) as Ha.
  { apply Router.App_render in Happ as [_ [_ Hg]].
    change (Router.route_guard (Router.match_route "/wishlist").1)
      with (Router.ProtectedRoute false) in Hg.
    exact (proj1 Hg). }
  destruct (click_cases _ _ _ Hin) as (it & Hit & _ & ->).
  exists it. eexists. split; [exact Hit|]. split; [reflexivity|]. split; [reflexivity|].
  simpl. unfold mutation_start. rewrite Ha. reflexivity.
Qed.

(** ** Witnesses *)

Definition W_wishlist : world :=
  mount (Auth.mk (Some "t") true false false) (<["token" := "t"]> ∅).

Definition wl_tee : wishlist_data :=
  mk_wishlist_data (Some [mk_wishlist_item (mk_wl_product "p1" 0);
                          mk_wishlist_item (mk_wl_product "p2" 5)]).

Lemma wishlist_clicks_reach_server_witness :
  exists it w', default [] (Some wl_tee ≫= items) !! 1%nat = Some it
    /\ CallMutation (AddToCart "p2" 1) = CallMutation (AddToCart (wl_id (product it)) 1)
    /\ handle W_wishlist (CallMutation (AddToCart "p2" 1)) = Some w'
    /\ sent w' = sent W_wishlist ++ [request_interceptor (storage W_wishlist)
          (cartAPI (Auth.token (auth W_wishlist)) (addToCart (wl_id (product it)) 1))].
Proof.
  apply (wishlist_clicks_reach_server W_wishlist (Some wl_tee) 1); [reflexivity|].
  vm_compute. left.
Defined.

End WishlistPage.

Module ProfilePage.

(** The fields of [useAuth().user] the page shows ([AuthContext.js] is
    not under [src/]; each may be missing). *)
Record user := mk_user {
  username : option string;
  email : option string;
  full_name : option string;
  phone : option string;
}.

(** The four rows of [Profile], lines 4-35: [{user?.username}] renders
    nothing when missing, [{user?.full_name || 'Not provided'}] the
    default when missing or empty. *)
Definition Profile (u : option user) : list (string * string) :=
  [ ("Username", default "" (u ≫= username));
    ("Email", default "" (u ≫= email));
    ("Full Name", js_or_str (u ≫= full_name) "Not provided");
    ("Phone", js_or_str (u ≫= phone) "Not provided") ].

End ProfilePage.
