(* ===== verification/Views.v ===== *)
(** * The views without state: [pages/Home.js],
      [components/layout/Footer.js], [pages/admin/AdminDashboard.js]
      and [pages/admin/AdminUsers.js]

    These views hold no state and make no call but the home page's
    query ([Links]).  What they show is modelled as data: the home
    page's hero, feature cards, featured section and newsletter form;
    the footer's columns, newsletter form and copyright line; the
    dashboard's statistic cards, quick actions and recent activity; the
    users page's placeholder.

    The two newsletter forms have no [onSubmit] and their e-mail input
    has no [name].  A click on "Subscribe" therefore runs the browser's
    own form submission (HTML, "form submission algorithm", method GET
    with no [action]): it navigates to the current path with the form
    data set as the query, here an empty one.  Module [Forms] models
    that rule; the theorems follow it into the product list, which
    rebuilds its filters from the query. *)

From Stdlib Require Import ZArith Ascii.
From stdpp Require Import base list strings.
From S2P Require Import Prelude Session Api Routes Endpoints Links Products.
Import Navigation.

(** ** Forms the browser submits *)
Module Forms.

(** A [<form>]: its [onSubmit] handler if it has one, and the named
    fields it holds (its form data set). *)
Record form := mk_form { onSubmit : option string; named_fields : list (string * string) }.

(** The browser's location: a path and its search parameters. *)
Record location := mk_location { loc_path : string; loc_search : list (string * string) }.

Inductive submit_result := Handled (handler : string) | Navigate (to : location).

(** Submitting a form whose fields are valid: React calls the handler
    when there is one; otherwise the browser navigates to the current
    path with the form data set as the whole query. *)
Definition submit (f : form) (loc : location) : submit_result :=
  match onSubmit f with
  | Some h => Handled h
  | None => Navigate (mk_location (loc_path loc) (named_fields f))
  end.

(** The newsletter forms of Home.js (lines 161-173) and Footer.js
    (lines 108-120): no [onSubmit], an [<input type="email">] without
    [name], a submit button. *)
Definition newsletter_form : form := mk_form None [].

End Forms.

(** ** The home page *)
Module HomePage.
Import Forms.

Record home := mk_home {
  hero_links : list string;
  feature_cards : list (string * string);
  featured : home_view;
  view_all : string;
  newsletter : form;
}.

(** [Home], lines 37-176: the hero's two links (lines 50-62), the
    feature cards (lines 76-88), the featured section (lines 100-141),
    "View All Products" (lines 143-150) and the newsletter (lines
    154-175). *)
Definition Home (isLoading : bool) (products : option (list string)) : home :=
  mk_home ["/products"; "/products"] features (home_render isLoading products) "/products"
    newsletter_form.

End HomePage.

(** ** The footer *)
Module FooterView.
Import Forms.

Record footer_view := mk_footer_view {
  entries : list (string * target);
  footer_newsletter : form;
  copyright : string;
}.

(** [Footer], lines 4-143: its link columns, the newsletter (lines
    100-121) and the copyright line (lines 125-127), the JSX entity
    [&copy;] kept as written. *)
Definition Footer : footer_view :=
  mk_footer_view footer newsletter_form "&copy; 2024 TrendNest. All rights reserved.".

End FooterView.

(** ** The admin dashboard *)
Module AdminDashboardPage.

(** An entry of [stats], lines 11-44; [icon] names the component. *)
Record stat := mk_stat {
  stat_name : string;
  stat_value : string;
  icon : string;
  color : string;
  change : string;
  changeType : string;
}.

Definition stats : list stat :=
  [ mk_stat "Total Products" "24" "ShoppingBagIcon" "bg-blue-500" "+12%" "positive";
    mk_stat "Total Orders" "156" "ChartBarIcon" "bg-green-500" "+8%" "positive";
    mk_stat "Total Users" "89" "UserGroupIcon" "bg-purple-500" "+23%" "positive";
    mk_stat "Total Revenue" "$12,345" "CurrencyDollarIcon" "bg-yellow-500" "+15%" "positive" ].

(** The class of a statistic's change, lines 75-77. *)
Definition change_color (s : stat) : string :=
  if String.eqb (changeType s) "positive" then "text-green-600" else "text-red-600".

(** A statistic's card, lines 63-83: icon on its colour, name, value,
    and the change in its class, "from last month". *)
Record stat_card := mk_stat_card {
  card_icon : string * string;
  card_name : string;
  card_value : string;
  card_change : string * string;
}.

Definition stat_card_of (s : stat) : stat_card :=
  mk_stat_card (icon s, color s) (stat_name s) (stat_value s) (change s, change_color s).

(** The double quote, for the text of line 135. *)
Definition dq : string := String "034"%char EmptyString.

(** "Recent Activity", lines 102-140: initial, text and age of each
    entry, written in the markup. *)
Definition recent_activity : list (string * string * string) :=
  [ ("N", "New order #12345 received", "2 minutes ago");
    ("U", "User john_doe registered", "1 hour ago");
    ("P", ("Product " ++ dq ++ "Wireless Headphones" ++ dq ++ " updated")%string, "3 hours ago") ].

Record dashboard := mk_dashboard {
  stat_cards : list stat_card;
  actions : list (string * string);
  activity : list (string * string * string);
}.

(** [AdminDashboard], lines 53-143: the stat cards, the quick actions
    as links (lines 86-100) and the recent activity. *)
Definition AdminDashboard : dashboard :=
  mk_dashboard (map stat_card_of stats) quickActions recent_activity.

End AdminDashboardPage.

(** ** The users page *)
Module AdminUsersPage.

(** [AdminUsers], lines 3-15: a heading and a placeholder sentence. *)
Definition AdminUsers : string * string :=
  ("Manage Users", "User management interface will be implemented here.").

End AdminUsersPage.

(** ** Theorems *)

(** Subscribing to either newsletter (the footer's, shown on every page
    by [App], or the home page's) sends nothing and reloads the current
    path with an empty query; on the product list the filters rebuilt
    from that query are the defaults, whatever they were. *)
Theorem newsletter_drops_filters path sp f :
  (forall nf, nf = FooterView.footer_newsletter FooterView.Footer
              \/ nf = HomePage.newsletter (HomePage.Home false None) ->
     Forms.submit nf (Forms.mk_location path sp) = Forms.Navigate (Forms.mk_location path []))
  /\ match Forms.submit (FooterView.footer_newsletter FooterView.Footer)
          (Forms.mk_location "/products" (ProductsPage.to_search_params f)) with
     | Forms.Navigate l => ProductsPage.initial_filters (Forms.loc_search l) = ProductsPage.cleared
     | Forms.Handled _ => False
     end.
Proof. split; [intros nf [-> | ->]|]; reflexivity. Qed.
